(** * AnthropicAgent: a shallow embedding of [anthropic_agent.py]

    The development follows the source file
    [python/src/multi_agent_orchestrator/agents/anthropic_agent.py]:
    the prompt composer ([replace_placeholders]), the constructor, the
    request assembly, the tool dispatch bridge and the two recursion loops
    (single response and streaming).  Python values are modelled by the
    data the code observes on them; effects (transport calls, tool calls,
    the notification hook, chunks handed to the consumer, the shared
    message list) are threaded through an explicit world. *)

From Stdlib Require Import ZArith String Ascii List Bool Lia.
From stdpp Require Import base option list strings gmap.

Local Open Scope Z_scope.

(** ** Python strings *)

Module PyStr.

(** One-character string holding a line feed: the separator of
    ['\n'.join(value)]. *)
Definition newline : string := String (ascii_of_nat 10) EmptyString.

(** [sep.join(items)] *)
Fixpoint join (sep : string) (items : list string) : string :=
  match items with
  | [] => EmptyString
  | [x] => x
  | x :: rest => x +:+ sep +:+ join sep rest
  end.

(** [s.startswith(p)] *)
Fixpoint startswith (p s : string) : bool :=
  match p, s with
  | EmptyString, _ => true
  | String a p', String b s' => if Ascii.eqb a b then startswith p' s' else false
  | String _ _, EmptyString => false
  end.

(** The rest of [s] after the literal [p], when [s] starts with [p]. *)
Fixpoint removeprefix (p s : string) : option string :=
  match p, s with
  | EmptyString, _ => Some s
  | String a p', String b s' => if Ascii.eqb a b then removeprefix p' s' else None
  | String _ _, EmptyString => None
  end.

(** [sub in s] on strings: the substring test. *)
Fixpoint contains (sub s : string) : bool :=
  startswith sub s ||
  match s with
  | EmptyString => false
  | String _ s' => contains sub s'
  end.

End PyStr.

(** ** Prompt composer: [replace_placeholders] *)

(** Modelled from the spec: [TemplateVariables] is declared in
    [multi_agent_orchestrator.types], which is not part of the sources at
    hand; the spec gives its shape, a mapping from names to "string or
    ordered-sequence-of-string values". *)
Inductive TemplateValue : Type :=
  | VStr (s : string)
  | VList (items : list string).

(** The match object handed to the callback of [re.sub]: [group(0)] is the
    whole match, [group(1)] the captured name. *)
Record ReMatch : Type := mkMatch { group0 : string; group1 : string }.

Section Regex.

(** The character class [\w].  For [str] patterns Python's class is
    Unicode aware, so the class is kept abstract; the pattern
    [{{(\w+)}}] only relies on the braces lying outside it (see
    [WordClass] below). *)
Variable is_word : ascii -> bool.

(** Greedy [\w*]: the longest run of word characters and what follows. *)
Fixpoint word_run (s : string) : string * string :=
  match s with
  | EmptyString => (EmptyString, EmptyString)
  | String c s' =>
      if is_word c
      then let '(w, r) := word_run s' in (String c w, r)
      else (EmptyString, s)
  end.

(** An attempt to match [{{(\w+)}}] at the start of [s].  A closing
    brace is no word character, so giving characters of the greedy run
    back can never make the closing [}}] match: the attempt with the
    longest run is the only one that can succeed. *)
Definition match_at (s : string) : option ReMatch :=
  match PyStr.removeprefix "{{" s with
  | Some s1 =>
      match word_run s1 with
      | (String c w, r) =>
          match PyStr.removeprefix "}}" r with
          | Some _ => Some (mkMatch ("{{" +:+ String c w +:+ "}}") (String c w))
          | None => None
          end
      | (EmptyString, _) => None
      end
  | None => None
  end.

(** [re.sub(r'{{(\w+)}}', repl, s)]: the matches are found from left to
    right and do not overlap; text outside them is copied.  [skip]
    counts the characters of the current match that are still to be
    passed over. *)
Fixpoint re_sub (repl : ReMatch -> string) (skip : nat) (s : string) : string :=
  match s with
  | EmptyString => EmptyString
  | String c s' =>
      match skip with
      | S k => re_sub repl k s'
      | O =>
          match match_at s with
          | Some m => repl m +:+ re_sub repl (String.length (group0 m) - 1) s'
          | None => String c (re_sub repl 0 s')
          end
      end
  end.

(** The nested function [replace] of [replace_placeholders]. *)
Definition replace (variables : gmap string TemplateValue) (m : ReMatch) : string :=
  let key := group1 m in
  match variables !! key with
  | Some value =>
      match value with
      | VList items => PyStr.join PyStr.newline items
      | VStr s => s
      end
  | None => group0 m
  end.

Definition replace_placeholders
    (template : string) (variables : gmap string TemplateValue) : string :=
  re_sub (replace variables) 0 template.

End Regex.

(** [\w] on ASCII text: letters, digits and the underscore. *)
Definition ascii_word (c : ascii) : bool :=
  let n := nat_of_ascii c in
  ((48 <=? n) && (n <=? 57) || (65 <=? n) && (n <=? 90)
   || (97 <=? n) && (n <=? 122) || (n =? 95))%nat.

(** What the pattern needs of the class [\w]. *)
Record WordClass (is_word : ascii -> bool) : Prop := {
  open_brace_not_word : is_word "{"%char = false;
  close_brace_not_word : is_word "}"%char = false
}.

(** A placeholder name: a non-empty run of word characters. *)
Fixpoint all_word (is_word : ascii -> bool) (s : string) : bool :=
  match s with
  | EmptyString => true
  | String c s' => is_word c && all_word is_word s'
  end.

Definition is_name (is_word : ascii -> bool) (s : string) : bool :=
  match s with
  | EmptyString => false
  | String _ _ => all_word is_word s
  end.

(** Text without an opening brace. *)
Fixpoint brace_free (s : string) : bool :=
  match s with
  | EmptyString => true
  | String c s' => negb (Ascii.eqb "{" c) && brace_free s'
  end.

(** The text of the placeholder for [name]. *)
Definition placeholder (name : string) : string := "{{" +:+ name +:+ "}}".


(** ** Python values the agent handles *)

(** The exceptions that can travel through the agent.  [ExternalError]
    stands for whatever an external collaborator (transport, tool handler,
    retriever) raises. *)
Inductive PyExn : Type :=
  | ValueError (msg : string)
  | RuntimeError (msg : string)
  | AttributeError (attr : string)
  | KeyError (key : string)
  | IndexError
  | TypeError (msg : string)
  | ExternalError (what : string).

(** The outcome of a Python call: a value, or a raised exception. *)
Inductive Result (A : Type) : Type :=
  | Ok (a : A)
  | Raise (e : PyExn).
Arguments Ok {A} a.
Arguments Raise {A} e.

(** An element of a [content] sequence.  The code reads such elements in
    two ways: as objects of the transport's library, through the
    attributes [.type] and [.text] (only text blocks carry [.text]), and,
    for stored history, as dicts through the key ['text']. *)
Inductive ContentItem : Type :=
  | Block (type : string) (text : option string)
  | DictItem (text : option string).

(** [item.type] *)
Definition item_type (c : ContentItem) : Result string :=
  match c with
  | Block ty _ => Ok ty
  | DictItem _ => Raise (AttributeError "type")
  end.

(** [item.text] *)
Definition item_text (c : ContentItem) : Result string :=
  match c with
  | Block _ (Some t) => Ok t
  | Block _ None => Raise (AttributeError "text")
  | DictItem _ => Raise (AttributeError "text")
  end.

(** [item['text']] *)
Definition item_get_text (c : ContentItem) : Result string :=
  match c with
  | DictItem (Some t) => Ok t
  | DictItem None => Raise (KeyError "text")
  | Block _ _ => Raise (TypeError "object is not subscriptable")
  end.

(** A message with a role and a content sequence: the transport's
    response message and the framework's [ConversationMessage] alike (the
    code reads [.role] and [.content] of both). *)
Record Message : Type := mkMessage {
  role : string;
  content : list ContentItem
}.

(** Modelled from the spec: [ParticipantRole] is declared in
    [multi_agent_orchestrator.types], not part of the sources at hand; the
    spec names the two roles of the transport, user and assistant. *)
Definition ParticipantRole_USER : string := "user".
Definition ParticipantRole_ASSISTANT : string := "assistant".

(** Modelled from the spec: [AgentProviderType] is declared in
    [multi_agent_orchestrator.types] as well; the spec calls its value
    "a provider-identifier tag". *)
Definition AgentProviderType_ANTHROPIC : string := "ANTHROPIC".

(** An entry of the [messages] list of the request: a dict with a role and
    a content that is a string (history, user input) or a content sequence
    (the assistant turn of a tool round).  Tool handlers return such an
    entry. *)
Inductive TurnContent : Type :=
  | TextContent (s : string)
  | ItemsContent (items : list ContentItem).

Record Turn : Type := mkTurn {
  turn_role : string;
  turn_content : TurnContent
}.

(** Modelled from the spec: [AgentStreamResponse] (the spec's StreamChunk)
    is declared in [multi_agent_orchestrator.agents], not part of the
    sources at hand: "either an incremental text fragment, or a terminal
    marker carrying the fully assembled final message".  The code builds
    it with one of the keywords [text] and [final_message] and tests
    [final_message] for truth. *)
Record AgentStreamResponse : Type := mkChunk {
  chunk_text : option string;
  final_message : option Message
}.

Definition text_chunk (t : string) : AgentStreamResponse :=
  {| chunk_text := Some t; final_message := None |}.
Definition final_chunk (m : Message) : AgentStreamResponse :=
  {| chunk_text := None; final_message := Some m |}.

(** An event of the transport's stream: [event.type], and [event.text] of
    a text event. *)
Record StreamEvent : Type := mkEvent {
  event_type : string;
  event_text : string
}.

(** One scripted stream: what the iteration over the stream delivers (an
    event, or an exception that ends it) and what
    [stream.get_final_message()] returns. *)
Record StreamScript : Type := mkStream {
  stream_events : list (Result StreamEvent);
  get_final_message : Result Message
}.

(** The transport: the [n]-th call to the client (counting both kinds of
    call, from zero) returns, or raises, what the script says. *)
Record Transport : Type := mkTransport {
  messages_create : nat -> Result Message;
  messages_stream : nat -> Result StreamScript
}.

(** The client object handed to, or built by, the constructor. *)
Inductive Client : Type :=
  | Anthropic (api_key : option string)
  | AsyncAnthropic (api_key : option string)
  | ForeignObject (truthy : bool).

Definition isinstance_AsyncAnthropic (c : Client) : bool :=
  match c with AsyncAnthropic _ => true | _ => false end.
Definition isinstance_Anthropic (c : Client) : bool :=
  match c with Anthropic _ => true | _ => false end.
(** [bool(client)]: the clients of the library are plain objects, hence
    true. *)
Definition client_truth (c : Client) : bool :=
  match c with ForeignObject b => b | _ => true end.

(** A tool declaration in the transport's format (opaque to the agent). *)
Record ToolDecl : Type := mkToolDecl { tool_decl : string }.

(** [AgentTools], the structured tool registry: its formatting routine and
    its built-in handler. *)
Record AgentTools : Type := mkAgentTools {
  to_claude_format : list ToolDecl;
  tool_handler : string -> Message -> list Turn -> Result Turn
}.

(** An element of a raw tool list: an [AgentTool], which formats itself, or
    anything else, which is passed through. *)
Inductive ListedTool : Type :=
  | AgentTool (claude_format : ToolDecl)
  | RawTool (decl : ToolDecl).

(** The value under the key ['tool']. *)
Inductive ToolField : Type :=
  | ToolsRegistry (r : AgentTools)
  | ToolsList (l : list ListedTool)
  | ToolsOther.

(** The dict [tool_config] with its recognised keys; [None] is an absent
    key. *)
Record ToolConfig : Type := mkToolConfig {
  tool : option ToolField;
  toolMaxRecursions : option Z;
  useToolHandler : option (Message -> list Turn -> Result Turn)
}.

(** [bool(tool_config)] for a dict: it has a key. *)
Definition dict_truth (cfg : ToolConfig) : bool :=
  match tool cfg, toolMaxRecursions cfg, useToolHandler cfg with
  | None, None, None => false
  | _, _, _ => true
  end.

Definition tool_config_truth (cfg : option ToolConfig) : bool :=
  match cfg with Some c => dict_truth c | None => false end.

(** A value of the inference configuration. *)
Inductive InferenceValue : Type :=
  | IInt (n : Z)
  | IDecimal (mantissa : Z) (exponent10 : Z)
  | IStrings (l : list string).

(** [options.custom_system_prompt], when it is a dict with entries: what
    [.get('template')] and [.get('variables')] return, [None] for a missing
    key or a stored [None].  In [AnthropicAgentOptions] the field is [Some]
    of such a dict, which is true, or [None] for an absent or an empty
    dict, which are both false. *)
Record CustomSystemPrompt : Type := mkCustomPrompt {
  template : option string;
  variables : option (gmap string TemplateValue)
}.

Record AnthropicAgentOptions : Type := mkOptions {
  opt_name : string;
  opt_description : string;
  opt_api_key : option string;
  opt_client : option Client;
  opt_model_id : string;
  opt_streaming : option bool;
  opt_inference_config : option (gmap string InferenceValue);
  opt_retriever : option (string -> Result string);
  opt_tool_config : option ToolConfig;
  opt_custom_system_prompt : option CustomSystemPrompt
}.

(** The fields of [self]. *)
Record AnthropicAgent : Type := mkAgent {
  name : string;
  description : string;
  streaming : option bool;
  client : Client;
  system_prompt : string;
  custom_variables : gmap string TemplateValue;
  default_max_recursions : Z;
  model_id : string;
  inference_config : gmap string InferenceValue;
  retriever : option (string -> Result string);
  tool_config : option ToolConfig;
  prompt_template : string
}.

(** The request payload [json_input]; [messages] is a reference to the
    list object shared with the caller. *)
Record Payload : Type := mkPayload {
  p_model : string;
  p_max_tokens : option InferenceValue;
  p_messages : nat;
  p_system : string;
  p_temperature : option InferenceValue;
  p_top_p : option InferenceValue;
  p_stop_sequences : option InferenceValue;
  p_tools : option (list ToolDecl)
}.

(** ** The world: effects made explicit *)

(** What the agent does to its environment, in the order it happens. *)
Inductive Event : Type :=
  | EvCreate (input : Payload) (messages : list Turn)
      (* client.messages.create( **input ), with the messages it carries *)
  | EvStream (input : Payload) (messages : list Turn)
      (* client.messages.stream( **input ) *)
  | EvNewToken (text : string)
      (* callbacks.on_llm_new_token(text) *)
  | EvYield (chunk : AgentStreamResponse)
      (* a chunk handed to the consumer of the generator *)
  | EvUseToolHandler (llm_response : Message) (conversation : list Turn)
      (* tool_config['useToolHandler'](llm_response, conversation) *)
  | EvToolHandler (provider : string) (llm_response : Message) (conversation : list Turn)
      (* tool_config['tool'].tool_handler(provider, llm_response, conversation) *)
  | EvRetrieve (input_text : string)
      (* retriever.retrieve_and_combine_results(input_text) *)
  | EvLoggerError (context : string) (error : PyExn).
      (* Logger.error(f"{context}{error}") *)

(** [heap] holds the Python list objects of message entries, addressed by
    their index; [calls] counts the transport calls made so far. *)
Record World : Type := mkWorld {
  heap : list (list Turn);
  calls : nat;
  trace : list Event
}.

Definition empty_world : World := {| heap := []; calls := 0; trace := [] |}.

(** The list object at reference [l]. *)
Definition heap_get (w : World) (l : nat) : list Turn :=
  default [] (heap w !! l).

(** A computation: it reads and changes the world and returns or raises.
    The world survives an exception. *)
Definition M (A : Type) : Type := World -> Result A * World.

Definition ret {A} (a : A) : M A := fun w => (Ok a, w).

Definition raise {A} (e : PyExn) : M A := fun w => (Raise e, w).

Definition bind {A B} (m : M A) (k : A -> M B) : M B :=
  fun w =>
    match m w with
    | (Ok a, w') => k a w'
    | (Raise e, w') => (Raise e, w')
    end.

Notation "'let*' x ':=' m 'in' k" := (bind m (fun x => k))
  (at level 10, x pattern, m at level 100, k at level 200).
Notation "m ';;' k" := (bind m (fun _ => k))
  (at level 100, k at level 200, right associativity).

(** A value or exception computed without touching the world. *)
Definition lift {A} (r : Result A) : M A := fun w => (r, w).

(** The changes a step makes to the world. *)
Definition with_event (w : World) (ev : Event) : World :=
  {| heap := heap w; calls := calls w; trace := trace w ++ [ev] |}.

Definition with_call (w : World) (ev : Event) : World :=
  {| heap := heap w; calls := S (calls w); trace := trace w ++ [ev] |}.

Definition with_append (w : World) (l : nat) (x : Turn) : World :=
  {| heap := <[l := heap_get w l ++ [x]]> (heap w);
     calls := calls w; trace := trace w |}.

Definition emit (ev : Event) : M unit :=
  fun w => (Ok tt, with_event w ev).

(** [try: body  except Exception as error: Logger.error(...); raise error] *)
Definition try_log {A} (context : string) (body : M A) : M A :=
  fun w =>
    match body w with
    | (Ok a, w') => (Ok a, w')
    | (Raise e, w') => (Raise e, with_event w' (EvLoggerError context e))
    end.

(** A new list object; the result is its reference. *)
Definition new_list (l : list Turn) : M nat :=
  fun w => (Ok (length (heap w)),
            {| heap := heap w ++ [l]; calls := calls w; trace := trace w |}).

(** [lst.append(x)] on the list object at [l]. *)
Definition list_append (l : nat) (x : Turn) : M unit :=
  fun w => (Ok tt, with_append w l x).

(** The current contents of the list object at [l]. *)
Definition read_list (l : nat) : M (list Turn) :=
  fun w => (Ok (heap_get w l), w).

(** One transport call: it is counted and recorded whether it returns or
    raises. *)
Definition transport_call {A} (script : nat -> Result A) (ev : Event) : M A :=
  fun w => (script (calls w), with_call w ev).

(** Readings of a trace. *)
Definition yielded (t : list Event) : list AgentStreamResponse :=
  omap (fun ev => match ev with EvYield c => Some c | _ => None end) t.

Definition tokens (t : list Event) : list string :=
  omap (fun ev => match ev with EvNewToken s => Some s | _ => None end) t.

Definition is_tool_call (ev : Event) : bool :=
  match ev with
  | EvUseToolHandler _ _ | EvToolHandler _ _ _ => true
  | _ => false
  end.

Definition tool_calls (t : list Event) : list Event := List.filter is_tool_call t.

Definition is_transport_call (ev : Event) : bool :=
  match ev with
  | EvCreate _ _ | EvStream _ _ => true
  | _ => false
  end.

Definition transport_calls (t : list Event) : list Event :=
  List.filter is_transport_call t.

(** The chunks that carry a final message, and those that carry text. *)
Definition terminal_chunks (l : list AgentStreamResponse) : list Message :=
  omap final_message l.
Definition text_chunks (l : list AgentStreamResponse) : list string :=
  omap (fun c => match final_message c with Some _ => None | None => chunk_text c end) l.

(** ** Truth values of optional settings *)

(** [bool(s)] for an optional string: present and not empty. *)
Definition str_truth (s : option string) : bool :=
  match s with Some (String _ _) => true | _ => false end.

(** [bool(b)] for [Optional[bool]]. *)
Definition flag_truth (b : option bool) : bool :=
  match b with Some true => true | _ => false end.

Definition opt_client_truth (c : option Client) : bool :=
  match c with Some c => client_truth c | None => false end.

(** ** The constructor and the prompt *)

Definition indent : string := "        ".

(** The f-string assigned to [self.prompt_template]. *)
Definition default_prompt_template (name description : string) : string :=
  PyStr.join (PyStr.newline +:+ indent)
    [ "You are a " +:+ name +:+ ".";
      description;
      "Provide helpful and accurate information based on your expertise.";
      "You will engage in an open-ended conversation,";
      "providing helpful and accurate information based on your expertise.";
      "The conversation will proceed as follows:";
      "- The human may ask an initial question or provide a prompt on any topic.";
      "- You will provide a relevant and informative response.";
      "- The human may then follow up with additional questions or prompts related to your previous";
      "response, allowing for a multi-turn dialogue on that topic.";
      "- Or, the human may switch to a completely new and unrelated topic at any point.";
      "- You will seamlessly shift your focus to the new topic, providing thoughtful and";
      "coherent responses based on your broad knowledge base.";
      "Throughout the conversation, you should aim to:";
      "- Understand the context and intent behind each new question or prompt.";
      "- Provide substantive and well-reasoned responses that directly address the query.";
      "- Draw insights and connections from your extensive knowledge when appropriate.";
      "- Ask for clarification if any part of the question or prompt is ambiguous.";
      "- Maintain a consistent, respectful, and engaging tone tailored";
      "to the human's communication style.";
      "- Seamlessly transition between topics as the human introduces new subjects." ].

Definition default_inference_config : gmap string InferenceValue :=
  {[ "maxTokens" := IInt 1000;
     "temperature" := IDecimal 1 (-1);
     "topP" := IDecimal 9 (-1);
     "stopSequences" := IStrings [] ]}.

Definition with_prompt_template (self : AnthropicAgent) (t : string) : AnthropicAgent :=
  {| name := name self; description := description self;
     streaming := streaming self; client := client self;
     system_prompt := system_prompt self;
     custom_variables := custom_variables self;
     default_max_recursions := default_max_recursions self;
     model_id := model_id self; inference_config := inference_config self;
     retriever := retriever self; tool_config := tool_config self;
     prompt_template := t |}.

Definition with_custom_variables (self : AnthropicAgent)
    (v : gmap string TemplateValue) : AnthropicAgent :=
  {| name := name self; description := description self;
     streaming := streaming self; client := client self;
     system_prompt := system_prompt self;
     custom_variables := v;
     default_max_recursions := default_max_recursions self;
     model_id := model_id self; inference_config := inference_config self;
     retriever := retriever self; tool_config := tool_config self;
     prompt_template := prompt_template self |}.

Definition with_system_prompt (self : AnthropicAgent) (p : string) : AnthropicAgent :=
  {| name := name self; description := description self;
     streaming := streaming self; client := client self;
     system_prompt := p;
     custom_variables := custom_variables self;
     default_max_recursions := default_max_recursions self;
     model_id := model_id self; inference_config := inference_config self;
     retriever := retriever self; tool_config := tool_config self;
     prompt_template := prompt_template self |}.

Section Agent.

Variable is_word : ascii -> bool.

(** [update_system_prompt]; the copy [{**self.custom_variables}] has the
    entries of the original. *)
Definition update_system_prompt (self : AnthropicAgent) : AnthropicAgent :=
  let all_variables := custom_variables self in
  with_system_prompt self
    (replace_placeholders is_word (prompt_template self) all_variables).

Definition set_system_prompt (self : AnthropicAgent)
    (template : option string)
    (variables : option (gmap string TemplateValue)) : AnthropicAgent :=
  let self1 :=
    match template with
    | Some (String c t) => with_prompt_template self (String c t)
    | _ => self
    end in
  let self2 :=
    match variables with
    | Some v => if decide (v = ∅) then self1 else with_custom_variables self1 v
    | None => self1
    end in
  update_system_prompt self2.

(** The choice of [self.client] in [__init__]. *)
Definition choose_client (options : AnthropicAgentOptions) : Result Client :=
  let streaming := opt_streaming options in
  match opt_client options with
  | Some c =>
      if client_truth c then
        if flag_truth streaming then
          if negb (isinstance_AsyncAnthropic c)
          then Raise (ValueError
            "If streaming is enabled, the provided client must be an AsyncAnthropic client")
          else Ok c
        else
          if negb (isinstance_Anthropic c)
          then Raise (ValueError
            "If streaming is disabled, the provided client must be an Anthropic client")
          else Ok c
      else if flag_truth streaming
      then Ok (AsyncAnthropic (opt_api_key options))
      else Ok (Anthropic (opt_api_key options))
  | None =>
      if flag_truth streaming
      then Ok (AsyncAnthropic (opt_api_key options))
      else Ok (Anthropic (opt_api_key options))
  end.

(** [AnthropicAgent.__init__], after [super().__init__(options)] has
    stored the name and the description. *)
Definition __init__ (options : AnthropicAgentOptions) : Result AnthropicAgent :=
  if negb (str_truth (opt_api_key options)) && negb (opt_client_truth (opt_client options))
  then Raise (ValueError "Anthropic API key or Anthropic client is required")
  else
    match choose_client options with
    | Raise e => Raise e
    | Ok c =>
        let self :=
          {| name := opt_name options;
             description := opt_description options;
             streaming := opt_streaming options;
             client := c;
             system_prompt := EmptyString;
             custom_variables := ∅;
             default_max_recursions := 5;
             model_id := opt_model_id options;
             inference_config :=
               match opt_inference_config options with
               | Some cfg =>
                   if decide (cfg = ∅) then default_inference_config
                   else cfg ∪ default_inference_config
               | None => default_inference_config
               end;
             retriever := opt_retriever options;
             tool_config := opt_tool_config options;
             prompt_template :=
               default_prompt_template (opt_name options) (opt_description options) |} in
        match opt_custom_system_prompt options with
        | Some csp => Ok (set_system_prompt self (template csp) (variables csp))
        | None => Ok self
        end
    end.

Definition is_streaming_enabled (self : AnthropicAgent) : bool :=
  match streaming self with Some true => true | _ => false end.

End Agent.

(** ** Request assembly *)

(** One entry of the list comprehension of [_prepare_conversation]. *)
Definition history_turn (msg : Message) : Result Turn :=
  let r := if String.eqb (role msg) ParticipantRole_USER then "user" else "assistant" in
  match content msg with
  | [] => Ok (mkTurn r (TextContent EmptyString))
  | c :: _ =>
      match item_get_text c with
      | Ok t => Ok (mkTurn r (TextContent t))
      | Raise e => Raise e
      end
  end.

Fixpoint history_turns (chat_history : list Message) : Result (list Turn) :=
  match chat_history with
  | [] => Ok []
  | msg :: rest =>
      match history_turn msg with
      | Raise e => Raise e
      | Ok t =>
          match history_turns rest with
          | Raise e => Raise e
          | Ok ts => Ok (t :: ts)
          end
      end
  end.

(** [_prepare_conversation]: the result is a new list object. *)
Definition _prepare_conversation
    (input_text : string) (chat_history : list Message) : M nat :=
  let* messages := lift (history_turns chat_history) in
  new_list (messages ++ [mkTurn "user" (TextContent input_text)]).

(** [_prepare_tool_config] *)
Definition _prepare_tool_config (self : AnthropicAgent) : Result (list ToolDecl) :=
  match tool_config self with
  | None => Raise (TypeError "'NoneType' object is not subscriptable")
  | Some cfg =>
      match tool cfg with
      | None => Raise (KeyError "tool")
      | Some (ToolsRegistry r) => Ok (to_claude_format r)
      | Some (ToolsList l) =>
          Ok (List.map (fun t => match t with
                                 | AgentTool f => f
                                 | RawTool d => d
                                 end) l)
      | Some ToolsOther => Raise (RuntimeError "Invalid tool config")
      end
  end.

(** [_build_input] *)
Definition _build_input (self : AnthropicAgent)
    (messages : nat) (system_prompt : string) : Result Payload :=
  let json_input tools :=
    {| p_model := model_id self;
       p_max_tokens := inference_config self !! "maxTokens";
       p_messages := messages;
       p_system := system_prompt;
       p_temperature := inference_config self !! "temperature";
       p_top_p := inference_config self !! "topP";
       p_stop_sequences := inference_config self !! "stopSequences";
       p_tools := tools |} in
  if tool_config_truth (tool_config self) then
    match _prepare_tool_config self with
    | Ok tools => Ok (json_input (Some tools))
    | Raise e => Raise e
    end
  else Ok (json_input None).

(** [_get_max_recursions] *)
Definition _get_max_recursions (self : AnthropicAgent) : Z :=
  match tool_config self with
  | Some cfg =>
      if negb (dict_truth cfg) then 1
      else match toolMaxRecursions cfg with
           | Some n => n
           | None => default_max_recursions self
           end
  | None => 1
  end.

(** ** Tool dispatch *)

(** [any('tool_use' in content.type for content in items)]: the items are
    inspected in order up to the first one of a tool-use type. *)
Fixpoint any_tool_use (items : list ContentItem) : Result bool :=
  match items with
  | [] => Ok false
  | c :: rest =>
      match item_type c with
      | Raise e => Raise e
      | Ok ty => if PyStr.contains "tool_use" ty then Ok true else any_tool_use rest
      end
  end.

(** [items[0].text] *)
Definition first_text (items : list ContentItem) : Result string :=
  match items with
  | [] => Raise IndexError
  | c :: _ => item_text c
  end.

(** [_process_tool_block]; [conversation] is a reference to a list object,
    read when the handler is called. *)
Definition _process_tool_block (self : AnthropicAgent)
    (llm_response : Message) (conversation : nat) : M Turn :=
  match tool_config self with
  | None => raise (TypeError "argument of type 'NoneType' is not iterable")
  | Some cfg =>
      match useToolHandler cfg with
      | Some handler =>
          let* conv := read_list conversation in
          emit (EvUseToolHandler llm_response conv);;
          lift (handler llm_response conv)
      | None =>
          match tool cfg with
          | None => raise (KeyError "tool")
          | Some (ToolsRegistry r) =>
              let* conv := read_list conversation in
              emit (EvToolHandler AgentProviderType_ANTHROPIC llm_response conv);;
              lift (tool_handler r AgentProviderType_ANTHROPIC llm_response conv)
          | Some _ =>
              raise (ValueError "You must use class when not providing a custom tool handler")
          end
      end
  end.

(** ** The recursion loops *)

(** The variables of a loop: [continue_with_tools], [max_recursions] and
    the last response ([llm_response] in the single-response loop,
    [final_response] in the streaming loop). *)
Record LoopState : Type := mkLoop {
  continue_with_tools : bool;
  max_recursions : Z;
  response : option Message
}.

Definition loop_init (max_recursions : Z) : LoopState :=
  {| continue_with_tools := true; max_recursions := max_recursions; response := None |}.

(** [continue_with_tools and max_recursions > 0] *)
Definition loop_cond (st : LoopState) : bool :=
  continue_with_tools st && (0 <? max_recursions st).

(** [while cond: body].  Every round lowers [max_recursions] by one, so
    [Z.to_nat max_recursions] rounds always suffice; [fuel] is that number
    (see [while_loop_fuel]). *)
Fixpoint while_loop (body : LoopState -> M LoopState) (fuel : nat)
    (st : LoopState) : M LoopState :=
  if loop_cond st then
    match fuel with
    | O => ret st
    | S fuel' => let* st' := body st in while_loop body fuel' st'
    end
  else ret st.

Section Engine.

Variable net : Transport.

(** [handle_single_response] *)
Definition handle_single_response (input_data : Payload) : M Message :=
  try_log "Error invoking Anthropic: "
    (let* msgs := read_list (p_messages input_data) in
     transport_call (messages_create net) (EvCreate input_data msgs)).

(** The body of the loop of [_handle_single_response_loop]. *)
Definition single_round (self : AnthropicAgent) (payload_input : Payload)
    (messages : nat) (st : LoopState) : M LoopState :=
  let* llm_response := handle_single_response payload_input in
  let* has_tool := lift (any_tool_use (content llm_response)) in
  let* continue :=
    (if has_tool : bool then
       list_append (p_messages payload_input)
         (mkTurn "assistant" (ItemsContent (content llm_response)));;
       let* tool_response := _process_tool_block self llm_response messages in
       list_append (p_messages payload_input) tool_response;;
       ret (continue_with_tools st)
     else ret false) in
  ret {| continue_with_tools := continue;
         max_recursions := max_recursions st - 1;
         response := Some llm_response |}.

(** The [return] after the loop. *)
Definition final_of (st : LoopState) : M Message :=
  match response st with
  | None => raise (AttributeError "content")
  | Some llm_response =>
      let* t := lift (first_text (content llm_response)) in
      ret (mkMessage ParticipantRole_ASSISTANT [DictItem (Some t)])
  end.

(** [_handle_single_response_loop] *)
Definition _handle_single_response_loop (self : AnthropicAgent)
    (payload_input : Payload) (messages : nat) (max_recursions : Z) : M Message :=
  let* st := while_loop (single_round self payload_input messages)
               (Z.to_nat max_recursions) (loop_init max_recursions) in
  final_of st.

End Engine.

Section Streaming.

Variable net : Transport.

Section Generator.

(** A generator hands each chunk to its consumer, which resumes it
    afterwards.  The consumer is the body of the loop that iterates
    over the generator: it keeps a state of its own and acts on the
    world. *)
Context {S : Type}.
Variable consume : S -> AgentStreamResponse -> World -> S * World.

Definition yield (chunk : AgentStreamResponse) (s : S) : M S :=
  fun w => let '(s', w') := consume s chunk w in (Ok s', w').

(** [async for event in stream: ...] of [handle_streaming_response];
    the assignment [recursions = 0] before [break] has no effect. *)
Fixpoint stream_loop (events : list (Result StreamEvent)) (s : S) : M S :=
  match events with
  | [] => ret s
  | Raise e :: _ => raise e
  | Ok event :: rest =>
      if String.eqb (event_type event) "text" then
        emit (EvNewToken (event_text event));;
        let* s' := yield (text_chunk (event_text event)) s in
        stream_loop rest s'
      else if String.eqb (event_type event) "content_block_stop" then ret s
      else stream_loop rest s
  end.

(** [handle_streaming_response] *)
Definition handle_streaming_response (input : Payload) (s : S) : M S :=
  try_log "Error getting stream from Anthropic model: "
    (let* msgs := read_list (p_messages input) in
     let* stream := transport_call (messages_stream net) (EvStream input msgs) in
     let* s1 := stream_loop (stream_events stream) s in
     let* accumulated := lift (get_final_message stream) in
     yield (final_chunk (mkMessage ParticipantRole_ASSISTANT (content accumulated))) s1).

End Generator.

(** The consumer that is the caller of a generator: every chunk reaches
    it. *)
Definition to_caller (s : unit) (chunk : AgentStreamResponse) (w : World) : unit * World :=
  (s, with_event w (EvYield chunk)).

(** The body of [async for chunk in response] in [stream_generator]: a
    chunk with a final message is kept in [final_response], any other
    chunk is yielded to the caller. *)
Definition forward (final_response : option Message)
    (chunk : AgentStreamResponse) (w : World) : option Message * World :=
  match final_message chunk with
  | Some m => (Some m, w)
  | None => let '(_, w') := to_caller tt chunk w in (final_response, w')
  end.

(** The body of the loop of [stream_generator]. *)
Definition stream_round (self : AnthropicAgent) (payload_input : Payload)
    (messages : nat) (st : LoopState) : M LoopState :=
  let* final_response :=
    handle_streaming_response forward payload_input (response st) in
  match final_response with
  | None => raise (AttributeError "content")
  | Some final_response =>
      let* has_tool := lift (any_tool_use (content final_response)) in
      let* continue :=
        (if has_tool : bool then
           list_append (p_messages payload_input)
             (mkTurn "assistant" (ItemsContent (content final_response)));;
           let* tool_response := _process_tool_block self final_response messages in
           list_append (p_messages payload_input) tool_response;;
           ret (continue_with_tools st)
         else
           let* t := lift (first_text (content final_response)) in
           emit (EvYield (final_chunk
                   (mkMessage ParticipantRole_ASSISTANT [DictItem (Some t)])));;
           ret false) in
      ret {| continue_with_tools := continue;
             max_recursions := max_recursions st - 1;
             response := Some final_response |}
  end.

(** [stream_generator], run to its end by a consumer that takes every
    chunk. *)
Definition stream_generator (self : AnthropicAgent) (payload_input : Payload)
    (messages : nat) (max_recursions : Z) : M unit :=
  while_loop (stream_round self payload_input messages)
    (Z.to_nat max_recursions) (loop_init max_recursions);;
  ret tt.

(** [_handle_streaming]: it returns the generator and runs nothing. *)
Definition _handle_streaming (self : AnthropicAgent) (payload_input : Payload)
    (messages : nat) (max_recursions : Z) : M (M unit) :=
  ret (stream_generator self payload_input messages max_recursions).

(** What [process_request] returns. *)
Inductive Reply : Type :=
  | Final (m : Message)
  | Chunks (generator : M unit).

(** [_process_with_strategy] *)
Definition _process_with_strategy (self : AnthropicAgent) (streaming : option bool)
    (payload_input : Payload) (messages : nat) : M Reply :=
  let max_recursions := _get_max_recursions self in
  if flag_truth streaming then
    let* g := _handle_streaming self payload_input messages max_recursions in
    ret (Chunks g)
  else
    let* m := _handle_single_response_loop net self payload_input messages max_recursions in
    ret (Final m).

Variable is_word : ascii -> bool.

(** [_prepare_system_prompt]; the agent is returned with its refreshed
    [system_prompt]. *)
Definition _prepare_system_prompt (self : AnthropicAgent) (input_text : string)
    : M (AnthropicAgent * string) :=
  let self := update_system_prompt is_word self in
  let system_prompt := system_prompt self in
  match retriever self with
  | Some retrieve_and_combine_results =>
      emit (EvRetrieve input_text);;
      let* response := lift (retrieve_and_combine_results input_text) in
      ret (self, system_prompt +:+ PyStr.newline
                 +:+ "Here is the context to use to answer the user's question:"
                 +:+ PyStr.newline +:+ response)
  | None => ret (self, system_prompt)
  end.

(** [process_request] *)
Definition process_request (self : AnthropicAgent)
    (input_text user_id session_id : string) (chat_history : list Message)
    (additional_params : option (gmap string string)) : M (AnthropicAgent * Reply) :=
  let* messages := _prepare_conversation input_text chat_history in
  let* prepared := _prepare_system_prompt self input_text in
  let '(self, system_prompt) := prepared in
  let* json_input := lift (_build_input self messages system_prompt) in
  let* reply := _process_with_strategy self (streaming self) json_input messages in
  ret (self, reply).

(** The caller's use of a reply: a generator is iterated to its end. *)
Definition consume_reply (r : Reply) : M (option Message) :=
  match r with
  | Final m => ret (Some m)
  | Chunks g => g;; ret None
  end.

End Streaming.

(** ** Readings used by the statements *)

(** One round of a loop, as a relation between the loop variables and the
    world before and after it. *)
Definition loop_step (body : LoopState -> M LoopState)
    (x y : LoopState * World) : Prop :=
  loop_cond (fst x) = true /\ body (fst x) (snd x) = (Ok (fst y), snd y).

(** The transport rounds made between two worlds. *)
Definition rounds_between (w w' : World) : nat := (calls w' - calls w)%nat.

(** The world after the transport call of a single-response round, and
    after the assistant turn of a tool round has been appended. *)
Definition after_create (payload_input : Payload) (w : World) : World :=
  with_call w (EvCreate payload_input (heap_get w (p_messages payload_input))).

Definition after_assistant (payload_input : Payload) (w : World) (r : Message) : World :=
  with_append (after_create payload_input w) (p_messages payload_input)
    (mkTurn "assistant" (ItemsContent (content r))).

(** The response of a transport call holds a tool-use block. *)
Definition requests_tool (r : Result Message) : bool :=
  match r with
  | Ok m => match any_tool_use (content m) with Ok b => b | Raise _ => false end
  | Raise _ => false
  end.

(** A text event, and the event that ends a block. *)
Definition text_event (t : string) : StreamEvent := mkEvent "text" t.
Definition block_stop : StreamEvent := mkEvent "content_block_stop" EmptyString.

(** The text fragments a round forwards: those of the text events up to
    the first [content_block_stop], or up to the failure of the stream. *)
Fixpoint forwarded (events : list (Result StreamEvent)) : list string :=
  match events with
  | [] => []
  | Raise _ :: _ => []
  | Ok event :: rest =>
      if String.eqb (event_type event) "text" then event_text event :: forwarded rest
      else if String.eqb (event_type event) "content_block_stop" then []
      else forwarded rest
  end.

(** The exception that ends the iteration over a stream, if one is raised
    before the first [content_block_stop]. *)
Fixpoint stream_failure (events : list (Result StreamEvent)) : option PyExn :=
  match events with
  | [] => None
  | Raise e :: _ => Some e
  | Ok event :: rest =>
      if String.eqb (event_type event) "text" then stream_failure rest
      else if String.eqb (event_type event) "content_block_stop" then None
      else stream_failure rest
  end.

(** What forwarding the text fragments [texts] adds to the trace: for each
    fragment the notification hook, then the chunk. *)
Definition round_events (texts : list string) : list Event :=
  flat_map (fun t => [EvNewToken t; EvYield (text_chunk t)]) texts.

Definition with_events (w : World) (evs : list Event) : World :=
  {| heap := heap w; calls := calls w; trace := trace w ++ evs |}.

(** The world after a stream has been opened and its events consumed. *)
Definition after_stream (payload_input : Payload) (script : StreamScript) (w : World) : World :=
  with_events
    (with_call w (EvStream payload_input (heap_get w (p_messages payload_input))))
    (round_events (forwarded (stream_events script))).

(** The context of the log entry of [handle_streaming_response]. *)
Definition stream_error_context : string := "Error getting stream from Anthropic model: ".

(** What a streamed round hands to [stream_generator] as final message. *)
Definition stream_result (script : StreamScript) : Result Message :=
  match stream_failure (stream_events script) with
  | Some e => Raise e
  | None =>
      match get_final_message script with
      | Raise e => Raise e
      | Ok accumulated => Ok (mkMessage ParticipantRole_ASSISTANT (content accumulated))
      end
  end.

(** The texts of the text events among [events]. *)
Definition texts_of (events : list StreamEvent) : list string :=
  List.map event_text
    (List.filter (fun ev => String.eqb (event_type ev) "text") events).

(** How the iteration over a stream ends: the events run out, an event of
    type [content_block_stop] comes (what follows it is left in the
    stream), or the stream raises. *)
Inductive StreamEnding : Type :=
  | Exhausted
  | Stopped (t : string) (post : list (Result StreamEvent))
  | Failed (e : PyExn) (post : list (Result StreamEvent)).

Definition ending_events (ending : StreamEnding) : list (Result StreamEvent) :=
  match ending with
  | Exhausted => []
  | Stopped t post => Ok (mkEvent "content_block_stop" t) :: post
  | Failed e post => Raise e :: post
  end.

(** What one run of [handle_streaming_response] ends with, given the end
    of the iteration and what [get_final_message] does: the exception, or
    the accumulated message. *)
Definition stream_outcome (ending : StreamEnding) (final : Result Message)
    : Result Message :=
  match ending with
  | Failed e _ => Raise e
  | _ => final
  end.

(** The chunks one streamed round yields to the caller: the forwarded text
    fragments, then the terminal chunk when the final message of the round
    holds no tool-use block and starts with a text block. *)
Definition round_chunks (net : Transport) (c : nat) : list AgentStreamResponse :=
  match messages_stream net c with
  | Raise _ => []
  | Ok script =>
      List.map text_chunk (forwarded (stream_events script)) ++
      match stream_result script with
      | Ok m =>
          match any_tool_use (content m) with
          | Ok false =>
              match first_text (content m) with
              | Ok t => [final_chunk (mkMessage ParticipantRole_ASSISTANT [DictItem (Some t)])]
              | Raise _ => []
              end
          | _ => []
          end
      | Raise _ => []
      end
  end.

(** The round, the [c]-th call of the transport, asks for a tool. *)
Definition round_continues (net : Transport) (c : nat) : bool :=
  match messages_stream net c with
  | Ok script =>
      match stream_result script with
      | Ok m => match any_tool_use (content m) with Ok true => true | _ => false end
      | Raise _ => false
      end
  | Raise _ => false
  end.

(** The chunks of a streamed request with a budget of [n] rounds whose
    first round is the [c]-th call of the transport. *)
Fixpoint stream_chunks (net : Transport) (n : nat) (c : nat) : list AgentStreamResponse :=
  match n with
  | O => []
  | S n' =>
      round_chunks net c ++
      (if round_continues net c then stream_chunks net n' (S c) else [])
  end.

(** The final message of the round that is the [c]-th call of the
    transport, in either mode. *)
Definition round_response (net : Transport) (mode : bool) (c : nat) : Result Message :=
  if mode then
    match messages_stream net c with
    | Ok script => stream_result script
    | Raise e => Raise e
    end
  else messages_create net c.

(** The message of the error for a raw tool list without a handler. *)
Definition raw_list_error : string :=
  "You must use class when not providing a custom tool handler".

(** ** Concrete inputs *)

Module Scenario.

(** A tool handler that answers every request with the same turn. *)
Definition answer : Turn := mkTurn "user" (TextContent "4").
Definition handler : Message -> list Turn -> Result Turn := fun _ _ => Ok answer.

Definition registry : AgentTools :=
  mkAgentTools [mkToolDecl "calculator"] (fun _ => handler).

(** An agent built by the constructor from an API key. *)
Definition options (cfg : option ToolConfig) (streaming : option bool)
    : AnthropicAgentOptions :=
  {| opt_name := "Math agent"; opt_description := "Adds numbers";
     opt_api_key := Some "key"; opt_client := None;
     opt_model_id := "claude-3-5-sonnet-20240620";
     opt_streaming := streaming; opt_inference_config := None;
     opt_retriever := None; opt_tool_config := cfg;
     opt_custom_system_prompt := None |}.

Definition agent (cfg : option ToolConfig) (streaming : option bool) : AnthropicAgent :=
  match __init__ ascii_word (options cfg streaming) with
  | Ok self => self
  | Raise _ =>
      mkAgent EmptyString EmptyString None (ForeignObject false) EmptyString ∅ 5
        EmptyString ∅ None None EmptyString
  end.

(** Tool configurations: a registry with a budget, a raw list without a
    handler, a raw list with a custom handler. *)
Definition with_registry (budget : option Z) : option ToolConfig :=
  Some (mkToolConfig (Some (ToolsRegistry registry)) budget None).
Definition raw_list : option ToolConfig :=
  Some (mkToolConfig (Some (ToolsList [RawTool (mkToolDecl "calculator")])) None None).
Definition raw_list_with_handler : option ToolConfig :=
  Some (mkToolConfig (Some (ToolsList [RawTool (mkToolDecl "calculator")])) None
          (Some handler)).

(** Responses of the model. *)
Definition tool_use_block : ContentItem := Block "tool_use" None.
Definition tool_only : Message := mkMessage "assistant" [tool_use_block].
Definition text_then_tool : Message :=
  mkMessage "assistant" [Block "text" (Some "Let me compute"); tool_use_block].
Definition text_only : Message := mkMessage "assistant" [Block "text" (Some "4")].

(** The events of a stream that delivers one fragment. *)
Definition one_fragment : list (Result StreamEvent) :=
  [Ok (mkEvent "content_block_start" EmptyString);
   Ok (text_event "Let me compute");
   Ok block_stop].

(** A transport that gives the same answer to every call. *)
Definition always (r : Message) : Transport :=
  mkTransport (fun _ => Ok r) (fun _ => Ok (mkStream one_fragment (Ok r))).

(** A transport whose first answer asks for a tool and whose later
    answers are text. *)
Definition tool_then_text : Transport :=
  mkTransport
    (fun n => match n with O => Ok text_then_tool | _ => Ok text_only end)
    (fun n => match n with
              | O => Ok (mkStream one_fragment (Ok text_then_tool))
              | _ => Ok (mkStream [Ok (text_event "4"); Ok block_stop] (Ok text_only))
              end).

(** A transport whose stream goes on after the end of the first block. *)
Definition trailing : Transport :=
  mkTransport (fun _ => Ok text_only)
    (fun _ => Ok (mkStream [Ok (text_event "a"); Ok block_stop; Ok (text_event "b")]
                    (Ok text_only))).

(** A request payload whose messages are the list object at reference 0,
    and a world in which that list holds the question of the user. *)
Definition payload : Payload :=
  mkPayload "claude-3-5-sonnet-20240620" None 0 EmptyString None None None None.

Definition question : Turn := mkTurn "user" (TextContent "What is 2+2?").

Definition world : World := {| heap := [[question]]; calls := 0; trace := [] |}.

(** Options with a custom system prompt, and the agent the constructor
    builds from any options. *)
Definition prompted (csp : CustomSystemPrompt) : AnthropicAgentOptions :=
  {| opt_name := "Math agent"; opt_description := "Adds numbers";
     opt_api_key := Some "key"; opt_client := None;
     opt_model_id := "claude-3-5-sonnet-20240620";
     opt_streaming := None; opt_inference_config := None;
     opt_retriever := None; opt_tool_config := None;
     opt_custom_system_prompt := Some csp |}.

Definition construct (o : AnthropicAgentOptions) : AnthropicAgent :=
  match __init__ ascii_word o with
  | Ok self => self
  | Raise _ =>
      mkAgent EmptyString EmptyString None (ForeignObject false) EmptyString ∅ 5
        EmptyString ∅ None None EmptyString
  end.

(** A transport whose first answer asks for a tool and whose second call
    fails. *)
Definition tool_then_failure : Transport :=
  mkTransport
    (fun n => match n with
              | O => Ok text_then_tool
              | _ => Raise (ExternalError "rate limit")
              end)
    (fun _ => Raise (ExternalError "rate limit")).

(** Agents with a retriever: one that answers, one that raises. *)
Definition retrieve : string -> Result string := fun _ => Ok "Arithmetic facts".

Definition with_retriever (self : AnthropicAgent)
    (f : string -> Result string) : AnthropicAgent :=
  {| name := name self; description := description self;
     streaming := streaming self; client := client self;
     system_prompt := system_prompt self;
     custom_variables := custom_variables self;
     default_max_recursions := default_max_recursions self;
     model_id := model_id self; inference_config := inference_config self;
     retriever := Some f; tool_config := tool_config self;
     prompt_template := prompt_template self |}.

Definition retrieving : AnthropicAgent := with_retriever (agent None None) retrieve.

Definition failing_retrieval : AnthropicAgent :=
  with_retriever (agent None None) (fun _ => Raise (ExternalError "retriever")).

(** A request, run from the empty world; a streamed reply is consumed to
    its end. *)
Definition run (net : Transport) (self : AnthropicAgent) : Result (option Message) * World :=
  (let* out := process_request net ascii_word self "What is 2+2?" "user" "session" [] None in
   consume_reply (snd out)) empty_world.

End Scenario.

(** ** Readings used by the further properties *)

(** Text without a brace of either kind. *)
Fixpoint plain (s : string) : bool :=
  match s with
  | EmptyString => true
  | String c s' => negb (Ascii.eqb "{" c) && negb (Ascii.eqb "}" c) && plain s'
  end.

(** A stored message cut down to the first item of its content. *)
Definition first_item_only (msg : Message) : Message :=
  mkMessage (role msg) (take 1 (content msg)).

(** The transport's role for a stored role. *)
Definition transport_role (r : string) : string :=
  if String.eqb r ParticipantRole_USER then "user" else "assistant".

(** The header under which retrieved context is appended to the prompt. *)
Definition context_header : string :=
  PyStr.newline +:+ "Here is the context to use to answer the user's question:"
  +:+ PyStr.newline.

(** The assistant turn a tool round appends for the response [r]. *)
Definition assistant_turn (r : Message) : Turn :=
  mkTurn "assistant" (ItemsContent (content r)).

(** The context of the log entry of [handle_single_response]. *)
Definition single_error_context : string := "Error invoking Anthropic: ".

(** What the constructor reads off [options.custom_system_prompt]: whether
    the dict is true, and the template and the variables it installs. *)
Definition custom_prompt_given (options : AnthropicAgentOptions) : bool :=
  match opt_custom_system_prompt options with
  | Some _ => true
  | None => false
  end.

Definition installed_template (options : AnthropicAgentOptions) : string :=
  match opt_custom_system_prompt options with
  | Some csp =>
      match template csp with
      | Some (String c t) => String c t
      | _ => default_prompt_template (opt_name options) (opt_description options)
      end
  | None => default_prompt_template (opt_name options) (opt_description options)
  end.

Definition installed_variables (options : AnthropicAgentOptions)
    : gmap string TemplateValue :=
  match opt_custom_system_prompt options with
  | Some csp => default ∅ (variables csp)
  | None => ∅
  end.

(** The client the constructor builds from the API key. *)
Definition built_client (options : AnthropicAgentOptions) : Client :=
  if flag_truth (opt_streaming options)
  then AsyncAnthropic (opt_api_key options)
  else Anthropic (opt_api_key options).

(** Between two worlds no transport call and no tool call was made and no
    chunk was yielded. *)
Definition quiet (w w' : World) : Prop :=
  calls w' = calls w
  /\ transport_calls (trace w') = transport_calls (trace w)
  /\ tool_calls (trace w') = tool_calls (trace w)
  /\ yielded (trace w') = yielded (trace w).

(** * Properties *)

(** ** Strings *)

Module PyStrFacts.
Import PyStr.

Lemma app_cons (x : ascii) (a b : string) :
  String x a +:+ b = String x (a +:+ b).
Proof. reflexivity. Qed.

Lemma app_nil_l (s : string) : EmptyString +:+ s = s.
Proof. reflexivity. Qed.

Lemma app_nil_r (s : string) : s +:+ EmptyString = s.
Proof. induction s as [|c s IH]; [reflexivity|]. now rewrite app_cons, IH. Qed.

Lemma app_assoc (a b c : string) : (a +:+ b) +:+ c = a +:+ (b +:+ c).
Proof. induction a as [|x a IH]; [reflexivity|]. now rewrite !app_cons, IH. Qed.

Lemma length_app (a b : string) :
  String.length (a +:+ b) = (String.length a + String.length b)%nat.
Proof.
  induction a as [|x a IH]; [reflexivity|].
  rewrite app_cons. cbn [String.length]. now rewrite IH.
Qed.

Lemma removeprefix_app (p s : string) : removeprefix p (p +:+ s) = Some s.
Proof.
  induction p as [|x p IH]; [reflexivity|].
  rewrite app_cons. cbn [removeprefix]. now rewrite Ascii.eqb_refl.
Qed.

Lemma removeprefix_inv (p s r : string) : removeprefix p s = Some r -> s = p +:+ r.
Proof.
  revert s. induction p as [|x p IH]; intros s H.
  - cbn in H. now inversion H.
  - destruct s as [|y s]; [discriminate|]. cbn [removeprefix] in H.
    destruct (Ascii.eqb_spec x y) as [->|]; [|discriminate].
    rewrite app_cons. f_equal. now apply IH.
Qed.

End PyStrFacts.

(** ** The prompt composer *)

Section RegexFacts.

Import PyStrFacts.

Variable is_word : ascii -> bool.
Hypothesis word_class : WordClass is_word.

Lemma word_run_split (s : string) :
  s = fst (word_run is_word s) +:+ snd (word_run is_word s).
Proof.
  induction s as [|c s IH]; [reflexivity|].
  cbn [word_run]. destruct (is_word c); [|reflexivity].
  destruct (word_run is_word s) as [w r]. cbn [fst snd] in *.
  rewrite app_cons. now f_equal.
Qed.

(** A character outside the class ends the run wherever it stands. *)
Lemma word_run_app (s : string) (x : ascii) (rest : string) :
  is_word x = false ->
  word_run is_word (s +:+ String x rest)
  = (fst (word_run is_word s), snd (word_run is_word s) +:+ String x rest).
Proof.
  intros Hx. induction s as [|c s IH].
  - rewrite app_nil_l. cbn [word_run]. now rewrite Hx.
  - rewrite app_cons. cbn [word_run]. destruct (is_word c); [|reflexivity].
    rewrite IH. now destruct (word_run is_word s).
Qed.

Lemma word_run_name (n rest : string) (x : ascii) :
  all_word is_word n = true -> is_word x = false ->
  word_run is_word (n +:+ String x rest) = (n, String x rest).
Proof.
  intros Hn Hx. induction n as [|c n IH].
  - rewrite app_nil_l. cbn [word_run]. now rewrite Hx.
  - cbn [all_word] in Hn. apply andb_true_iff in Hn as [Hc Hn].
    rewrite app_cons. cbn [word_run]. rewrite Hc, (IH Hn). reflexivity.
Qed.

(** A successful attempt consumed the text of a placeholder, which lies
    within the string. *)
Lemma match_at_inv (s : string) (m : ReMatch) :
  match_at is_word s = Some m ->
  m = mkMatch (placeholder (group1 m)) (group1 m) /\
  exists rest, s = group0 m +:+ rest.
Proof.
  unfold match_at. intros H.
  destruct (PyStr.removeprefix "{{" s) as [s1|] eqn:H1; [|discriminate].
  pose proof (word_run_split s1) as Hs.
  destruct (word_run is_word s1) as [[|c w] r]; [discriminate|].
  destruct (PyStr.removeprefix "}}" r) as [r'|] eqn:H2; [|discriminate].
  inversion H; subst m; clear H. cbn [group0 group1 fst snd] in *.
  split; [reflexivity|]. exists r'.
  apply removeprefix_inv in H1. apply removeprefix_inv in H2.
  rewrite H1, Hs, H2. now rewrite !app_assoc.
Qed.

Lemma match_at_length (s : string) (m : ReMatch) :
  match_at is_word s = Some m ->
  (String.length (group0 m) <= String.length s)%nat.
Proof.
  intros H. apply match_at_inv in H as [_ [rest ->]].
  rewrite length_app. lia.
Qed.

(** The attempt at the start of a placeholder succeeds. *)
Lemma match_at_placeholder (n post : string) :
  is_name is_word n = true ->
  match_at is_word (placeholder n +:+ post) = Some (mkMatch (placeholder n) n).
Proof.
  intros Hn. destruct n as [|c n]; [discriminate|]. cbn [is_name] in Hn.
  unfold placeholder, match_at.
  rewrite !app_assoc, removeprefix_app.
  change ("}}" +:+ post) with (String "}" (String "}" post)).
  rewrite (word_run_name _ _ _ Hn (close_brace_not_word _ word_class)).
  change (String "}" (String "}" post)) with ("}}" +:+ post).
  now rewrite removeprefix_app.
Qed.

(** Text that is followed by an opening [{{] is matched as it is on its
    own: no attempt that starts in it can reach across the braces. *)
Lemma match_at_before_braces (c : ascii) (s rest : string) :
  match_at is_word (String c s +:+ String "{" (String "{" rest))
  = match_at is_word (String c s).
Proof.
  pose proof (open_brace_not_word _ word_class) as Hb.
  unfold match_at. rewrite app_cons. cbn [PyStr.removeprefix].
  destruct (Ascii.eqb "{" c); [|reflexivity].
  destruct s as [|d s].
  - rewrite app_nil_l. cbn [PyStr.removeprefix]. rewrite Ascii.eqb_refl.
    cbn [word_run]. now rewrite Hb.
  - rewrite app_cons. cbn [PyStr.removeprefix].
    destruct (Ascii.eqb "{" d); [|reflexivity].
    rewrite (word_run_app s _ _ Hb).
    destruct (word_run is_word s) as [[|x w] r]; cbn [fst snd]; [reflexivity|].
    destruct r as [|y r].
    + rewrite app_nil_l. cbn [PyStr.removeprefix]. reflexivity.
    + rewrite app_cons. cbn [PyStr.removeprefix].
      destruct (Ascii.eqb "}" y); [|reflexivity].
      destruct r as [|z r].
      * rewrite app_nil_l. cbn [PyStr.removeprefix]. reflexivity.
      * rewrite app_cons. cbn [PyStr.removeprefix].
        destruct (Ascii.eqb "}" z); reflexivity.
Qed.

Lemma re_sub_nil (repl : ReMatch -> string) (skip : nat) :
  re_sub is_word repl skip EmptyString = EmptyString.
Proof. reflexivity. Qed.

(** Passing over the rest of a match. *)
Lemma re_sub_skip (repl : ReMatch -> string) (a b : string) :
  re_sub is_word repl (String.length a) (a +:+ b) = re_sub is_word repl 0 b.
Proof.
  induction a as [|x a IH]; [reflexivity|].
  rewrite app_cons. cbn [String.length re_sub]. exact IH.
Qed.

Lemma re_sub_before_braces (repl : ReMatch -> string) (rest : string) :
  forall (pre : string) (skip : nat),
    (skip <= String.length pre)%nat ->
    re_sub is_word repl skip (pre +:+ String "{" (String "{" rest))
    = re_sub is_word repl skip pre
      +:+ re_sub is_word repl 0 (String "{" (String "{" rest)).
Proof.
  induction pre as [|c s IH]; intros skip Hskip.
  - cbn [String.length] in Hskip. assert (skip = 0%nat) as -> by lia.
    now rewrite app_nil_l, re_sub_nil, app_nil_l.
  - cbn [String.length] in Hskip.
    pose proof (match_at_before_braces c s rest) as Hm.
    rewrite app_cons in Hm |- *. cbn [re_sub]. destruct skip as [|k].
    + rewrite Hm. destruct (match_at is_word (String c s)) as [m|] eqn:E.
      * apply match_at_length in E. cbn [String.length] in E.
        rewrite IH by lia. now rewrite app_assoc.
      * rewrite IH by lia. now rewrite app_cons.
    + apply IH. lia.
Qed.

(** The law of substitution: a placeholder is replaced by what the
    callback returns for it, and the text on either side is treated on
    its own. *)
Lemma re_sub_placeholder (repl : ReMatch -> string) (pre n post : string) :
  is_name is_word n = true ->
  re_sub is_word repl 0 (pre +:+ placeholder n +:+ post)
  = re_sub is_word repl 0 pre
    +:+ repl (mkMatch (placeholder n) n)
    +:+ re_sub is_word repl 0 post.
Proof.
  intros Hn.
  pose proof (match_at_placeholder n post Hn) as Hm.
  assert (exists t, placeholder n = String "{" (String "{" t)) as [t Ht]
    by (eexists; reflexivity).
  rewrite Ht in Hm |- *. rewrite !app_cons in Hm |- *.
  rewrite re_sub_before_braces by lia. f_equal.
  cbn [re_sub]. rewrite Hm. cbn [group0]. f_equal.
  cbn [String.length Nat.sub]. apply re_sub_skip.
Qed.

End RegexFacts.

(** What the callback [replace] returns for the placeholder of [n]. *)
Lemma replace_placeholder (variables : gmap string TemplateValue) (n : string) :
  replace variables (mkMatch (placeholder n) n)
  = match variables !! n with
    | Some (VStr s) => s
    | Some (VList items) => PyStr.join PyStr.newline items
    | None => placeholder n
    end.
Proof.
  unfold replace. cbn [group0 group1].
  destruct (variables !! n) as [[s|items]|]; reflexivity.
Qed.

Lemma ascii_word_class : WordClass ascii_word.
Proof. split; reflexivity. Qed.

(** Text without an opening brace holds no placeholder and is copied. *)
Lemma replace_placeholders_text (is_word : ascii -> bool)
    (variables : gmap string TemplateValue) (t : string) :
  brace_free t = true -> replace_placeholders is_word t variables = t.
Proof.
  unfold replace_placeholders. induction t as [|c t IH]; intros H; [reflexivity|].
  cbn [brace_free] in H. apply andb_true_iff in H as [Hc Ht].
  cbn [re_sub]. unfold match_at. cbn [PyStr.removeprefix].
  destruct (Ascii.eqb "{" c); [discriminate|]. now rewrite (IH Ht).
Qed.

(** C7. Placeholder substitution: in any template, a placeholder
    [{{n}}] whose name is a key of the mapping is replaced by the value
    of the variable (a sequence value joined with newlines), a placeholder
    whose name is no key is left as it stands, and the text before and
    after it is substituted in the same way; the function is total, so no
    error is raised. *)
Theorem replace_placeholders_spec (is_word : ascii -> bool)
    (variables : gmap string TemplateValue) (pre n post : string) :
  WordClass is_word ->
  is_name is_word n = true ->
  replace_placeholders is_word (pre +:+ placeholder n +:+ post) variables
  = replace_placeholders is_word pre variables
    +:+ match variables !! n with
        | Some (VStr s) => s
        | Some (VList items) => PyStr.join PyStr.newline items
        | None => placeholder n
        end
    +:+ replace_placeholders is_word post variables.
Proof.
  intros HW Hn. unfold replace_placeholders.
  rewrite (re_sub_placeholder is_word HW _ pre n post Hn).
  now rewrite replace_placeholder.
Qed.

(** The two examples of the specification, obtained from the law. *)
Lemma replace_placeholders_spec_witness :
  replace_placeholders ascii_word "I am {{name}}" {[ "name" := VStr "Bot" ]} = "I am Bot"
  /\ replace_placeholders ascii_word "{{missing}}" {[ "name" := VStr "Bot" ]} = "{{missing}}".
Proof.
  split.
  - exact (replace_placeholders_spec ascii_word {[ "name" := VStr "Bot" ]}
             "I am " "name" EmptyString ascii_word_class eq_refl).
  - exact (replace_placeholders_spec ascii_word {[ "name" := VStr "Bot" ]}
             EmptyString "missing" EmptyString ascii_word_class eq_refl).
Defined.

Example replace_sequence :
  replace_placeholders ascii_word "a {{xs}} b{{y}}{{ z }}{{{y}}}"
    {[ "xs" := VList ["1"; "2"; "3"]; "y" := VStr "Y" ]}
  = "a 1" +:+ PyStr.newline +:+ "2" +:+ PyStr.newline +:+ "3 bY{{ z }}{Y}".
Proof. vm_compute. reflexivity. Qed.

(** ** The constructor *)

Lemma client_set_system_prompt (is_word : ascii -> bool) (self : AnthropicAgent)
    (t : option string) (v : option (gmap string TemplateValue)) :
  client (set_system_prompt is_word self t v) = client self.
Proof.
  unfold set_system_prompt, update_system_prompt.
  destruct t as [[|c t]|], v as [v|]; cbn; try case_decide; reflexivity.
Qed.

(** Once the client is chosen, construction succeeds and keeps it. *)
Lemma init_after_choice (is_word : ascii -> bool) (options : AnthropicAgentOptions) :
  negb (str_truth (opt_api_key options)) && negb (opt_client_truth (opt_client options)) = false ->
  match choose_client options with
  | Raise e => __init__ is_word options = Raise e
  | Ok c => exists self, __init__ is_word options = Ok self /\ client self = c
  end.
Proof.
  intros H. unfold __init__. rewrite H.
  destruct (choose_client options) as [c|e]; [|reflexivity].
  destruct (opt_custom_system_prompt options) as [csp|]; [|eauto].
  eexists; split; [reflexivity|apply client_set_system_prompt].
Qed.

(** C10. Construction raises a [ValueError] exactly when no API key and
    no client is given, or a client is given that is not of the class the
    streaming flag asks for ([AsyncAnthropic] with streaming, [Anthropic]
    without); in every other case it succeeds, and the client of the agent
    is of the class that matches the flag.  "Given" is the truth test the
    code applies. *)
Theorem init_raises_value_error (is_word : ascii -> bool) (options : AnthropicAgentOptions) :
  let bad :=
    (str_truth (opt_api_key options) = false /\ opt_client_truth (opt_client options) = false)
    \/ (exists c, opt_client options = Some c /\ client_truth c = true /\
                  flag_truth (opt_streaming options) = true /\
                  isinstance_AsyncAnthropic c = false)
    \/ (exists c, opt_client options = Some c /\ client_truth c = true /\
                  flag_truth (opt_streaming options) = false /\
                  isinstance_Anthropic c = false) in
  match __init__ is_word options with
  | Raise e => (exists msg, e = ValueError msg) /\ bad
  | Ok self =>
      ~ bad /\
      (if flag_truth (opt_streaming options)
       then isinstance_AsyncAnthropic (client self)
       else isinstance_Anthropic (client self)) = true
  end.
Proof.
  intros bad. subst bad.
  destruct (negb (str_truth (opt_api_key options))
            && negb (opt_client_truth (opt_client options))) eqn:Hcred.
  - unfold __init__. rewrite Hcred. split; [eauto|]. left.
    apply andb_true_iff in Hcred as [H1 H2].
    now apply negb_true_iff in H1, H2.
  - pose proof (init_after_choice is_word options Hcred) as Hinit.
    assert (~ (str_truth (opt_api_key options) = false /\
               opt_client_truth (opt_client options) = false)) as Hno.
    { intros [H1 H2]. now rewrite H1, H2 in Hcred. }
    unfold choose_client in Hinit.
    destruct (opt_client options) as [c|] eqn:Hc; cbn [opt_client_truth] in *.
    + destruct (client_truth c) eqn:Ht, (flag_truth (opt_streaming options)) eqn:Hs.
      * destruct (isinstance_AsyncAnthropic c) eqn:Hi; cbn [negb] in Hinit.
        -- destruct Hinit as [self [-> <-]]. split; [|exact Hi].
           intros [?|[[c' [[= <-] (_ & _ & ?)]]|[c' [[= <-] (_ & ? & _)]]]];
             [tauto | congruence | congruence].
        -- rewrite Hinit. split; [eauto|]. right. left. eauto.
      * destruct (isinstance_Anthropic c) eqn:Hi; cbn [negb] in Hinit.
        -- destruct Hinit as [self [-> <-]]. split; [|exact Hi].
           intros [?|[[c' [[= <-] (_ & ? & _)]]|[c' [[= <-] (_ & _ & ?)]]]];
             [tauto | congruence | congruence].
        -- rewrite Hinit. split; [eauto|]. right. right. eauto.
      * destruct Hinit as [self [-> Hcl]]. rewrite Hcl. split; [|reflexivity].
        intros [?|[[c' [[= <-] (? & _)]]|[c' [[= <-] (? & _)]]]];
          [tauto | congruence | congruence].
      * destruct Hinit as [self [-> Hcl]]. rewrite Hcl. split; [|reflexivity].
        intros [?|[[c' [[= <-] (? & _)]]|[c' [[= <-] (? & _)]]]];
          [tauto | congruence | congruence].
    + destruct (flag_truth (opt_streaming options));
        destruct Hinit as [self [-> Hcl]]; rewrite Hcl; (split; [|reflexivity]);
        intros [?|[[c' [[=] _]]|[c' [[=] _]]]]; tauto.
Qed.

(** ** The monad *)

Ltac munfold :=
  unfold bind, ret, raise, lift, emit, list_append, read_list, transport_call,
    try_log, yield, new_list in *.

Lemma bind_ok {A B} (m : M A) (k : A -> M B) (w w' : World) (a : A) :
  m w = (Ok a, w') -> bind m k w = k a w'.
Proof. intros H. unfold bind. now rewrite H. Qed.

Lemma bind_raise {A B} (m : M A) (k : A -> M B) (w w' : World) (e : PyExn) :
  m w = (Raise e, w') -> bind m k w = (Raise e, w').
Proof. intros H. unfold bind. now rewrite H. Qed.

(** ** Tool dispatch *)

Lemma process_tool_block_frame (self : AnthropicAgent) (r : Message) (l : nat) (w : World) :
  calls (snd (_process_tool_block self r l w)) = calls w
  /\ heap (snd (_process_tool_block self r l w)) = heap w.
Proof.
  unfold _process_tool_block.
  destruct (tool_config self) as [cfg|]; [|split; reflexivity].
  destruct (useToolHandler cfg) as [h|].
  - munfold. cbn. destruct (h r (heap_get w l)); split; reflexivity.
  - destruct (tool cfg) as [[reg|lst|]|]; try (split; reflexivity).
Qed.

(** C6. The order of tool dispatch, for a tool configuration [cfg] of the
    agent: a configured custom handler is called with the response and the
    conversation, and what it returns (or raises) is the outcome; without
    one, a tool registry has its built-in handler called with the provider
    tag, the response and the conversation; without either, an exception
    is raised and no handler is called, and for any tool entry that is not
    a registry (a raw list among them) it is the [ValueError] of the
    configuration. *)
Theorem process_tool_block_order (self : AnthropicAgent) (cfg : ToolConfig)
    (llm_response : Message) (conversation : nat) (w : World) :
  tool_config self = Some cfg ->
  let conv := heap_get w conversation in
  (forall handler, useToolHandler cfg = Some handler ->
     _process_tool_block self llm_response conversation w
     = (handler llm_response conv, with_event w (EvUseToolHandler llm_response conv)))
  /\ (forall registry, useToolHandler cfg = None -> tool cfg = Some (ToolsRegistry registry) ->
        _process_tool_block self llm_response conversation w
        = (tool_handler registry AgentProviderType_ANTHROPIC llm_response conv,
           with_event w (EvToolHandler AgentProviderType_ANTHROPIC llm_response conv)))
  /\ (useToolHandler cfg = None ->
      (forall registry, tool cfg <> Some (ToolsRegistry registry)) ->
      exists e, _process_tool_block self llm_response conversation w = (Raise e, w)
                /\ (forall t, tool cfg = Some t -> e = ValueError raw_list_error)).
Proof.
  intros Hcfg conv. unfold _process_tool_block. rewrite Hcfg. split; [|split].
  - intros h ->. munfold. subst conv. reflexivity.
  - intros reg -> ->. munfold. subst conv. reflexivity.
  - intros -> Ht. destruct (tool cfg) as [[reg|lst|]|].
    + now destruct (Ht reg).
    + eexists. split; [reflexivity|]. reflexivity.
    + eexists. split; [reflexivity|]. reflexivity.
    + eexists. split; [reflexivity|]. discriminate.
Qed.

(** ** The loop *)

Section WhileFacts.

Variable body : LoopState -> M LoopState.

(** Every round lowers the budget by one and makes one transport
    call. *)
Hypothesis body_decrements : forall st w st' w',
  body st w = (Ok st', w') -> max_recursions st' = max_recursions st - 1.
Hypothesis body_calls : forall st w, calls (snd (body st w)) = S (calls w).

Lemma loop_cond_true (st : LoopState) :
  loop_cond st = true -> continue_with_tools st = true /\ 0 < max_recursions st.
Proof.
  unfold loop_cond. intros H. apply andb_true_iff in H as [H1 H2].
  split; [exact H1|]. now apply Z.ltb_lt.
Qed.

(** Totality: [Z.to_nat max_recursions] rounds of fuel are enough, more
    fuel changes nothing. *)
Lemma while_loop_fuel_irrelevant (n : nat) :
  forall (fuel1 fuel2 : nat) (st : LoopState) (w : World),
    (Z.to_nat (max_recursions st) <= n)%nat -> (n <= fuel1)%nat -> (n <= fuel2)%nat ->
    while_loop body fuel1 st w = while_loop body fuel2 st w.
Proof.
  induction n as [|n IH]; intros fuel1 fuel2 st w Hn H1 H2.
  - destruct fuel1, fuel2; cbn [while_loop];
      destruct (loop_cond st) eqn:Hc; try reflexivity;
      apply loop_cond_true in Hc as [_ Hc]; lia.
  - destruct fuel1 as [|f1]; [lia|]. destruct fuel2 as [|f2]; [lia|].
    cbn [while_loop]. destruct (loop_cond st) eqn:Hc; [|reflexivity].
    apply loop_cond_true in Hc as [_ Hc]. unfold bind.
    destruct (body st w) as [[st'|e] w'] eqn:Hb; [|reflexivity].
    apply body_decrements in Hb. apply IH; lia.
Qed.

Lemma while_loop_fuel (fuel : nat) (st : LoopState) (w : World) :
  (Z.to_nat (max_recursions st) <= fuel)%nat ->
  while_loop body fuel st w = while_loop body (Z.to_nat (max_recursions st)) st w.
Proof. intros H. apply (while_loop_fuel_irrelevant (Z.to_nat (max_recursions st))); lia. Qed.

(** The loop stops with its condition false. *)
Lemma while_loop_exit (fuel : nat) :
  forall (st st' : LoopState) (w w' : World),
    (Z.to_nat (max_recursions st) <= fuel)%nat ->
    while_loop body fuel st w = (Ok st', w') -> loop_cond st' = false.
Proof.
  induction fuel as [|fuel IH]; intros st st' w w' Hf H; cbn [while_loop] in H.
  - destruct (loop_cond st) eqn:Hc.
    + apply loop_cond_true in Hc as [_ Hc]. lia.
    + inversion H; subst. exact Hc.
  - destruct (loop_cond st) eqn:Hc.
    + apply loop_cond_true in Hc as [_ Hc]. unfold bind in H.
      destruct (body st w) as [[st1|e] w1] eqn:Hb; [|discriminate].
      apply body_decrements in Hb. apply (IH st1 st' w1 w'); [lia|exact H].
    + inversion H; subst. exact Hc.
Qed.

(** The states the loop goes through are those of the step relation. *)
Lemma while_loop_steps (fuel : nat) :
  forall (st st' : LoopState) (w w' : World),
    while_loop body fuel st w = (Ok st', w') ->
    rtc (loop_step body) (st, w) (st', w').
Proof.
  induction fuel as [|fuel IH]; intros st st' w w' H; cbn [while_loop] in H.
  - destruct (loop_cond st); inversion H; subst; apply rtc_refl.
  - destruct (loop_cond st) eqn:Hc; [|inversion H; subst; apply rtc_refl].
    unfold bind in H. destruct (body st w) as [[st1|e] w1] eqn:Hb; [|discriminate].
    eapply rtc_l; [|apply (IH _ _ _ _ H)]. split; [exact Hc|exact Hb].
Qed.

(** The budget is an invariant bound: it never goes below zero. *)
Lemma loop_step_budget (x y : LoopState * World) :
  rtc (loop_step body) x y ->
  0 <= max_recursions (fst x) -> 0 <= max_recursions (fst y).
Proof.
  induction 1 as [x|x y z [Hc Hb] _ IH]; intros Hx; [exact Hx|].
  apply IH. apply loop_cond_true in Hc as [_ Hc].
  destruct y as [st' w']. cbn [fst snd] in *.
  apply body_decrements in Hb. lia.
Qed.


End WhileFacts.

(** ** The single-response loop *)

Section SingleFacts.

Variable net : Transport.
Variable self : AnthropicAgent.
Variable payload_input : Payload.
Variable messages : nat.

Local Abbreviation after_create := (after_create payload_input).
Local Abbreviation after_assistant := (after_assistant payload_input).

(** One round, case by case. *)
Lemma single_round_eq (st : LoopState) (w : World) :
  single_round net self payload_input messages st w =
  match messages_create net (calls w) with
  | Raise e =>
      (Raise e, with_event (after_create w) (EvLoggerError "Error invoking Anthropic: " e))
  | Ok r =>
      match any_tool_use (content r) with
      | Raise e => (Raise e, after_create w)
      | Ok false =>
          (Ok (mkLoop false (max_recursions st - 1) (Some r)), after_create w)
      | Ok true =>
          match _process_tool_block self r messages (after_assistant w r) with
          | (Ok t, w2) =>
              (Ok (mkLoop (continue_with_tools st) (max_recursions st - 1) (Some r)),
               with_append w2 (p_messages payload_input) t)
          | (Raise e, w2) => (Raise e, w2)
          end
      end
  end.
Proof.
  unfold single_round, handle_single_response, after_assistant, after_create.
  munfold. cbn.
  destruct (messages_create net (calls w)) as [r|e]; [|reflexivity].
  destruct (any_tool_use (content r)) as [[|]|e]; try reflexivity.
  destruct (_process_tool_block self r messages _) as [[t|e] w2]; reflexivity.
Qed.

Lemma single_round_decrements (st : LoopState) (w : World) (st' : LoopState) (w' : World) :
  single_round net self payload_input messages st w = (Ok st', w') ->
  max_recursions st' = max_recursions st - 1.
Proof.
  rewrite single_round_eq. intros H.
  destruct (messages_create net (calls w)) as [r|e]; [|discriminate].
  destruct (any_tool_use (content r)) as [[|]|e]; try discriminate.
  - destruct (_process_tool_block self r messages _) as [[t|e] w2]; [|discriminate].
    now inversion H.
  - now inversion H.
Qed.

Lemma single_round_calls (st : LoopState) (w : World) :
  calls (snd (single_round net self payload_input messages st w)) = S (calls w).
Proof.
  rewrite single_round_eq.
  destruct (messages_create net (calls w)) as [r|e]; [|reflexivity].
  destruct (any_tool_use (content r)) as [[|]|e]; try reflexivity.
  pose proof (process_tool_block_frame self r messages (after_assistant w r)) as [Hc _].
  destruct (_process_tool_block self r messages _) as [[t|e] w2]; cbn [snd] in *;
    cbn; rewrite Hc; reflexivity.
Qed.

(** The single-response loop has all the fuel it needs. *)
Lemma single_loop_total (fuel : nat) (b : Z) (w : World) :
  (Z.to_nat b <= fuel)%nat ->
  while_loop (single_round net self payload_input messages) fuel (loop_init b) w
  = while_loop (single_round net self payload_input messages) (Z.to_nat b) (loop_init b) w.
Proof.
  intros H. apply (while_loop_fuel _ single_round_decrements). exact H.
Qed.

(** The function acts on the world through its loop only. *)
Lemma single_response_loop_world (b : Z) (w : World) :
  snd (_handle_single_response_loop net self payload_input messages b w)
  = snd (while_loop (single_round net self payload_input messages)
           (Z.to_nat b) (loop_init b) w).
Proof.
  unfold _handle_single_response_loop, bind.
  destruct (while_loop _ _ _ w) as [[st|e] w']; [|reflexivity].
  unfold final_of. destruct (response st) as [r|]; [|reflexivity].
  munfold. cbn. destruct (first_text (content r)); reflexivity.
Qed.

End SingleFacts.

(** ** How many rounds the single-response loop makes *)

Section SingleRounds.

Variable net : Transport.
Variable self : AnthropicAgent.
Variable payload_input : Payload.
Variable messages : nat.

Local Abbreviation body := (single_round net self payload_input messages).

(** No call of the transport raises, and every response has blocks the
    loop can inspect. *)
Hypothesis transport_answers : forall i,
  exists r b, messages_create net i = Ok r /\ any_tool_use (content r) = Ok b.

(** No tool dispatch raises. *)
Hypothesis dispatch_answers : forall r l w,
  exists t w', _process_tool_block self r l w = (Ok t, w').


End SingleRounds.

(** ** One streamed round *)

Lemma with_events_nil (w : World) : with_events w [] = w.
Proof. destruct w. unfold with_events. cbn. now rewrite app_nil_r. Qed.

Lemma with_events_cons (w : World) (ev : Event) (evs : list Event) :
  with_events (with_event w ev) evs = with_events w (ev :: evs).
Proof. unfold with_events, with_event. cbn. now rewrite <- app_assoc. Qed.

Section StreamLoopFacts.

Context {S : Type}.
Variable consume : S -> AgentStreamResponse -> World -> S * World.

(** The consumer hands text chunks on and keeps its state. *)
Hypothesis consume_text : forall s t w,
  consume s (text_chunk t) w = (s, with_event w (EvYield (text_chunk t))).

Lemma stream_loop_eq (events : list (Result StreamEvent)) :
  forall (s : S) (w : World),
    stream_loop consume events s w
    = (match stream_failure events with Some e => Raise e | None => Ok s end,
       with_events w (round_events (forwarded events))).
Proof.
  induction events as [|[ev|e] rest IH]; intros s w; cbn [stream_loop stream_failure forwarded].
  - unfold ret. now rewrite with_events_nil.
  - destruct (String.eqb (event_type ev) "text").
    + munfold. rewrite consume_text, IH.
      cbn [round_events flat_map app]. now rewrite !with_events_cons.
    + destruct (String.eqb (event_type ev) "content_block_stop"); [|apply IH].
      unfold ret. now rewrite with_events_nil.
  - unfold raise. now rewrite with_events_nil.
Qed.

End StreamLoopFacts.

Section StreamFacts.

Variable net : Transport.
Variable self : AnthropicAgent.
Variable payload_input : Payload.
Variable messages : nat.

Lemma forward_text (s : option Message) (t : string) (w : World) :
  forward s (text_chunk t) w = (s, with_event w (EvYield (text_chunk t))).
Proof. reflexivity. Qed.

Lemma to_caller_text (s : unit) (t : string) (w : World) :
  to_caller s (text_chunk t) w = (s, with_event w (EvYield (text_chunk t))).
Proof. reflexivity. Qed.

(** The inner generator as [stream_generator] consumes it. *)
Lemma handle_streaming_response_forward (fr : option Message) (w : World) :
  handle_streaming_response net forward payload_input fr w =
  match messages_stream net (calls w) with
  | Raise e =>
      (Raise e,
       with_event
         (with_call w (EvStream payload_input (heap_get w (p_messages payload_input))))
         (EvLoggerError stream_error_context e))
  | Ok script =>
      let w2 := after_stream payload_input script w in
      match stream_failure (stream_events script) with
      | Some e => (Raise e, with_event w2 (EvLoggerError stream_error_context e))
      | None =>
          match get_final_message script with
          | Raise e => (Raise e, with_event w2 (EvLoggerError stream_error_context e))
          | Ok accumulated =>
              (Ok (Some (mkMessage ParticipantRole_ASSISTANT (content accumulated))), w2)
          end
      end
  end.
Proof.
  unfold handle_streaming_response, after_stream, try_log, bind at 1, read_list.
  unfold bind at 1, transport_call.
  destruct (messages_stream net (calls w)) as [script|e]; [|reflexivity].
  unfold bind at 1. rewrite (stream_loop_eq forward forward_text).
  destruct (stream_failure (stream_events script)) as [e|]; [reflexivity|].
  munfold. destruct (get_final_message script) as [acc|e]; reflexivity.
Qed.

(** The inner generator as a caller that takes every chunk sees it. *)
Lemma handle_streaming_response_caller (w : World) :
  handle_streaming_response net to_caller payload_input tt w =
  match messages_stream net (calls w) with
  | Raise e =>
      (Raise e,
       with_event
         (with_call w (EvStream payload_input (heap_get w (p_messages payload_input))))
         (EvLoggerError stream_error_context e))
  | Ok script =>
      let w2 := after_stream payload_input script w in
      match stream_failure (stream_events script) with
      | Some e => (Raise e, with_event w2 (EvLoggerError stream_error_context e))
      | None =>
          match get_final_message script with
          | Raise e => (Raise e, with_event w2 (EvLoggerError stream_error_context e))
          | Ok accumulated =>
              (Ok tt,
               with_event w2
                 (EvYield (final_chunk
                    (mkMessage ParticipantRole_ASSISTANT (content accumulated)))))
          end
      end
  end.
Proof.
  unfold handle_streaming_response, after_stream, try_log, bind at 1, read_list.
  unfold bind at 1, transport_call.
  destruct (messages_stream net (calls w)) as [script|e]; [|reflexivity].
  unfold bind at 1. rewrite (stream_loop_eq to_caller to_caller_text).
  destruct (stream_failure (stream_events script)) as [e|]; [reflexivity|].
  munfold. destruct (get_final_message script) as [acc|e]; reflexivity.
Qed.

End StreamFacts.

Section StreamRoundFacts.

Variable net : Transport.
Variable self : AnthropicAgent.
Variable payload_input : Payload.
Variable messages : nat.

Lemma handle_streaming_response_ok (fr : option Message) (w : World)
    (script : StreamScript) (m : Message) :
  messages_stream net (calls w) = Ok script ->
  stream_result script = Ok m ->
  handle_streaming_response net forward payload_input fr w
  = (Ok (Some m), after_stream payload_input script w).
Proof.
  intros Hs Hm. rewrite handle_streaming_response_forward, Hs. cbn zeta.
  unfold stream_result in Hm.
  destruct (stream_failure (stream_events script)); [discriminate|].
  destruct (get_final_message script); [|discriminate]. now inversion Hm.
Qed.

Lemma handle_streaming_response_calls (fr : option Message) (w : World) :
  calls (snd (handle_streaming_response net forward payload_input fr w)) = S (calls w).
Proof.
  rewrite handle_streaming_response_forward.
  destruct (messages_stream net (calls w)) as [script|e]; [|reflexivity].
  cbn zeta. destruct (stream_failure (stream_events script)); [reflexivity|].
  destruct (get_final_message script); reflexivity.
Qed.

(** A round that gets its final message, case by case. *)
Lemma stream_round_eq (st : LoopState) (w : World) (script : StreamScript) (m : Message) :
  messages_stream net (calls w) = Ok script ->
  stream_result script = Ok m ->
  let w1 := after_stream payload_input script w in
  stream_round net self payload_input messages st w =
  match any_tool_use (content m) with
  | Raise e => (Raise e, w1)
  | Ok true =>
      match _process_tool_block self m messages
              (with_append w1 (p_messages payload_input)
                 (mkTurn "assistant" (ItemsContent (content m)))) with
      | (Ok t, w2) =>
          (Ok (mkLoop (continue_with_tools st) (max_recursions st - 1) (Some m)),
           with_append w2 (p_messages payload_input) t)
      | (Raise e, w2) => (Raise e, w2)
      end
  | Ok false =>
      match first_text (content m) with
      | Raise e => (Raise e, w1)
      | Ok t =>
          (Ok (mkLoop false (max_recursions st - 1) (Some m)),
           with_event w1 (EvYield (final_chunk
             (mkMessage ParticipantRole_ASSISTANT [DictItem (Some t)]))))
      end
  end.
Proof.
  intros Hs Hm w1. unfold stream_round, bind at 1.
  rewrite (handle_streaming_response_ok _ _ _ _ Hs Hm). fold w1.
  munfold. destruct (any_tool_use (content m)) as [[|]|e]; try reflexivity.
  - destruct (_process_tool_block self m messages _) as [[t|e] w2]; reflexivity.
  - destruct (first_text (content m)); reflexivity.
Qed.

Lemma stream_round_decrements (st : LoopState) (w : World) (st' : LoopState) (w' : World) :
  stream_round net self payload_input messages st w = (Ok st', w') ->
  max_recursions st' = max_recursions st - 1.
Proof.
  unfold stream_round, bind at 1.
  destruct (handle_streaming_response net forward payload_input (response st) w)
    as [[[m|]|e] w1]; try discriminate.
  munfold. destruct (any_tool_use (content m)) as [[|]|e]; try discriminate.
  - destruct (_process_tool_block self m messages _) as [[t|e] w2]; [|discriminate].
    intros H. now inversion H.
  - destruct (first_text (content m)); [|discriminate]. intros H. now inversion H.
Qed.

Lemma stream_round_calls (st : LoopState) (w : World) :
  calls (snd (stream_round net self payload_input messages st w)) = S (calls w).
Proof.
  unfold stream_round, bind at 1.
  pose proof (handle_streaming_response_calls (response st) w) as Hc.
  destruct (handle_streaming_response net forward payload_input (response st) w)
    as [[[m|]|e] w1]; cbn [snd] in Hc; try exact Hc.
  munfold. destruct (any_tool_use (content m)) as [[|]|e]; try exact Hc.
  - match goal with |- context [_process_tool_block self m messages ?w0] =>
      pose proof (process_tool_block_frame self m messages w0) as [Hp _];
      destruct (_process_tool_block self m messages w0) as [[t|e] w2]
    end; cbn [snd] in *; cbn; rewrite Hp; exact Hc.
  - destruct (first_text (content m)); exact Hc.
Qed.

Lemma stream_loop_total (fuel : nat) (b : Z) (w : World) :
  (Z.to_nat b <= fuel)%nat ->
  while_loop (stream_round net self payload_input messages) fuel (loop_init b) w
  = while_loop (stream_round net self payload_input messages) (Z.to_nat b) (loop_init b) w.
Proof.
  intros H. apply (while_loop_fuel _ stream_round_decrements). exact H.
Qed.

Lemma stream_generator_world (b : Z) (w : World) :
  snd (stream_generator net self payload_input messages b w)
  = snd (while_loop (stream_round net self payload_input messages)
           (Z.to_nat b) (loop_init b) w).
Proof.
  unfold stream_generator, bind, ret.
  destruct (while_loop _ _ _ w) as [[st|e] w']; reflexivity.
Qed.

End StreamRoundFacts.

(** ** The recursion budget *)

(** C8. The budget counter is never negative: from any budget above zero,
    every state either loop reaches, that is the state after each round's
    decrement, has a counter of at least zero. *)
Theorem budget_never_negative (net : Transport) (self : AnthropicAgent)
    (payload_input : Payload) (messages : nat) (budget : Z)
    (w w' : World) (st : LoopState) :
  0 < budget ->
  (rtc (loop_step (single_round net self payload_input messages))
     (loop_init budget, w) (st, w') -> 0 <= max_recursions st)
  /\ (rtc (loop_step (stream_round net self payload_input messages))
        (loop_init budget, w) (st, w') -> 0 <= max_recursions st).
Proof.
  intros Hb. split; intros Hsteps.
  - apply (loop_step_budget _ (single_round_decrements net self payload_input messages)
             _ _ Hsteps). cbn. lia.
  - apply (loop_step_budget _ (stream_round_decrements net self payload_input messages)
             _ _ Hsteps). cbn. lia.
Qed.

(** ** Readings of traces *)

Lemma tokens_app (a b : list Event) : tokens (a ++ b) = tokens a ++ tokens b.
Proof. apply omap_app. Qed.

Lemma yielded_app (a b : list Event) : yielded (a ++ b) = yielded a ++ yielded b.
Proof. apply omap_app. Qed.

Lemma text_chunks_app (a b : list AgentStreamResponse) :
  text_chunks (a ++ b) = text_chunks a ++ text_chunks b.
Proof. apply omap_app. Qed.

Lemma terminal_chunks_app (a b : list AgentStreamResponse) :
  terminal_chunks (a ++ b) = terminal_chunks a ++ terminal_chunks b.
Proof. apply omap_app. Qed.

Lemma tokens_round_events (l : list string) : tokens (round_events l) = l.
Proof. induction l as [|t l IH]; [reflexivity|]. cbn. f_equal. exact IH. Qed.

Lemma yielded_round_events (l : list string) :
  yielded (round_events l) = List.map text_chunk l.
Proof. induction l as [|t l IH]; [reflexivity|]. cbn. f_equal. exact IH. Qed.

Lemma text_chunks_texts (l : list string) : text_chunks (List.map text_chunk l) = l.
Proof. induction l as [|t l IH]; [reflexivity|]. cbn. f_equal. exact IH. Qed.

Lemma terminal_chunks_texts (l : list string) :
  terminal_chunks (List.map text_chunk l) = [].
Proof. induction l as [|t l IH]; [reflexivity|]. exact IH. Qed.

(** Events after the first [content_block_stop] are not looked at. *)
Lemma forwarded_until_stop (pre : list StreamEvent) (t : string)
    (post : list (Result StreamEvent)) :
  Forall (fun ev => event_type ev <> "content_block_stop") pre ->
  forwarded (List.map Ok pre ++ Ok (mkEvent "content_block_stop" t) :: post) = texts_of pre
  /\ stream_failure (List.map Ok pre ++ Ok (mkEvent "content_block_stop" t) :: post) = None.
Proof.
  induction 1 as [|ev pre Hev _ IH]; [split; reflexivity|].
  destruct IH as [IHf IHs]. unfold texts_of in *.
  cbn [List.map app forwarded stream_failure List.filter].
  destruct (String.eqb (event_type ev) "text"); cbn [List.map].
  - split; [now f_equal|exact IHs].
  - destruct (String.eqb_spec (event_type ev) "content_block_stop"); [contradiction|].
    split; assumption.
Qed.

(** C9. Within one streamed round the events are consumed up to the
    first [content_block_stop] only: whatever follows it, the hook is
    called for, and the chunks carry, the texts of the text events before
    it and no others. *)
Theorem stream_stops_at_block_stop (net : Transport) (input : Payload)
    (pre : list StreamEvent) (t : string) (post : list (Result StreamEvent))
    (final : Result Message) (w : World) :
  messages_stream net (calls w)
  = Ok (mkStream (List.map Ok pre ++ Ok (mkEvent "content_block_stop" t) :: post) final) ->
  Forall (fun ev => event_type ev <> "content_block_stop") pre ->
  let w' := snd (handle_streaming_response net to_caller input tt w) in
  tokens (trace w') = tokens (trace w) ++ texts_of pre
  /\ text_chunks (yielded (trace w')) = text_chunks (yielded (trace w)) ++ texts_of pre.
Proof.
  intros Hs Hpre w'. subst w'.
  destruct (forwarded_until_stop pre t post Hpre) as [Hf Hnone].
  rewrite handle_streaming_response_caller, Hs. cbn zeta.
  unfold after_stream. cbn [stream_events get_final_message]. rewrite Hf, Hnone.
  destruct final as [acc|e]; cbn [snd with_event with_events with_call trace];
    rewrite !tokens_app, !yielded_app, !text_chunks_app,
      tokens_round_events, yielded_round_events, text_chunks_texts;
    cbn; rewrite !app_nil_r; split; reflexivity.
Qed.

Lemma stream_stops_at_block_stop_witness :
  let w' := snd (handle_streaming_response Scenario.trailing to_caller
                   Scenario.payload tt Scenario.world) in
  tokens (trace w') = ["a"] /\ text_chunks (yielded (trace w')) = ["a"].
Proof.
  apply (stream_stops_at_block_stop Scenario.trailing Scenario.payload
           [text_event "a"] EmptyString [Ok (text_event "b")]
           (Ok Scenario.text_only) Scenario.world).
  - reflexivity.
  - repeat constructor. discriminate.
Defined.

(** ** Requests without tools *)

(** With a budget of one, a loop makes one round. *)
Lemma while_loop_budget_one (body : LoopState -> M LoopState) (w : World) :
  (forall st w st' w', body st w = (Ok st', w') -> max_recursions st' = max_recursions st - 1) ->
  (forall st w, calls (snd (body st w)) = S (calls w)) ->
  calls (snd (while_loop body (Z.to_nat 1) (loop_init 1) w)) = S (calls w).
Proof.
  intros Hdec Hcalls. change (Z.to_nat 1) with 1%nat. cbn [while_loop].
  change (loop_cond (loop_init 1)) with true. cbn iota. unfold bind.
  pose proof (Hcalls (loop_init 1) w) as Hc.
  destruct (body (loop_init 1) w) as [[st'|e] w'] eqn:Hb; cbn [snd] in *; [|exact Hc].
  apply Hdec in Hb. cbn in Hb. unfold loop_cond. rewrite Hb.
  now rewrite andb_false_r.
Qed.

Lemma get_max_recursions_no_tools (self : AnthropicAgent) :
  tool_config_truth (tool_config self) = false -> _get_max_recursions self = 1.
Proof.
  unfold _get_max_recursions, tool_config_truth.
  destruct (tool_config self) as [cfg|]; [|reflexivity]. now intros ->.
Qed.

(** With a budget of one, the single-response function is one round and
    the [return]. *)
Lemma single_response_budget_one (net : Transport) (self : AnthropicAgent)
    (payload_input : Payload) (messages : nat) (w : World) :
  _handle_single_response_loop net self payload_input messages 1 w
  = match single_round net self payload_input messages (loop_init 1) w with
    | (Ok st, w') => final_of st w'
    | (Raise e, w') => (Raise e, w')
    end.
Proof.
  unfold _handle_single_response_loop. change (Z.to_nat 1) with 1%nat.
  cbn [while_loop]. change (loop_cond (loop_init 1)) with true. cbn iota.
  unfold bind.
  destruct (single_round net self payload_input messages (loop_init 1) w)
    as [[st|e] w']; [|reflexivity].
  destruct (loop_cond st); reflexivity.
Qed.

(** With a budget of one, the streamed request is one round. *)
Lemma stream_generator_budget_one (net : Transport) (self : AnthropicAgent)
    (payload_input : Payload) (messages : nat) (w : World) :
  stream_generator net self payload_input messages 1 w
  = match stream_round net self payload_input messages (loop_init 1) w with
    | (Ok st, w') => (Ok tt, w')
    | (Raise e, w') => (Raise e, w')
    end.
Proof.
  unfold stream_generator. change (Z.to_nat 1) with 1%nat.
  cbn [while_loop]. change (loop_cond (loop_init 1)) with true. cbn iota.
  unfold bind.
  destruct (stream_round net self payload_input messages (loop_init 1) w)
    as [[st|e] w']; [|reflexivity].
  destruct (loop_cond st); reflexivity.
Qed.

(** C5. Without a tool configuration the budget is 1 and the loop makes
    exactly one transport round, in either mode, and then produces the
    final message from the response of that round: in the
    single-response mode a response without a tool-use block that starts
    with a text block is returned as the assistant message, the transport
    call being all that happened; in the streaming mode the round of such
    a final message ends with the terminal chunk that carries it.  A
    message that is returned is never built from anything else. *)
Theorem no_tools_one_round (net : Transport) (self : AnthropicAgent)
    (mode : option bool) (payload_input : Payload) (messages : nat) (w : World) :
  tool_config_truth (tool_config self) = false ->
  let out := (let* reply := _process_with_strategy net self mode payload_input messages in
              consume_reply reply) w in
  _get_max_recursions self = 1
  /\ rounds_between w (snd out) = 1%nat
  /\ (forall m, fst out = Ok (Some m) ->
        exists r t, messages_create net (calls w) = Ok r /\
                    first_text (content r) = Ok t /\
                    m = mkMessage ParticipantRole_ASSISTANT [DictItem (Some t)])
  /\ (flag_truth mode = false ->
      forall r t,
        messages_create net (calls w) = Ok r ->
        any_tool_use (content r) = Ok false ->
        first_text (content r) = Ok t ->
        out = (Ok (Some (mkMessage ParticipantRole_ASSISTANT [DictItem (Some t)])),
               after_create payload_input w))
  /\ (flag_truth mode = true ->
      forall script m t,
        messages_stream net (calls w) = Ok script ->
        stream_result script = Ok m ->
        any_tool_use (content m) = Ok false ->
        first_text (content m) = Ok t ->
        out = (Ok None,
               with_event (after_stream payload_input script w)
                 (EvYield (final_chunk
                    (mkMessage ParticipantRole_ASSISTANT [DictItem (Some t)]))))).
Proof.
  intros Hno out. pose proof (get_max_recursions_no_tools self Hno) as Hb.
  split; [exact Hb|]. subst out. unfold _process_with_strategy. rewrite Hb.
  destruct (flag_truth mode).
  - unfold _handle_streaming. split; [|split; [|split]].
    + unfold rounds_between.
      replace (snd _) with
        (snd (stream_generator net self payload_input messages 1 w)).
      * rewrite stream_generator_world, while_loop_budget_one;
          [lia | apply stream_round_decrements | apply stream_round_calls].
      * munfold. cbn. unfold stream_generator. munfold.
        destruct (while_loop _ _ _ w) as [[st|e] w']; reflexivity.
    + intros m. munfold. cbn. unfold stream_generator. munfold.
      destruct (while_loop _ _ _ w) as [[st|e] w']; discriminate.
    + discriminate.
    + intros _ script m t Hs Hm Htool Hft.
      unfold bind at 1, bind at 1, ret at 1, ret at 1, consume_reply, bind at 1.
      rewrite stream_generator_budget_one,
        (stream_round_eq net self payload_input messages _ _ _ _ Hs Hm), Htool, Hft.
      reflexivity.
  - split; [|split; [|split]].
    + unfold rounds_between.
      replace (snd _) with
        (snd (_handle_single_response_loop net self payload_input messages 1 w)).
      * rewrite single_response_loop_world, while_loop_budget_one;
          [lia | apply single_round_decrements | apply single_round_calls].
      * munfold. cbn.
        destruct (_handle_single_response_loop _ _ _ _ _ w) as [[m|e] w']; reflexivity.
    + intros m. unfold bind. rewrite single_response_budget_one, single_round_eq.
      destruct (messages_create net (calls w)) as [r|e]; [|discriminate].
      destruct (any_tool_use (content r)) as [[|]|e]; try discriminate.
      * destruct (_process_tool_block self r messages _) as [[t|e] w2]; [|discriminate].
        unfold final_of. cbn [response]. munfold.
        destruct (first_text (content r)) as [t'|e] eqn:Hft; [|discriminate].
        cbn. intros [= <-]. exists r, t'. auto.
      * unfold final_of. cbn [response]. munfold.
        destruct (first_text (content r)) as [t'|e] eqn:Hft; [|discriminate].
        cbn. intros [= <-]. exists r, t'. auto.
    + intros _ r t Hr Htool Hft.
      unfold bind. rewrite single_response_budget_one, single_round_eq, Hr, Htool.
      unfold final_of. cbn [response]. munfold. rewrite Hft. reflexivity.
    + discriminate.
Qed.

(** ** Requests with tools: the number of rounds *)





(** ** The chunks of a streamed request *)

Lemma process_tool_block_yielded (self : AnthropicAgent) (r : Message) (l : nat) (w : World) :
  yielded (trace (snd (_process_tool_block self r l w))) = yielded (trace w).
Proof.
  unfold _process_tool_block.
  destruct (tool_config self) as [cfg|]; [|reflexivity].
  destruct (useToolHandler cfg) as [h|].
  - munfold. cbn. rewrite yielded_app. cbn. apply app_nil_r.
  - destruct (tool cfg) as [[reg|lst|]|]; try reflexivity.
    munfold. cbn. rewrite yielded_app. cbn. apply app_nil_r.
Qed.

Lemma after_stream_yielded (p : Payload) (script : StreamScript) (w : World) :
  yielded (trace (after_stream p script w))
  = yielded (trace w) ++ List.map text_chunk (forwarded (stream_events script)).
Proof.
  unfold after_stream. cbn. rewrite !yielded_app, yielded_round_events. cbn.
  now rewrite app_nil_r.
Qed.

Lemma after_stream_calls (p : Payload) (script : StreamScript) (w : World) :
  calls (after_stream p script w) = S (calls w).
Proof. reflexivity. Qed.

Section StreamChunks.

Variable net : Transport.
Variable self : AnthropicAgent.
Variable payload_input : Payload.
Variable messages : nat.

Local Abbreviation body := (stream_round net self payload_input messages).

(** What a round yields, however it ends. *)
Lemma stream_round_yielded (st : LoopState) (w : World) :
  yielded (trace (snd (body st w))) = yielded (trace w) ++ round_chunks net (calls w).
Proof.
  unfold stream_round, round_chunks, bind at 1.
  rewrite handle_streaming_response_forward.
  destruct (messages_stream net (calls w)) as [script|e].
  - cbn zeta. unfold stream_result.
    destruct (stream_failure (stream_events script)) as [e|].
    + cbn [snd with_event trace].
      rewrite yielded_app, after_stream_yielded. cbn. now rewrite !app_nil_r.
    + destruct (get_final_message script) as [acc|e].
      * munfold. cbn [content].
        destruct (any_tool_use (content acc)) as [[|]|e].
        -- match goal with |- context [_process_tool_block self ?m messages ?w0] =>
             pose proof (process_tool_block_yielded self m messages w0) as Hp;
             destruct (_process_tool_block self m messages w0) as [[t|e] w2]
           end; cbn [snd] in *; cbn [with_append trace snd]; rewrite Hp;
             cbn [with_append trace]; rewrite after_stream_yielded;
             now rewrite !app_nil_r.
        -- destruct (first_text (content acc)) as [t|e]; cbn [snd with_event trace].
           ++ rewrite yielded_app, after_stream_yielded. cbn. now rewrite app_assoc.
           ++ rewrite after_stream_yielded. now rewrite !app_nil_r.
        -- cbn [snd]. rewrite after_stream_yielded. now rewrite !app_nil_r.
      * cbn [snd with_event trace].
        rewrite yielded_app, after_stream_yielded. cbn. now rewrite !app_nil_r.
  - cbn [snd with_event with_call trace]. rewrite !yielded_app. cbn. now rewrite !app_nil_r.
Qed.

(** No tool dispatch raises. *)
Hypothesis dispatch_answers : forall r l w,
  exists t w', _process_tool_block self r l w = (Ok t, w').

(** Whether the loop goes on after a round. *)
Lemma stream_round_continues (st : LoopState) (w : World) :
  match fst (body st w) with
  | Ok st' =>
      continue_with_tools st'
      = continue_with_tools st && round_continues net (calls w)
  | Raise _ => round_continues net (calls w) = false
  end.
Proof.
  unfold stream_round, round_continues, bind at 1.
  rewrite handle_streaming_response_forward.
  destruct (messages_stream net (calls w)) as [script|e]; [|reflexivity].
  cbn zeta. unfold stream_result.
  destruct (stream_failure (stream_events script)) as [e|]; [reflexivity|].
  destruct (get_final_message script) as [acc|e]; [|reflexivity].
  munfold. cbn [content].
  destruct (any_tool_use (content acc)) as [[|]|e]; [| |reflexivity].
  - match goal with |- context [_process_tool_block self ?m messages ?w0] =>
      destruct (dispatch_answers m messages w0) as (t & w2 & ->)
    end. cbn. now rewrite andb_true_r.
  - destruct (first_text (content acc)) as [t|e]; cbn; [|reflexivity].
    now rewrite andb_false_r.
Qed.

Lemma while_loop_done (fuel : nat) (st : LoopState) (w : World) :
  loop_cond st = false -> while_loop body fuel st w = (Ok st, w).
Proof. intros H. destruct fuel; cbn [while_loop]; rewrite ?H; destruct (loop_cond st); reflexivity. Qed.

(** The chunks the generator yields when it is consumed to its end, or
    up to the exception that ends it. *)
Lemma stream_loop_chunks (n : nat) :
  forall (st : LoopState) (w : World),
    continue_with_tools st = true ->
    Z.to_nat (max_recursions st) = n ->
    yielded (trace (snd (while_loop body n st w)))
    = yielded (trace w) ++ stream_chunks net n (calls w).
Proof.
  induction n as [|n IH]; intros st w Hcont Hn.
  - cbn [while_loop stream_chunks]. destruct (loop_cond st); cbn; now rewrite app_nil_r.
  - cbn [while_loop stream_chunks]. unfold loop_cond. rewrite Hcont.
    destruct (0 <? max_recursions st) eqn:Hpos; [|apply Z.ltb_ge in Hpos; lia].
    cbn [andb]. unfold bind.
    pose proof (stream_round_yielded st w) as Hy.
    pose proof (stream_round_continues st w) as Hc.
    pose proof (stream_round_calls net self payload_input messages st w) as Hcalls.
    destruct (body st w) as [[st1|e] w1] eqn:Hb; cbn [fst snd] in *.
    + apply stream_round_decrements in Hb. rewrite Hcont in Hc. cbn [andb] in Hc.
      destruct (round_continues net (calls w)).
      * rewrite (IH st1 w1 Hc ltac:(lia)), Hy, Hcalls. now rewrite app_assoc.
      * rewrite while_loop_done by (unfold loop_cond; now rewrite Hc).
        cbn [snd]. now rewrite Hy, app_nil_r.
    + rewrite Hc, Hy. now rewrite app_nil_r.
Qed.

End StreamChunks.

(** However many rounds there are, at most one terminal chunk is yielded,
    and nothing follows it. *)
Lemma stream_chunks_terminal (net : Transport) (n : nat) :
  forall c, (length (terminal_chunks (stream_chunks net n c)) <= 1)%nat.
Proof.
  induction n as [|n IH]; intros c; cbn [stream_chunks]; [cbn; lia|].
  rewrite terminal_chunks_app. unfold round_chunks, round_continues.
  destruct (messages_stream net c) as [script|e]; [|cbn; lia].
  rewrite terminal_chunks_app, terminal_chunks_texts. cbn [app].
  destruct (stream_result script) as [m|e]; [|cbn; lia].
  destruct (any_tool_use (content m)) as [[|]|e]; [|  |cbn; lia].
  - cbn [terminal_chunks omap app]. apply IH.
  - destruct (first_text (content m)); cbn; lia.
Qed.

(** When every round the budget allows asks for a tool, no terminal chunk
    is yielded at all. *)
Lemma stream_chunks_exhausted (net : Transport) (n : nat) :
  forall c, (forall i, (i < n)%nat -> round_continues net (c + i) = true) ->
            terminal_chunks (stream_chunks net n c) = [].
Proof.
  induction n as [|n IH]; intros c H; [reflexivity|]. cbn [stream_chunks].
  pose proof (H 0%nat ltac:(lia)) as H0. rewrite Nat.add_0_r in H0.
  rewrite H0, terminal_chunks_app. rewrite IH.
  - rewrite app_nil_r. unfold round_chunks. unfold round_continues in H0.
    destruct (messages_stream net c) as [script|e]; [|reflexivity].
    rewrite terminal_chunks_app, terminal_chunks_texts.
    destruct (stream_result script) as [m|e]; [|reflexivity].
    destruct (any_tool_use (content m)) as [[|]|e]; try discriminate. reflexivity.
  - intros i Hi. specialize (H (S i) ltac:(lia)). now rewrite Nat.add_succ_r in H.
Qed.

(** ** A raw tool list without a custom handler *)

Lemma tool_calls_app (a b : list Event) : tool_calls (a ++ b) = tool_calls a ++ tool_calls b.
Proof. apply List.filter_app. Qed.

Lemma tool_calls_round_events (l : list string) : tool_calls (round_events l) = [].
Proof. induction l as [|t l IH]; [reflexivity|]. exact IH. Qed.

Lemma raw_list_dispatch (self : AnthropicAgent) (cfg : ToolConfig) (l : list ListedTool)
    (r : Message) (loc : nat) (w : World) :
  tool_config self = Some cfg -> tool cfg = Some (ToolsList l) -> useToolHandler cfg = None ->
  _process_tool_block self r loc w = (Raise (ValueError raw_list_error), w).
Proof. intros H1 H2 H3. unfold _process_tool_block. now rewrite H1, H3, H2. Qed.

(** The first round of a loop with a positive budget. *)
Lemma while_loop_first_round (body : LoopState -> M LoopState) (b : Z) (w : World) :
  0 < b ->
  while_loop body (Z.to_nat b) (loop_init b) w
  = match body (loop_init b) w with
    | (Ok st, w') => while_loop body (Z.to_nat b - 1) st w'
    | (Raise e, w') => (Raise e, w')
    end.
Proof.
  intros Hb. destruct (Z.to_nat b) as [|n] eqn:Hn; [lia|].
  cbn [while_loop]. unfold loop_cond. cbn [loop_init continue_with_tools max_recursions].
  destruct (0 <? b) eqn:Hpos; [|apply Z.ltb_ge in Hpos; lia].
  cbn [andb]. unfold bind. rewrite Nat.sub_succ, Nat.sub_0_r. reflexivity.
Qed.

Lemma while_loop_stopped (body : LoopState -> M LoopState) (fuel : nat)
    (b : Z) (r : option Message) (w : World) :
  while_loop body fuel (mkLoop false b r) w = (Ok (mkLoop false b r), w).
Proof. destruct fuel; reflexivity. Qed.

Lemma first_text_not_value_error (items : list ContentItem) (msg : string) :
  first_text items <> Raise (ValueError msg).
Proof. destruct items as [|[ty [t|]|t] rest]; discriminate. Qed.

Section RawList.

Variable net : Transport.
Variable self : AnthropicAgent.
Variable cfg : ToolConfig.
Variable tools : list ListedTool.

Hypothesis has_config : tool_config self = Some cfg.
Hypothesis raw_tools : tool cfg = Some (ToolsList tools).
Hypothesis no_handler : useToolHandler cfg = None.
Hypothesis budget : 0 < _get_max_recursions self.

(** The loop of either mode, for a first response [r]. *)
Lemma raw_list_strategy (mode : option bool) (payload_input : Payload)
    (messages : nat) (w : World) (r : Message) :
  round_response net (flag_truth mode) (calls w) = Ok r ->
  let out := (let* reply := _process_with_strategy net self mode payload_input messages in
              consume_reply reply) w in
  calls (snd out) = S (calls w)
  /\ tool_calls (trace (snd out)) = tool_calls (trace w)
  /\ (any_tool_use (content r) = Ok true -> fst out = Raise (ValueError raw_list_error))
  /\ (any_tool_use (content r) = Ok false -> forall msg, fst out <> Raise (ValueError msg)).
Proof.
  intros Hr out. subst out. unfold _process_with_strategy, round_response in *.
  destruct (flag_truth mode).
  - destruct (messages_stream net (calls w)) as [script|e] eqn:Hs; [|discriminate].
    unfold _handle_streaming, stream_generator, consume_reply. munfold.
    cbv beta zeta iota.
    rewrite (while_loop_first_round _ _ w budget).
    rewrite (stream_round_eq net self payload_input messages _ w script r Hs Hr).
    cbn zeta. destruct (any_tool_use (content r)) as [[|]|e].
    + rewrite (raw_list_dispatch self cfg tools _ _ _ has_config raw_tools no_handler).
      cbn [fst snd with_append calls trace]. rewrite after_stream_calls.
      unfold after_stream. cbn [with_events with_call trace].
      rewrite !tool_calls_app, tool_calls_round_events. cbn. rewrite !app_nil_r.
      repeat split; try discriminate.
    + pose proof (first_text_not_value_error (content r)) as Hne.
      destruct (first_text (content r)) as [t|e].
      * rewrite while_loop_stopped. cbn [fst snd with_event calls trace].
        rewrite after_stream_calls. unfold after_stream. cbn [with_events with_call trace].
        rewrite !tool_calls_app, tool_calls_round_events. cbn. rewrite !app_nil_r.
        repeat split; try discriminate.
      * cbn [fst snd]. rewrite after_stream_calls.
        unfold after_stream. cbn [with_events with_call trace].
        rewrite !tool_calls_app, tool_calls_round_events. cbn. rewrite !app_nil_r.
        repeat split; try discriminate.
        intros _ msg [= ->]. now apply (Hne msg).
    + cbn [fst snd]. rewrite after_stream_calls.
      unfold after_stream. cbn [with_events with_call trace].
      rewrite !tool_calls_app, tool_calls_round_events. cbn. rewrite !app_nil_r.
      repeat split; discriminate.
  - unfold _handle_single_response_loop, consume_reply. unfold bind. cbv beta zeta.
    rewrite (while_loop_first_round _ _ w budget), single_round_eq, Hr.
    destruct (any_tool_use (content r)) as [[|]|e].
    + rewrite (raw_list_dispatch self cfg tools _ _ _ has_config raw_tools no_handler).
      cbn. rewrite tool_calls_app. cbn. rewrite app_nil_r.
      repeat split; try discriminate.
    + rewrite while_loop_stopped. unfold final_of. cbn [response]. munfold.
      pose proof (first_text_not_value_error (content r)) as Hne.
      destruct (first_text (content r)) as [t|e]; cbn;
        rewrite tool_calls_app; cbn; rewrite app_nil_r;
        repeat split; try discriminate.
      intros _ msg [= ->]. now apply (Hne msg).
    + cbn. rewrite tool_calls_app. cbn. rewrite app_nil_r.
      repeat split; discriminate.
Qed.

End RawList.

Lemma update_system_prompt_frame (is_word : ascii -> bool) (self : AnthropicAgent) :
  tool_config (update_system_prompt is_word self) = tool_config self
  /\ streaming (update_system_prompt is_word self) = streaming self
  /\ retriever (update_system_prompt is_word self) = retriever self
  /\ _get_max_recursions (update_system_prompt is_word self) = _get_max_recursions self.
Proof. repeat split; reflexivity. Qed.

Lemma bind_bind {A B C} (m : M A) (k : A -> M B) (k' : B -> M C) (w : World) :
  bind (bind m k) k' w = bind m (fun a => bind (k a) k') w.
Proof. unfold bind. destruct (m w) as [[a|e] w']; reflexivity. Qed.

Lemma prepare_conversation_ok (input_text : string) (chat_history : list Message)
    (turns : list Turn) (w : World) :
  history_turns chat_history = Ok turns ->
  _prepare_conversation input_text chat_history w
  = (Ok (length (heap w)),
     {| heap := heap w ++ [turns ++ [mkTurn "user" (TextContent input_text)]];
        calls := calls w; trace := trace w |}).
Proof. intros H. unfold _prepare_conversation, bind, lift. now rewrite H. Qed.

Lemma prepare_system_prompt_ok (is_word : ascii -> bool) (self : AnthropicAgent)
    (input_text : string) (w : World) :
  (forall f, retriever self = Some f -> exists ctx, f input_text = Ok ctx) ->
  exists sp w',
    _prepare_system_prompt is_word self input_text w
    = (Ok (update_system_prompt is_word self, sp), w')
    /\ calls w' = calls w /\ tool_calls (trace w') = tool_calls (trace w).
Proof.
  intros Hret. unfold _prepare_system_prompt.
  cbn [update_system_prompt with_system_prompt retriever].
  fold (update_system_prompt is_word self).
  destruct (retriever self) as [f|].
  - destruct (Hret f eq_refl) as [ctx Hctx]. munfold. rewrite Hctx.
    eexists. eexists. split; [reflexivity|]. split; [reflexivity|].
    cbn. rewrite tool_calls_app. cbn. apply app_nil_r.
  - eexists. eexists. split; [reflexivity|]. split; reflexivity.
Qed.

Lemma build_input_raw_list (self : AnthropicAgent) (cfg : ToolConfig)
    (tools : list ListedTool) (loc : nat) (sp : string) :
  tool_config self = Some cfg -> tool cfg = Some (ToolsList tools) ->
  exists p, _build_input self loc sp = Ok p.
Proof.
  intros Hcfg Htool.
  unfold _build_input, _prepare_tool_config, tool_config_truth, dict_truth.
  rewrite Hcfg, Htool. eauto.
Qed.

(** What [process_request] does before it enters the loop, for a raw tool
    list, a history it can convert and a retriever that answers. *)
Lemma process_request_prelude (net : Transport) (is_word : ascii -> bool)
    (self : AnthropicAgent) (input_text user_id session_id : string)
    (chat_history : list Message) (additional_params : option (gmap string string))
    (w : World) (cfg : ToolConfig) (tools : list ListedTool) (turns : list Turn) :
  tool_config self = Some cfg -> tool cfg = Some (ToolsList tools) ->
  history_turns chat_history = Ok turns ->
  (forall f, retriever self = Some f -> exists ctx, f input_text = Ok ctx) ->
  exists p w0,
    calls w0 = calls w /\ tool_calls (trace w0) = tool_calls (trace w) /\
    (let* res := process_request net is_word self input_text user_id session_id
                   chat_history additional_params in
     consume_reply (snd res)) w
    = (let* reply := _process_with_strategy net (update_system_prompt is_word self)
                       (streaming self) p (length (heap w)) in
       consume_reply reply) w0.
Proof.
  intros Hcfg Htool Hhist Hret. unfold process_request.
  rewrite bind_bind, (bind_ok _ _ _ _ _ (prepare_conversation_ok input_text _ _ w Hhist)).
  match goal with |- context [mkWorld ?h ?c ?t] =>
    destruct (prepare_system_prompt_ok is_word self input_text (mkWorld h c t) Hret)
      as (sp & w0 & Hprep & Hcalls & Htc)
  end.
  cbn [calls trace] in Hcalls, Htc.
  rewrite bind_bind, (bind_ok _ _ _ _ _ Hprep). cbv beta iota.
  destruct (build_input_raw_list (update_system_prompt is_word self) cfg tools
              (length (heap w)) sp Hcfg Htool) as [p Hp].
  rewrite bind_bind. unfold lift at 1. rewrite Hp.
  exists p, w0. split; [exact Hcalls|]. split; [exact Htc|].
  change (streaming (update_system_prompt is_word self)) with (streaming self).
  unfold bind.
  destruct (_process_with_strategy net (update_system_prompt is_word self)
              (streaming self) p (length (heap w)) w0) as [[reply|e] w1]; reflexivity.
Qed.

(** C2, as the code has it. With a raw tool list and no custom handler,
    a request whose history is converted and whose retrieval answers is
    not refused before the transport is called: with a positive budget the
    transport is called first.  If the response of that first call holds a
    tool-use block, the [ValueError] of the dispatch is raised right after
    it, with one transport call made and no tool handler called; if it
    holds none, no such error is raised. *)
Theorem raw_tool_list_error_after_transport (net : Transport) (is_word : ascii -> bool)
    (self : AnthropicAgent) (input_text user_id session_id : string)
    (chat_history : list Message) (additional_params : option (gmap string string))
    (w : World) (cfg : ToolConfig) (tools : list ListedTool) (turns : list Turn)
    (r : Message) :
  tool_config self = Some cfg ->
  tool cfg = Some (ToolsList tools) ->
  useToolHandler cfg = None ->
  0 < _get_max_recursions self ->
  history_turns chat_history = Ok turns ->
  (forall f, retriever self = Some f -> exists ctx, f input_text = Ok ctx) ->
  round_response net (flag_truth (streaming self)) (calls w) = Ok r ->
  let out := (let* res := process_request net is_word self input_text user_id session_id
                            chat_history additional_params in
              consume_reply (snd res)) w in
  calls (snd out) = S (calls w)
  /\ tool_calls (trace (snd out)) = tool_calls (trace w)
  /\ (any_tool_use (content r) = Ok true -> fst out = Raise (ValueError raw_list_error))
  /\ (any_tool_use (content r) = Ok false -> forall msg, fst out <> Raise (ValueError msg)).
Proof.
  intros Hcfg Htool Hnone Hbudget Hhist Hret Hr out. subst out.
  destruct (process_request_prelude net is_word self input_text user_id session_id
              chat_history additional_params w cfg tools turns Hcfg Htool Hhist Hret)
    as (p & w0 & Hcalls & Htc & ->).
  rewrite <- Hcalls, <- Htc. rewrite <- Hcalls in Hr.
  apply (raw_list_strategy net (update_system_prompt is_word self) cfg tools
           Hcfg Htool Hnone Hbudget (streaming self) p (length (heap w)) w0 r Hr).
Qed.

Lemma raw_tool_list_error_after_transport_witness :
  let out := Scenario.run (Scenario.always Scenario.text_then_tool)
               (Scenario.agent Scenario.raw_list None) in
  calls (snd out) = S (calls empty_world)
  /\ tool_calls (trace (snd out)) = tool_calls (trace empty_world)
  /\ (any_tool_use (content Scenario.text_then_tool) = Ok true ->
      fst out = Raise (ValueError raw_list_error))
  /\ (any_tool_use (content Scenario.text_then_tool) = Ok false ->
      forall msg, fst out <> Raise (ValueError msg)).
Proof.
  apply (raw_tool_list_error_after_transport
           (Scenario.always Scenario.text_then_tool) ascii_word
           (Scenario.agent Scenario.raw_list None)
           "What is 2+2?" "user" "session" [] None empty_world
           (mkToolConfig (Some (ToolsList [RawTool (mkToolDecl "calculator")])) None None)
           [RawTool (mkToolDecl "calculator")] [] Scenario.text_then_tool).
  - reflexivity.
  - reflexivity.
  - reflexivity.
  - reflexivity.
  - reflexivity.
  - intros f H. vm_compute in H. discriminate.
  - reflexivity.
Defined.

(** The claim as the specification words it fails: with a raw tool list
    and no custom handler the request below does end in an error, but one
    transport call has been made by then. *)
Lemma config_error_before_transport_counterexample :
  let out := Scenario.run (Scenario.always Scenario.text_then_tool)
               (Scenario.agent Scenario.raw_list None) in
  ~ ((exists e, fst out = Raise e) /\ transport_calls (trace (snd out)) = []).
Proof.
  intros out [_ H]. vm_compute in H. discriminate.
Qed.

(** ** Exhausting the budget *)

(** With a budget of one and a first response that asks for a tool, the
    single-response function makes one round with one dispatch and ends in
    whatever reading [.text] of the first block gives: the text, or the
    exception of a block without one. *)
Lemma budget_one_tool_round (net : Transport) (self : AnthropicAgent)
    (payload_input : Payload) (messages : nat) (w : World)
    (r : Message) (t : Turn) (w2 : World) :
  messages_create net (calls w) = Ok r ->
  any_tool_use (content r) = Ok true ->
  _process_tool_block self r messages (after_assistant payload_input w r) = (Ok t, w2) ->
  _handle_single_response_loop net self payload_input messages 1 w
  = (match first_text (content r) with
     | Ok txt => Ok (mkMessage ParticipantRole_ASSISTANT [DictItem (Some txt)])
     | Raise e => Raise e
     end,
     with_append w2 (p_messages payload_input) t).
Proof.
  intros Hr Htool Hd.
  rewrite single_response_budget_one, single_round_eq, Hr, Htool, Hd.
  unfold final_of. cbn [response]. munfold.
  destruct (first_text (content r)); reflexivity.
Qed.

(** C3, on the code. A registry of tools, [toolMaxRecursions = 1], and a
    transport whose response is a tool-use block alone: the loop makes one
    transport call and one tool call, and then the [return] raises an
    [AttributeError], since the first block of the response has no text;
    no final message is returned. *)
Theorem budget_exhausted_tool_only_raises :
  let out := Scenario.run (Scenario.always Scenario.tool_only)
               (Scenario.agent (Scenario.with_registry (Some 1)) None) in
  fst out = Raise (AttributeError "text")
  /\ calls (snd out) = 1%nat
  /\ length (tool_calls (trace (snd out))) = 1%nat.
Proof. vm_compute. repeat split. Qed.

(** With a text block in front of the tool-use block the same request
    returns that text. *)
Example budget_exhausted_text_first :
  fst (Scenario.run (Scenario.always Scenario.text_then_tool)
         (Scenario.agent (Scenario.with_registry (Some 1)) None))
  = Ok (Some (mkMessage "assistant" [DictItem (Some "Let me compute")])).
Proof. vm_compute. reflexivity. Qed.

(** C1, on the code. Streaming, a registry of tools,
    [toolMaxRecursions = 1], and a model that asks for a tool in every
    round: the generator ends without an exception, having yielded the
    forwarded text fragment and no terminal chunk. *)
Theorem streaming_budget_exhausted_no_terminal_chunk :
  let out := Scenario.run (Scenario.always Scenario.text_then_tool)
               (Scenario.agent (Scenario.with_registry (Some 1)) (Some true)) in
  fst out = Ok None
  /\ yielded (trace (snd out)) = [text_chunk "Let me compute"]
  /\ terminal_chunks (yielded (trace (snd out))) = [].
Proof. vm_compute. repeat split. Qed.

(** When the model answers with text within the budget, the chunks are the
    forwarded fragments of the rounds in order and one terminal chunk at
    the end. *)
Example streaming_tool_then_text :
  yielded (trace (snd (Scenario.run Scenario.tool_then_text
                         (Scenario.agent (Scenario.with_registry None) (Some true)))))
  = [text_chunk "Let me compute"; text_chunk "4";
     final_chunk (mkMessage "assistant" [DictItem (Some "4")])].
Proof. vm_compute. reflexivity. Qed.

(** ** Instances *)

Lemma no_tools_one_round_witness :
  let net := Scenario.always Scenario.text_only in
  let self := Scenario.agent None None in
  let run mode := (let* reply := _process_with_strategy net self mode Scenario.payload 0 in
                   consume_reply reply) Scenario.world in
  _get_max_recursions self = 1
  /\ rounds_between Scenario.world (snd (run None)) = 1%nat
  /\ fst (run None) = Ok (Some (mkMessage "assistant" [DictItem (Some "4")]))
  /\ rounds_between Scenario.world (snd (run (Some true))) = 1%nat
  /\ yielded (trace (snd (run (Some true))))
     = [text_chunk "Let me compute";
        final_chunk (mkMessage "assistant" [DictItem (Some "4")])].
Proof.
  intros net self run.
  destruct (no_tools_one_round net self None Scenario.payload 0 Scenario.world eq_refl)
    as (Hb & Hone & _ & Hsingle & _).
  destruct (no_tools_one_round net self (Some true) Scenario.payload 0 Scenario.world eq_refl)
    as (_ & Hone' & _ & _ & Hstream).
  split; [exact Hb|]. split; [exact Hone|].
  split; [exact (f_equal fst (Hsingle eq_refl Scenario.text_only "4" eq_refl eq_refl eq_refl))|].
  split; [exact Hone'|].
  exact (f_equal (fun o => yielded (trace (snd o)))
           (Hstream eq_refl (mkStream Scenario.one_fragment (Ok Scenario.text_only))
              Scenario.text_only "4" eq_refl eq_refl eq_refl eq_refl)).
Defined.

Lemma process_tool_block_order_witness :
  _process_tool_block (Scenario.agent Scenario.raw_list_with_handler None)
    Scenario.tool_only 0 Scenario.world
  = (Ok Scenario.answer, with_event Scenario.world (EvUseToolHandler Scenario.tool_only [Scenario.question]))
  /\ _process_tool_block (Scenario.agent (Scenario.with_registry None) None)
       Scenario.tool_only 0 Scenario.world
     = (Ok Scenario.answer,
        with_event Scenario.world
          (EvToolHandler AgentProviderType_ANTHROPIC Scenario.tool_only
             [Scenario.question]))
  /\ exists msg,
       _process_tool_block (Scenario.agent Scenario.raw_list None)
         Scenario.tool_only 0 Scenario.world
       = (Raise (ValueError msg), Scenario.world).
Proof.
  split; [|split].
  - exact (proj1 (process_tool_block_order
             (Scenario.agent Scenario.raw_list_with_handler None)
             (mkToolConfig (Some (ToolsList [RawTool (mkToolDecl "calculator")])) None
                (Some Scenario.handler))
             Scenario.tool_only 0 Scenario.world eq_refl) Scenario.handler eq_refl).
  - exact (proj1 (proj2 (process_tool_block_order
             (Scenario.agent (Scenario.with_registry None) None)
             (mkToolConfig (Some (ToolsRegistry Scenario.registry)) None None)
             Scenario.tool_only 0 Scenario.world eq_refl)) Scenario.registry eq_refl eq_refl).
  - destruct (proj2 (proj2 (process_tool_block_order
             (Scenario.agent Scenario.raw_list None)
             (mkToolConfig (Some (ToolsList [RawTool (mkToolDecl "calculator")])) None None)
             Scenario.tool_only 0 Scenario.world eq_refl)) eq_refl
             ltac:(discriminate)) as [e [He Hv]].
    exists raw_list_error. rewrite He. now rewrite (Hv _ eq_refl).
Defined.

(** The state a loop returns is one of those the invariant covers. *)
Lemma loop_result_budget (net : Transport) (self : AnthropicAgent)
    (payload_input : Payload) (messages : nat) (budget : Z) (fuel : nat)
    (w w' : World) (st : LoopState) :
  0 < budget ->
  while_loop (single_round net self payload_input messages) fuel (loop_init budget) w
  = (Ok st, w') \/
  while_loop (stream_round net self payload_input messages) fuel (loop_init budget) w
  = (Ok st, w') ->
  0 <= max_recursions st.
Proof.
  intros Hb [H|H]; apply while_loop_steps in H.
  - apply (loop_step_budget _ (single_round_decrements net self payload_input messages)
             _ _ H). cbn. lia.
  - apply (loop_step_budget _ (stream_round_decrements net self payload_input messages)
             _ _ H). cbn. lia.
Qed.

Lemma budget_never_negative_witness :
  0 <= max_recursions (mkLoop true 1 (Some Scenario.text_then_tool)).
Proof.
  refine (proj1 (budget_never_negative Scenario.tool_then_text
                   (Scenario.agent (Scenario.with_registry (Some 2)) None)
                   Scenario.payload 0 2 Scenario.world
                   (snd (single_round Scenario.tool_then_text
                           (Scenario.agent (Scenario.with_registry (Some 2)) None)
                           Scenario.payload 0 (loop_init 2) Scenario.world))
                   (mkLoop true 1 (Some Scenario.text_then_tool)) _) _).
  - reflexivity.
  - apply rtc_once. split; reflexivity.
Defined.

(** * Further properties of the code *)

(** ** The prompt composer, continued *)

Lemma re_sub_brace_free (is_word : ascii -> bool) (repl : ReMatch -> string) (t : string) :
  brace_free t = true -> re_sub is_word repl 0 t = t.
Proof.
  induction t as [|c t IH]; intros H; [reflexivity|].
  cbn [brace_free] in H. apply andb_true_iff in H as [Hc Ht].
  cbn [re_sub]. unfold match_at. cbn [PyStr.removeprefix].
  destruct (Ascii.eqb "{" c); [discriminate|]. now rewrite (IH Ht).
Qed.

Lemma replace_placeholders_text_witness :
  replace_placeholders ascii_word "You are a helpful agent } ok" ∅
  = "You are a helpful agent } ok".
Proof.
  apply (replace_placeholders_text ascii_word ∅ "You are a helpful agent } ok").
  reflexivity.
Defined.

Lemma plain_brace_free (s t : string) :
  plain s = true -> brace_free t = true -> brace_free (s +:+ t) = true.
Proof.
  induction s as [|c s IH]; intros Hs Ht; [exact Ht|].
  cbn [plain] in Hs. apply andb_true_iff in Hs as [Hc Hs].
  apply andb_true_iff in Hc as [Ho _].
  rewrite PyStrFacts.app_cons. cbn [brace_free]. now rewrite Ho, (IH Hs Ht).
Qed.

(** The greedy run over plain text that is no name stops at a character
    that is no closing brace, or is empty. *)
Lemma word_run_not_name (is_word : ascii -> bool) (s t : string) :
  plain s = true -> all_word is_word s = false ->
  exists w c r, word_run is_word (s +:+ t) = (w, String c r) /\ Ascii.eqb "}" c = false.
Proof.
  induction s as [|c s IH]; intros Hs Hw; [discriminate|].
  cbn [plain] in Hs. apply andb_true_iff in Hs as [Hc Hs].
  apply andb_true_iff in Hc as [_ Hclose]. apply negb_true_iff in Hclose.
  rewrite PyStrFacts.app_cons. cbn [word_run all_word] in *.
  destruct (is_word c).
  - cbn [andb] in Hw. destruct (IH Hs Hw) as (w & c' & r & -> & Hc').
    exists (String c w), c', r. split; [reflexivity|exact Hc'].
  - exists EmptyString, c, (s +:+ t). split; [reflexivity|exact Hclose].
Qed.

(** Braces around text that is no name are no placeholder: when the text
    between [{{] and [}}] is empty or holds a character outside the word
    class (and no brace), the whole is left as it stands. *)
Theorem malformed_placeholder_verbatim (is_word : ascii -> bool)
    (variables : gmap string TemplateValue) (s : string) :
  plain s = true ->
  is_name is_word s = false ->
  replace_placeholders is_word ("{{" +:+ s +:+ "}}") variables = "{{" +:+ s +:+ "}}".
Proof.
  intros Hs Hn. unfold replace_placeholders.
  assert (match_at is_word ("{{" +:+ s +:+ "}}") = None) as H0.
  { unfold match_at. rewrite PyStrFacts.removeprefix_app.
    destruct s as [|c s].
    - rewrite PyStrFacts.app_nil_l.
      change "}}" with (String "}"%char (String "}"%char EmptyString)).
      cbn [word_run]. destruct (is_word "}"%char); reflexivity.
    - cbn [is_name] in Hn.
      destruct (word_run_not_name is_word (String c s) "}}" Hs Hn)
        as (w & c' & r & -> & Hc').
      destruct w; [reflexivity|]. cbn [PyStr.removeprefix]. now rewrite Hc'. }
  assert (match_at is_word ("{" +:+ s +:+ "}}") = None) as H1.
  { unfold match_at. destruct s as [|c s]; [reflexivity|].
    cbn [plain] in Hs. apply andb_true_iff in Hs as [Hc _].
    apply andb_true_iff in Hc as [Ho _]. apply negb_true_iff in Ho.
    change ("{" +:+ String c s +:+ "}}") with (String "{" (String c (s +:+ "}}"))).
    change "{{" with (String "{"%char (String "{"%char EmptyString)).
    cbn [PyStr.removeprefix]. now rewrite Ascii.eqb_refl, Ho. }
  change ("{{" +:+ s +:+ "}}") with (String "{" ("{" +:+ s +:+ "}}")) in *.
  cbn [re_sub]. rewrite H0. f_equal.
  change ("{" +:+ s +:+ "}}") with (String "{" (s +:+ "}}")) in *.
  cbn [re_sub]. rewrite H1. f_equal.
  apply re_sub_brace_free. now apply plain_brace_free.
Qed.

Lemma malformed_placeholder_verbatim_witness :
  replace_placeholders ascii_word "{{first name}}" {[ "first" := VStr "x" ]}
  = "{{first name}}"
  /\ replace_placeholders ascii_word "{{}}" {[ "first" := VStr "x" ]} = "{{}}".
Proof.
  split.
  - apply (malformed_placeholder_verbatim ascii_word {[ "first" := VStr "x" ]} "first name");
      reflexivity.
  - apply (malformed_placeholder_verbatim ascii_word {[ "first" := VStr "x" ]} EmptyString);
      reflexivity.
Defined.

(** ** The constructor, continued *)

(** The agent before the custom system prompt is installed. *)
Lemma init_inv (is_word : ascii -> bool) (options : AnthropicAgentOptions)
    (self : AnthropicAgent) :
  __init__ is_word options = Ok self ->
  exists c base,
    choose_client options = Ok c /\
    base = {| name := opt_name options;
              description := opt_description options;
              streaming := opt_streaming options;
              client := c;
              system_prompt := EmptyString;
              custom_variables := ∅;
              default_max_recursions := 5;
              model_id := opt_model_id options;
              inference_config :=
                match opt_inference_config options with
                | Some cfg =>
                    if decide (cfg = ∅) then default_inference_config
                    else cfg ∪ default_inference_config
                | None => default_inference_config
                end;
              retriever := opt_retriever options;
              tool_config := opt_tool_config options;
              prompt_template :=
                default_prompt_template (opt_name options) (opt_description options) |} /\
    self = match opt_custom_system_prompt options with
           | Some csp => set_system_prompt is_word base (template csp) (variables csp)
           | None => base
           end.
Proof.
  unfold __init__. intros H.
  destruct (negb (str_truth (opt_api_key options))
            && negb (opt_client_truth (opt_client options))); [discriminate|].
  destruct (choose_client options) as [c|e]; [|discriminate].
  eexists c, _. split; [reflexivity|]. split; [reflexivity|].
  destruct (opt_custom_system_prompt options) as [csp|]; now inversion H.
Qed.

Lemma set_system_prompt_frame (is_word : ascii -> bool) (self : AnthropicAgent)
    (t : option string) (v : option (gmap string TemplateValue)) :
  let self' := set_system_prompt is_word self t v in
  inference_config self' = inference_config self
  /\ tool_config self' = tool_config self
  /\ default_max_recursions self' = default_max_recursions self
  /\ streaming self' = streaming self
  /\ retriever self' = retriever self
  /\ model_id self' = model_id self.
Proof.
  unfold set_system_prompt, update_system_prompt.
  destruct t as [[|c t]|], v as [v|]; cbn; try case_decide; repeat split; reflexivity.
Qed.

(** The settings of the new agent that the custom prompt does not touch. *)
Lemma init_frame (is_word : ascii -> bool) (options : AnthropicAgentOptions)
    (self : AnthropicAgent) :
  __init__ is_word options = Ok self ->
  inference_config self
  = match opt_inference_config options with
    | Some cfg =>
        if decide (cfg = ∅) then default_inference_config
        else cfg ∪ default_inference_config
    | None => default_inference_config
    end
  /\ tool_config self = opt_tool_config options
  /\ default_max_recursions self = 5
  /\ streaming self = opt_streaming options
  /\ retriever self = opt_retriever options
  /\ model_id self = opt_model_id options.
Proof.
  intros H. destruct (init_inv is_word options self H) as (c & base & _ & Hbase & ->).
  assert (inference_config base = match opt_inference_config options with
            | Some cfg => if decide (cfg = ∅) then default_inference_config
                          else cfg ∪ default_inference_config
            | None => default_inference_config end
          /\ tool_config base = opt_tool_config options
          /\ default_max_recursions base = 5
          /\ streaming base = opt_streaming options
          /\ retriever base = opt_retriever options
          /\ model_id base = opt_model_id options) as Hb
    by (subst base; repeat split; reflexivity).
  clear Hbase.
  destruct (opt_custom_system_prompt options) as [csp|]; [|exact Hb].
  pose proof (set_system_prompt_frame is_word base (template csp) (variables csp))
    as (H1 & H2 & H3 & H4 & H5 & H6). cbn zeta in *.
  rewrite H1, H2, H3, H4, H5, H6. exact Hb.
Qed.

(** Caller overrides are merged over the defaults: a key of the given
    inference configuration has the given value, any other key has the
    default, and the four default keys are always present. *)
Theorem init_inference_config (is_word : ascii -> bool) (options : AnthropicAgentOptions)
    (self : AnthropicAgent) (key : string) :
  __init__ is_word options = Ok self ->
  inference_config self !! key
  = match opt_inference_config options with
    | Some cfg =>
        match cfg !! key with
        | Some v => Some v
        | None => default_inference_config !! key
        end
    | None => default_inference_config !! key
    end
  /\ (key ∈ ["maxTokens"; "temperature"; "topP"; "stopSequences"] ->
      is_Some (inference_config self !! key)).
Proof.
  intros H. destruct (init_frame is_word options self H) as (Hic & _).
  assert (inference_config self !! key
          = match opt_inference_config options with
            | Some cfg => match cfg !! key with
                          | Some v => Some v
                          | None => default_inference_config !! key
                          end
            | None => default_inference_config !! key
            end) as Heq.
  { rewrite Hic. destruct (opt_inference_config options) as [cfg|]; [|reflexivity].
    case_decide as Hempty.
    - subst cfg. now rewrite lookup_empty.
    - rewrite lookup_union. destruct (cfg !! key), (default_inference_config !! key);
        reflexivity. }
  split; [exact Heq|]. intros Hkey. rewrite Heq.
  assert (is_Some (default_inference_config !! key)) as Hdef.
  { rewrite !elem_of_cons in Hkey.
    destruct Hkey as [->|[->|[->|[->|Hnil]]]]; try (eexists; reflexivity).
    now apply elem_of_nil in Hnil. }
  destruct (opt_inference_config options) as [cfg|]; [|exact Hdef].
  destruct (cfg !! key); [eauto|exact Hdef].
Qed.

Lemma init_inference_config_witness :
  inference_config
    (Scenario.agent None None) !! "maxTokens" = Some (IInt 1000)
  /\ is_Some (inference_config (Scenario.agent None None) !! "maxTokens").
Proof.
  destruct (init_inference_config ascii_word (Scenario.options None None)
              (Scenario.agent None None) "maxTokens" eq_refl) as [H1 H2].
  split; [exact H1|]. apply H2. repeat constructor.
Defined.

(** The prompt of a new agent: without a custom system prompt (none, or
    an empty dict) the default template is installed and [system_prompt]
    is still empty (it is filled by the first request); with one, a given
    non-empty template and given non-empty variables are installed, the
    defaults stay otherwise, and [system_prompt] is the installed template
    with its placeholders replaced, be it the default one. *)
Theorem init_system_prompt (is_word : ascii -> bool) (options : AnthropicAgentOptions)
    (self : AnthropicAgent) :
  __init__ is_word options = Ok self ->
  prompt_template self = installed_template options
  /\ custom_variables self = installed_variables options
  /\ system_prompt self
     = if custom_prompt_given options
       then replace_placeholders is_word (installed_template options)
              (installed_variables options)
       else EmptyString.
Proof.
  intros H. destruct (init_inv is_word options self H) as (c & base & _ & -> & ->).
  unfold installed_template, installed_variables, custom_prompt_given.
  destruct (opt_custom_system_prompt options) as [csp|]; [|repeat split; reflexivity].
  unfold set_system_prompt, update_system_prompt.
  destruct (template csp) as [[|ch t]|], (variables csp) as [v|]; cbn [default];
    try case_decide; subst; repeat split; reflexivity.
Qed.

Lemma init_system_prompt_witness :
  system_prompt (Scenario.agent None None) = EmptyString
  /\ system_prompt
       (Scenario.construct
          (Scenario.prompted
             (mkCustomPrompt (Some "I am {{name}}") (Some {[ "name" := VStr "Bot" ]}))))
     = "I am Bot"
  /\ system_prompt (Scenario.construct (Scenario.prompted (mkCustomPrompt None None)))
     = replace_placeholders ascii_word
         (default_prompt_template "Math agent" "Adds numbers") ∅.
Proof.
  split; [|split].
  - exact (proj2 (proj2 (init_system_prompt ascii_word (Scenario.options None None)
                           (Scenario.agent None None) eq_refl))).
  - exact (proj2 (proj2 (init_system_prompt ascii_word
                           (Scenario.prompted
                              (mkCustomPrompt (Some "I am {{name}}")
                                 (Some {[ "name" := VStr "Bot" ]})))
                           (Scenario.construct
                              (Scenario.prompted
                                 (mkCustomPrompt (Some "I am {{name}}")
                                    (Some {[ "name" := VStr "Bot" ]}))))
                           eq_refl))).
  - exact (proj2 (proj2 (init_system_prompt ascii_word
                           (Scenario.prompted (mkCustomPrompt None None))
                           (Scenario.construct
                              (Scenario.prompted (mkCustomPrompt None None)))
                           eq_refl))).
Defined.

(** The client of a new agent: a client that counts as given is stored as
    it is, whether or not an API key comes with it; otherwise the client is
    built from the API key, of the class the streaming flag asks for. *)
Theorem init_client (is_word : ascii -> bool) (options : AnthropicAgentOptions)
    (self : AnthropicAgent) :
  __init__ is_word options = Ok self ->
  client self
  = match opt_client options with
    | Some c => if client_truth c then c else built_client options
    | None => built_client options
    end.
Proof.
  intros H. destruct (init_inv is_word options self H) as (c & base & Hc & -> & ->).
  assert (c = match opt_client options with
              | Some c => if client_truth c then c else built_client options
              | None => built_client options
              end) as Hchoice.
  { unfold choose_client, built_client in *.
    destruct (opt_client options) as [c0|].
    - destruct (client_truth c0).
      + destruct (flag_truth (opt_streaming options)).
        * destruct (negb (isinstance_AsyncAnthropic c0)); now inversion Hc.
        * destruct (negb (isinstance_Anthropic c0)); now inversion Hc.
      + destruct (flag_truth (opt_streaming options)); now inversion Hc.
    - destruct (flag_truth (opt_streaming options)); now inversion Hc. }
  rewrite <- Hchoice.
  destruct (opt_custom_system_prompt options) as [csp|]; [|reflexivity].
  apply client_set_system_prompt.
Qed.

Lemma init_client_witness :
  client (Scenario.agent None (Some true)) = AsyncAnthropic (Some "key").
Proof.
  exact (init_client ascii_word (Scenario.options None (Some true))
           (Scenario.agent None (Some true)) eq_refl).
Defined.

(** The budget of a new agent: 1 without a tool configuration, the value of
    [toolMaxRecursions] where the configuration has the key, and 5
    otherwise. *)
Theorem init_max_recursions (is_word : ascii -> bool) (options : AnthropicAgentOptions)
    (self : AnthropicAgent) :
  __init__ is_word options = Ok self ->
  _get_max_recursions self
  = match opt_tool_config options with
    | Some cfg =>
        if dict_truth cfg
        then match toolMaxRecursions cfg with Some n => n | None => 5 end
        else 1
    | None => 1
    end.
Proof.
  intros H. destruct (init_frame is_word options self H) as (_ & Htc & Hd & _).
  unfold _get_max_recursions. rewrite Htc, Hd.
  destruct (opt_tool_config options) as [cfg|]; [|reflexivity].
  destruct (dict_truth cfg); reflexivity.
Qed.

Lemma init_max_recursions_witness :
  _get_max_recursions (Scenario.agent (Scenario.with_registry None) None) = 5.
Proof.
  exact (init_max_recursions ascii_word
           (Scenario.options (Scenario.with_registry None) None)
           (Scenario.agent (Scenario.with_registry None) None) eq_refl).
Defined.

(** ** The conversation builder *)

(** The turns built from a stored history: one turn per message, in order,
    with the transport's role for the stored one and, as content, the text
    under the key ['text'] of the first item of the message, or the empty
    string for a message without content; what follows the first item is
    not read. *)
Theorem history_turns_shape (chat_history : list Message) (turns : list Turn) :
  history_turns chat_history = Ok turns ->
  length turns = length chat_history
  /\ forall i msg, chat_history !! i = Some msg ->
       exists t, turns !! i = Some (mkTurn (transport_role (role msg)) (TextContent t))
                 /\ match content msg with
                    | [] => t = EmptyString
                    | c :: _ => item_get_text c = Ok t
                    end.
Proof.
  revert turns. induction chat_history as [|m h IH]; intros turns H.
  - cbn in H. inversion H; subst. split; [reflexivity|]. intros i msg Hi. discriminate.
  - cbn [history_turns] in H.
    destruct (history_turn m) as [t0|e] eqn:Hm; [|discriminate].
    destruct (history_turns h) as [ts|e]; [|discriminate].
    inversion H; subst; clear H. destruct (IH ts eq_refl) as [Hlen Hall].
    split; [cbn; now rewrite Hlen|].
    intros [|i] msg Hi; cbn in Hi.
    + inversion Hi; subst; clear Hi. unfold history_turn in Hm.
      destruct (content msg) as [|c rest].
      * inversion Hm; subst. exists EmptyString. split; reflexivity.
      * destruct (item_get_text c) as [t|e] eqn:Ht; [|discriminate].
        inversion Hm; subst. exists t. split; reflexivity.
    + apply (Hall i msg Hi).
Qed.

Lemma history_turns_shape_witness :
  length [mkTurn "user" (TextContent "q"); mkTurn "assistant" (TextContent EmptyString)]
  = length [mkMessage "user" [DictItem (Some "q"); DictItem (Some "more")];
            mkMessage "assistant" []]
  /\ forall i msg,
       [mkMessage "user" [DictItem (Some "q"); DictItem (Some "more")];
        mkMessage "assistant" []] !! i = Some msg ->
       exists t,
         [mkTurn "user" (TextContent "q"); mkTurn "assistant" (TextContent EmptyString)] !! i
         = Some (mkTurn (transport_role (role msg)) (TextContent t))
         /\ match content msg with
            | [] => t = EmptyString
            | c :: _ => item_get_text c = Ok t
            end.
Proof.
  apply (history_turns_shape
           [mkMessage "user" [DictItem (Some "q"); DictItem (Some "more")];
            mkMessage "assistant" []]).
  reflexivity.
Defined.

(** Only the first item of each stored message counts, for the turns built
    and for the exception raised alike: cutting every message down to its
    first item changes nothing. *)
Theorem history_turns_first_item (chat_history : list Message) :
  history_turns (List.map first_item_only chat_history) = history_turns chat_history.
Proof.
  induction chat_history as [|m h IH]; [reflexivity|].
  cbn [List.map history_turns]. rewrite IH.
  assert (history_turn (first_item_only m) = history_turn m) as ->; [|reflexivity].
  unfold history_turn, first_item_only. cbn [role content].
  destruct (content m) as [|c rest]; reflexivity.
Qed.

Lemma history_turns_length (chat_history : list Message) (turns : list Turn) :
  history_turns chat_history = Ok turns -> length turns = length chat_history.
Proof.
  revert turns. induction chat_history as [|m h IH]; intros turns H.
  - cbn in H. now inversion H.
  - cbn [history_turns] in H.
    destruct (history_turn m); [|discriminate].
    destruct (history_turns h) as [ts|]; [|discriminate].
    inversion H; subst. cbn. now rewrite (IH ts eq_refl).
Qed.

(** [_prepare_conversation] builds a new list object: the reference it
    returns is fresh, the list holds the turns of the history followed by
    the new input as a user turn, and the lists already there are left as
    they are. *)
Theorem prepare_conversation_fresh (input_text : string) (chat_history : list Message)
    (turns : list Turn) (w : World) :
  history_turns chat_history = Ok turns ->
  let out := _prepare_conversation input_text chat_history w in
  fst out = Ok (length (heap w))
  /\ heap_get (snd out) (length (heap w))
     = turns ++ [mkTurn "user" (TextContent input_text)]
  /\ length (heap_get (snd out) (length (heap w))) = S (length chat_history)
  /\ (forall l, (l < length (heap w))%nat -> heap_get (snd out) l = heap_get w l)
  /\ quiet w (snd out).
Proof.
  intros H out. subst out. rewrite (prepare_conversation_ok _ _ _ w H).
  cbn [fst snd]. unfold heap_get. cbn [heap].
  pose proof (history_turns_length _ _ H) as Hlen.
  split; [reflexivity|]. split; [|split; [|split]].
  - rewrite lookup_app_r by lia. now rewrite Nat.sub_diag.
  - rewrite lookup_app_r by lia. rewrite Nat.sub_diag. cbn.
    rewrite length_app. cbn. lia.
  - intros l Hl. now rewrite lookup_app_l by lia.
  - repeat split; reflexivity.
Qed.

Lemma prepare_conversation_fresh_witness :
  let out := _prepare_conversation "next" [mkMessage "user" [DictItem (Some "q")]]
               Scenario.world in
  fst out = Ok 1%nat
  /\ heap_get (snd out) 1
     = [mkTurn "user" (TextContent "q")] ++ [mkTurn "user" (TextContent "next")]
  /\ length (heap_get (snd out) 1) = 2%nat
  /\ (forall l, (l < 1)%nat -> heap_get (snd out) l = heap_get Scenario.world l)
  /\ quiet Scenario.world (snd out).
Proof.
  apply (prepare_conversation_fresh "next" [mkMessage "user" [DictItem (Some "q")]]
           [mkTurn "user" (TextContent "q")] Scenario.world).
  reflexivity.
Defined.

Lemma history_turns_app_raise (pre post : list Message) (turns : list Turn)
    (msg : Message) (c : ContentItem) (rest : list ContentItem) (e : PyExn) :
  history_turns pre = Ok turns ->
  content msg = c :: rest ->
  item_get_text c = Raise e ->
  history_turns (pre ++ msg :: post) = Raise e.
Proof.
  revert turns. induction pre as [|m pre IH]; intros turns Hpre Hc He.
  - cbn [app history_turns]. unfold history_turn. now rewrite Hc, He.
  - cbn [app history_turns] in *.
    destruct (history_turn m); [|discriminate].
    destruct (history_turns pre) as [ts|]; [|discriminate].
    now rewrite (IH ts eq_refl Hc He).
Qed.

(** A history that cannot be converted refuses the request at once: when
    the first item of a stored message cannot be read under ['text'] (and
    the messages before it can), the exception of that reading is raised
    and the world is as before, with no list built and nothing called. *)
Theorem unreadable_history_refused (net : Transport) (is_word : ascii -> bool)
    (self : AnthropicAgent) (input_text user_id session_id : string)
    (pre post : list Message) (additional_params : option (gmap string string))
    (w : World) (turns : list Turn) (msg : Message) (c : ContentItem)
    (rest : list ContentItem) (e : PyExn) :
  history_turns pre = Ok turns ->
  content msg = c :: rest ->
  item_get_text c = Raise e ->
  process_request net is_word self input_text user_id session_id
    (pre ++ msg :: post) additional_params w
  = (Raise e, w).
Proof.
  intros Hpre Hc He. unfold process_request, _prepare_conversation.
  rewrite bind_bind. unfold bind at 1. unfold lift.
  now rewrite (history_turns_app_raise pre post turns msg c rest e Hpre Hc He).
Qed.

Lemma unreadable_history_refused_witness :
  process_request (Scenario.always Scenario.text_only) ascii_word
    (Scenario.agent None None) "next" "user" "session"
    ([mkMessage "user" [DictItem (Some "q")]]
     ++ mkMessage "assistant" [Block "text" (Some "a")] :: []) None Scenario.world
  = (Raise (TypeError "object is not subscriptable"), Scenario.world).
Proof.
  apply (unreadable_history_refused (Scenario.always Scenario.text_only) ascii_word
           (Scenario.agent None None) "next" "user" "session"
           [mkMessage "user" [DictItem (Some "q")]] [] None Scenario.world
           [mkTurn "user" (TextContent "q")]
           (mkMessage "assistant" [Block "text" (Some "a")])
           (Block "text" (Some "a")) []); reflexivity.
Defined.

(** ** Before the loop: retrieval and tool declarations *)

Lemma transport_calls_app (a b : list Event) :
  transport_calls (a ++ b) = transport_calls a ++ transport_calls b.
Proof. apply List.filter_app. Qed.

Lemma quiet_refl (w : World) : quiet w w.
Proof. repeat split; reflexivity. Qed.

Lemma quiet_trans (w1 w2 w3 : World) : quiet w1 w2 -> quiet w2 w3 -> quiet w1 w3.
Proof.
  intros (A1 & A2 & A3 & A4) (B1 & B2 & B3 & B4).
  repeat split; congruence.
Qed.

Lemma quiet_retrieve (w : World) (t : string) : quiet w (with_event w (EvRetrieve t)).
Proof.
  repeat split; cbn; rewrite ?transport_calls_app, ?tool_calls_app, ?yielded_app;
    cbn; now rewrite app_nil_r.
Qed.

Lemma quiet_new_list (w : World) (l : list Turn) :
  quiet w {| heap := heap w ++ [l]; calls := calls w; trace := trace w |}.
Proof. repeat split; reflexivity. Qed.

(** With a retriever that answers, the prompt handed to the transport is
    the composed prompt followed by the header and the retrieved context;
    the retriever is asked once, with the input text, and the prompt stored
    in the agent is the composed one, without the context. *)
Theorem prepare_system_prompt_context (is_word : ascii -> bool) (self : AnthropicAgent)
    (input_text : string) (w : World) (f : string -> Result string) (ctx : string) :
  retriever self = Some f ->
  f input_text = Ok ctx ->
  let self' := update_system_prompt is_word self in
  _prepare_system_prompt is_word self input_text w
  = (Ok (self', system_prompt self' +:+ context_header +:+ ctx),
     with_event w (EvRetrieve input_text))
  /\ system_prompt self'
     = replace_placeholders is_word (prompt_template self) (custom_variables self).
Proof.
  intros Hf Hctx self'. split; [|reflexivity].
  unfold _prepare_system_prompt. fold self'.
  change (retriever self') with (retriever self). rewrite Hf.
  munfold. rewrite Hctx. unfold context_header.
  now rewrite !PyStrFacts.app_assoc.
Qed.

Lemma prepare_system_prompt_context_witness :
  let self := with_prompt_template Scenario.retrieving "I am {{name}}" in
  let self' := update_system_prompt ascii_word self in
  _prepare_system_prompt ascii_word self "What is 2+2?" Scenario.world
  = (Ok (self', system_prompt self' +:+ context_header +:+ "Arithmetic facts"),
     with_event Scenario.world (EvRetrieve "What is 2+2?"))
  /\ system_prompt self'
     = replace_placeholders ascii_word (prompt_template self) (custom_variables self).
Proof.
  apply (prepare_system_prompt_context ascii_word
           (with_prompt_template Scenario.retrieving "I am {{name}}")
           "What is 2+2?" Scenario.world Scenario.retrieve "Arithmetic facts");
    reflexivity.
Defined.

Lemma prepare_system_prompt_cases (is_word : ascii -> bool) (self : AnthropicAgent)
    (input_text : string) (w : World) :
  quiet w (snd (_prepare_system_prompt is_word self input_text w))
  /\ match fst (_prepare_system_prompt is_word self input_text w) with
     | Ok (self', _) => self' = update_system_prompt is_word self
     | Raise e => exists f, retriever self = Some f /\ f input_text = Raise e
     end.
Proof.
  unfold _prepare_system_prompt.
  change (retriever (update_system_prompt is_word self)) with (retriever self).
  destruct (retriever self) as [f|].
  - munfold. destruct (f input_text) as [ctx|e] eqn:Hf; cbn [fst snd].
    + split; [apply quiet_retrieve|reflexivity].
    + split; [apply quiet_retrieve|eauto].
  - split; [apply quiet_refl|reflexivity].
Qed.

(** A retriever that raises refuses the request before the loop: its
    exception is the outcome, it has been asked once, and no transport
    call and no tool call has been made. *)
Theorem retriever_failure_refused (net : Transport) (is_word : ascii -> bool)
    (self : AnthropicAgent) (input_text user_id session_id : string)
    (chat_history : list Message) (additional_params : option (gmap string string))
    (w : World) (turns : list Turn) (f : string -> Result string) (e : PyExn) :
  history_turns chat_history = Ok turns ->
  retriever self = Some f ->
  f input_text = Raise e ->
  let out := process_request net is_word self input_text user_id session_id
               chat_history additional_params w in
  fst out = Raise e
  /\ trace (snd out) = trace w ++ [EvRetrieve input_text]
  /\ quiet w (snd out).
Proof.
  intros Hh Hf He out. subst out. unfold process_request.
  rewrite (bind_ok _ _ _ _ _ (prepare_conversation_ok input_text _ _ w Hh)).
  unfold bind at 1. unfold _prepare_system_prompt.
  change (retriever (update_system_prompt is_word self)) with (retriever self).
  rewrite Hf. munfold. rewrite He. cbn [fst snd].
  split; [reflexivity|]. split; [reflexivity|].
  eapply quiet_trans; [apply quiet_new_list|].
  match goal with |- quiet ?w1 _ => apply (quiet_retrieve w1) end.
Qed.

Lemma retriever_failure_refused_witness :
  let out := process_request (Scenario.always Scenario.text_only) ascii_word
               Scenario.failing_retrieval "What is 2+2?" "user" "session" [] None
               Scenario.world in
  fst out = Raise (ExternalError "retriever")
  /\ trace (snd out) = trace Scenario.world ++ [EvRetrieve "What is 2+2?"]
  /\ quiet Scenario.world (snd out).
Proof.
  apply (retriever_failure_refused (Scenario.always Scenario.text_only) ascii_word
           Scenario.failing_retrieval "What is 2+2?" "user" "session" [] None
           Scenario.world [] (fun _ => Raise (ExternalError "retriever"))
           (ExternalError "retriever")); reflexivity.
Defined.

Lemma build_input_unknown_shape (self : AnthropicAgent) (cfg : ToolConfig)
    (loc : nat) (sp : string) :
  tool_config self = Some cfg -> dict_truth cfg = true ->
  (forall r, tool cfg <> Some (ToolsRegistry r)) ->
  (forall l, tool cfg <> Some (ToolsList l)) ->
  _build_input self loc sp
  = Raise (match tool cfg with
           | Some _ => RuntimeError "Invalid tool config"
           | None => KeyError "tool"
           end).
Proof.
  intros Hcfg Hd Hr Hl. unfold _build_input, _prepare_tool_config, tool_config_truth.
  rewrite Hcfg, Hd. destruct (tool cfg) as [[r|l|]|]; try reflexivity.
  - now destruct (Hr r).
  - now destruct (Hl l).
Qed.

(** A tool configuration whose ['tool'] entry is neither a registry nor a
    list, or is missing, refuses the request before the transport is
    called: the [RuntimeError] of [_prepare_tool_config] (the [KeyError]
    for a missing entry) is the outcome, and no transport call and no tool
    call has been made. *)
Theorem unknown_tool_shape_refused (net : Transport) (is_word : ascii -> bool)
    (self : AnthropicAgent) (input_text user_id session_id : string)
    (chat_history : list Message) (additional_params : option (gmap string string))
    (w : World) (turns : list Turn) (cfg : ToolConfig) :
  history_turns chat_history = Ok turns ->
  (forall f, retriever self = Some f -> exists ctx, f input_text = Ok ctx) ->
  tool_config self = Some cfg ->
  dict_truth cfg = true ->
  (forall r, tool cfg <> Some (ToolsRegistry r)) ->
  (forall l, tool cfg <> Some (ToolsList l)) ->
  let out := process_request net is_word self input_text user_id session_id
               chat_history additional_params w in
  fst out = Raise (match tool cfg with
                   | Some _ => RuntimeError "Invalid tool config"
                   | None => KeyError "tool"
                   end)
  /\ quiet w (snd out).
Proof.
  intros Hh Hret Hcfg Hd Hr Hl out. subst out. unfold process_request.
  rewrite (bind_ok _ _ _ _ _ (prepare_conversation_ok input_text _ _ w Hh)).
  match goal with |- context [mkWorld ?h ?c ?t] =>
    pose proof (prepare_system_prompt_cases is_word self input_text (mkWorld h c t))
      as [Hq Hres];
    destruct (_prepare_system_prompt is_word self input_text (mkWorld h c t))
      as [[[self' sp]|e] w1] eqn:Hprep
  end; cbn [fst snd] in *.
  - subst self'. rewrite (bind_ok _ _ _ _ _ Hprep). cbv beta iota.
    unfold bind at 1. unfold lift.
    rewrite (build_input_unknown_shape (update_system_prompt is_word self) cfg
               _ sp Hcfg Hd Hr Hl).
    cbn [fst snd]. split; [reflexivity|].
    eapply quiet_trans; [apply quiet_new_list|exact Hq].
  - destruct Hres as (f & Hf & He). destruct (Hret f Hf) as [ctx Hctx]. congruence.
Qed.

Lemma unknown_tool_shape_refused_witness :
  let out := process_request (Scenario.always Scenario.text_only) ascii_word
               (Scenario.agent (Some (mkToolConfig (Some ToolsOther) None None)) None)
               "What is 2+2?" "user" "session" [] None Scenario.world in
  fst out = Raise (RuntimeError "Invalid tool config")
  /\ quiet Scenario.world (snd out).
Proof.
  apply (unknown_tool_shape_refused (Scenario.always Scenario.text_only) ascii_word
           (Scenario.agent (Some (mkToolConfig (Some ToolsOther) None None)) None)
           "What is 2+2?" "user" "session" [] None Scenario.world []
           (mkToolConfig (Some ToolsOther) None None)).
  - reflexivity.
  - intros f H. vm_compute in H. discriminate.
  - reflexivity.
  - reflexivity.
  - intros r H. discriminate.
  - intros l H. discriminate.
Defined.

(** In streaming mode [process_request] is lazy: whatever the input, it
    returns (or raises) without a transport call, a tool call or a chunk;
    the rounds run when the generator is consumed. *)
Theorem streaming_request_lazy (net : Transport) (is_word : ascii -> bool)
    (self : AnthropicAgent) (input_text user_id session_id : string)
    (chat_history : list Message) (additional_params : option (gmap string string))
    (w : World) :
  flag_truth (streaming self) = true ->
  let out := process_request net is_word self input_text user_id session_id
               chat_history additional_params w in
  quiet w (snd out)
  /\ (forall self' reply, fst out = Ok (self', reply) ->
        exists p loc, reply = Chunks (stream_generator net self' p loc
                                        (_get_max_recursions self'))).
Proof.
  intros Hs out. subst out.
  destruct (history_turns chat_history) as [turns|e] eqn:Hh.
  - unfold process_request.
    rewrite (bind_ok _ _ _ _ _ (prepare_conversation_ok input_text _ _ w Hh)).
    pose proof (quiet_new_list w (turns ++ [mkTurn "user" (TextContent input_text)]))
      as Hq0.
    match goal with |- context [mkWorld ?h ?c ?t] =>
      pose proof (prepare_system_prompt_cases is_word self input_text (mkWorld h c t))
        as [Hq Hres];
      destruct (_prepare_system_prompt is_word self input_text (mkWorld h c t))
        as [[[self' sp]|e] w1] eqn:Hprep
    end; cbn [fst snd] in *.
    + subst self'. rewrite (bind_ok _ _ _ _ _ Hprep). cbv beta iota.
      destruct (_build_input (update_system_prompt is_word self) (length (heap w)) sp)
        as [p|e] eqn:Hb.
      * rewrite (bind_ok _ _ _ _ _ (eq_refl : lift (Ok p) w1 = (Ok p, w1))).
        unfold _process_with_strategy.
        change (streaming (update_system_prompt is_word self)) with (streaming self).
        rewrite Hs. unfold _handle_streaming. munfold. cbn [fst snd].
        split; [exact (quiet_trans _ _ _ Hq0 Hq)|].
        intros self' reply H. inversion H; subst. eexists _, _. reflexivity.
      * rewrite (bind_raise _ _ _ _ _ (eq_refl : lift (Raise e) w1 = (Raise e, w1))).
        cbn [fst snd]. split; [exact (quiet_trans _ _ _ Hq0 Hq)|]. intros ? ? [=].
    + rewrite (bind_raise _ _ _ _ _ Hprep). cbn [fst snd].
      split; [exact (quiet_trans _ _ _ Hq0 Hq)|]. intros ? ? [=].
  - unfold process_request, _prepare_conversation.
    rewrite Hh, bind_bind.
    rewrite (bind_raise _ _ _ _ _ (eq_refl : lift (Raise e) w = (Raise e, w))).
    cbn [fst snd]. split; [apply quiet_refl|]. intros ? ? [=].
Qed.

Lemma streaming_request_lazy_witness :
  let out := process_request (Scenario.always Scenario.text_then_tool) ascii_word
               (Scenario.agent (Scenario.with_registry None) (Some true))
               "What is 2+2?" "user" "session" [] None Scenario.world in
  quiet Scenario.world (snd out)
  /\ (forall self' reply, fst out = Ok (self', reply) ->
        exists p loc, reply = Chunks (stream_generator
                                        (Scenario.always Scenario.text_then_tool)
                                        self' p loc (_get_max_recursions self'))).
Proof.
  apply (streaming_request_lazy (Scenario.always Scenario.text_then_tool) ascii_word
           (Scenario.agent (Scenario.with_registry None) (Some true))
           "What is 2+2?" "user" "session" [] None Scenario.world).
  reflexivity.
Defined.

(** ** The request payload *)

(** The payload [_build_input] returns carries the given messages and
    prompt and the model of the agent, and it has tool declarations exactly
    when the agent has a tool configuration; for a raw list the
    declarations are as many as the tools, for a registry they are those it
    formats. *)
Theorem build_input_payload (self : AnthropicAgent) (messages : nat)
    (system_prompt : string) (p : Payload) :
  _build_input self messages system_prompt = Ok p ->
  p_messages p = messages
  /\ p_system p = system_prompt
  /\ p_model p = model_id self
  /\ (p_tools p = None <-> tool_config_truth (tool_config self) = false)
  /\ (forall cfg l decls, tool_config self = Some cfg -> tool cfg = Some (ToolsList l) ->
        p_tools p = Some decls -> length decls = length l)
  /\ (forall cfg r, tool_config self = Some cfg -> tool cfg = Some (ToolsRegistry r) ->
        p_tools p = Some (to_claude_format r)).
Proof.
  unfold _build_input. intros H.
  destruct (tool_config_truth (tool_config self)) eqn:Ht.
  - destruct (_prepare_tool_config self) as [tools|e] eqn:Hp; [|discriminate].
    inversion H; subst; clear H. cbn.
    split; [reflexivity|]. split; [reflexivity|]. split; [reflexivity|].
    split; [split; discriminate|]. split.
    + intros cfg l decls Hcfg Hl Hd. inversion Hd; subst; clear Hd.
      unfold _prepare_tool_config in Hp.
      rewrite Hcfg, Hl in Hp. inversion Hp. now rewrite length_map.
    + intros cfg r Hcfg Hr. unfold _prepare_tool_config in Hp.
      rewrite Hcfg, Hr in Hp. now inversion Hp.
  - inversion H; subst; clear H. cbn.
    split; [reflexivity|]. split; [reflexivity|]. split; [reflexivity|].
    split; [split; reflexivity|]. split.
    + intros cfg l decls Hcfg Hl. discriminate.
    + intros cfg r Hcfg Hr. unfold tool_config_truth, dict_truth in Ht.
      rewrite Hcfg, Hr in Ht. discriminate.
Qed.

Lemma build_input_payload_witness :
  let p := mkPayload "claude-3-5-sonnet-20240620" (Some (IInt 1000)) 0 "prompt"
             (Some (IDecimal 1 (-1))) (Some (IDecimal 9 (-1))) (Some (IStrings []))
             (Some [mkToolDecl "calculator"]) in
  let self := Scenario.agent Scenario.raw_list None in
  p_messages p = 0%nat
  /\ p_system p = "prompt"
  /\ p_model p = model_id self
  /\ (p_tools p = None <-> tool_config_truth (tool_config self) = false)
  /\ (forall cfg l decls, tool_config self = Some cfg -> tool cfg = Some (ToolsList l) ->
        p_tools p = Some decls -> length decls = length l)
  /\ (forall cfg r, tool_config self = Some cfg -> tool cfg = Some (ToolsRegistry r) ->
        p_tools p = Some (to_claude_format r)).
Proof.
  apply (build_input_payload (Scenario.agent Scenario.raw_list None) 0 "prompt").
  reflexivity.
Defined.

(** ** A budget that is not positive *)



(** ** Tool rounds and the message list *)

Lemma heap_get_with_append_eq (w : World) (l : nat) (x : Turn) :
  (l < length (heap w))%nat ->
  heap_get (with_append w l x) l = heap_get w l ++ [x].
Proof.
  intros Hl. unfold heap_get, with_append. cbn [heap].
  now rewrite list_lookup_insert_eq by exact Hl.
Qed.

Lemma heap_get_with_append_ne (w : World) (l l' : nat) (x : Turn) :
  l <> l' -> heap_get (with_append w l x) l' = heap_get w l'.
Proof.
  intros Hl. unfold heap_get, with_append. cbn [heap].
  now rewrite list_lookup_insert_ne by exact Hl.
Qed.

Lemma with_append_length (w : World) (l : nat) (x : Turn) :
  length (heap (with_append w l x)) = length (heap w).
Proof. unfold with_append. cbn [heap]. apply length_insert. Qed.

(** A dispatch that returns has called one handler, and has changed
    neither the lists nor the count of transport calls. *)
Lemma process_tool_block_ok (self : AnthropicAgent) (r : Message) (l : nat)
    (w w' : World) (t : Turn) :
  _process_tool_block self r l w = (Ok t, w') ->
  exists ev, is_tool_call ev = true /\ w' = with_event w ev.
Proof.
  unfold _process_tool_block.
  destruct (tool_config self) as [cfg|]; [|discriminate].
  destruct (useToolHandler cfg) as [h|].
  - munfold. intros H. inversion H; subst. eexists. split; [|reflexivity]. reflexivity.
  - destruct (tool cfg) as [[reg|lst|]|]; try discriminate.
    munfold. intros H. inversion H; subst. eexists. split; [|reflexivity]. reflexivity.
Qed.

Section ToolRounds.

Variable net : Transport.
Variable self : AnthropicAgent.
Variable payload_input : Payload.
Variable messages : nat.

Local Abbreviation body := (single_round net self payload_input messages).
Local Abbreviation loc := (p_messages payload_input).

(** No tool dispatch raises. *)
Hypothesis dispatch_answers : forall r l w,
  exists t w', _process_tool_block self r l w = (Ok t, w').

(** One tool round that succeeds. *)
Lemma single_tool_round (st : LoopState) (w : World) :
  requests_tool (messages_create net (calls w)) = true ->
  exists st' w',
    body st w = (Ok st', w')
    /\ continue_with_tools st' = continue_with_tools st
    /\ max_recursions st' = max_recursions st - 1
    /\ calls w' = S (calls w)
    /\ length (tool_calls (trace w')) = S (length (tool_calls (trace w)))
    /\ length (heap w') = length (heap w)
    /\ ((loc < length (heap w))%nat ->
        length (heap_get w' loc) = S (S (length (heap_get w loc)))).
Proof.
  intros Hreq. unfold requests_tool in Hreq. rewrite single_round_eq.
  destruct (messages_create net (calls w)) as [r|e]; [|discriminate].
  destruct (any_tool_use (content r)) as [[|]|e]; try discriminate.
  destruct (dispatch_answers r messages (after_assistant payload_input w r))
    as (t & w2 & Hd).
  rewrite Hd. apply process_tool_block_ok in Hd as (ev & Hev & ->).
  eexists _, _. split; [reflexivity|]. cbn [continue_with_tools max_recursions].
  split; [reflexivity|]. split; [reflexivity|]. split; [reflexivity|].
  split; [|split].
  - cbn [with_append with_event after_assistant after_create with_call trace].
    rewrite !tool_calls_app. cbn [tool_calls List.filter is_tool_call]. rewrite Hev.
    rewrite !length_app. cbn. lia.
  - rewrite with_append_length. cbn [with_event heap].
    unfold after_assistant. now rewrite with_append_length.
  - intros Hl. rewrite heap_get_with_append_eq.
    + unfold heap_get at 1. cbn [with_event heap]. fold (heap_get (after_assistant payload_input w r) loc).
      unfold after_assistant. rewrite heap_get_with_append_eq by exact Hl.
      rewrite !length_app. cbn. unfold heap_get. cbn. lia.
    + cbn [with_event heap]. unfold after_assistant. now rewrite with_append_length.
Qed.

(** [k] tool rounds in a row, within the budget. *)
Lemma single_loop_tool_rounds (k : nat) :
  forall (st : LoopState) (w : World),
    continue_with_tools st = true ->
    Z.of_nat k < max_recursions st ->
    (forall i, (i < k)%nat -> requests_tool (messages_create net (calls w + i)) = true) ->
    exists st' w',
      while_loop body (Z.to_nat (max_recursions st)) st w
      = while_loop body (Z.to_nat (max_recursions st')) st' w'
      /\ continue_with_tools st' = true
      /\ max_recursions st' = max_recursions st - Z.of_nat k
      /\ calls w' = (calls w + k)%nat
      /\ length (tool_calls (trace w')) = (length (tool_calls (trace w)) + k)%nat
      /\ length (heap w') = length (heap w)
      /\ ((loc < length (heap w))%nat ->
          length (heap_get w' loc) = (length (heap_get w loc) + 2 * k)%nat).
Proof.
  induction k as [|k IH]; intros st w Hcont Hk Hreq.
  - exists st, w. split; [reflexivity|]. split; [exact Hcont|].
    split; [lia|]. split; [lia|]. split; [lia|]. split; [reflexivity|]. intros _. lia.
  - pose proof (Hreq 0%nat ltac:(lia)) as H0. rewrite Nat.add_0_r in H0.
    destruct (single_tool_round st w H0)
      as (st1 & w1 & Hb & Hc1 & Hm1 & Hcalls1 & Htc1 & Hh1 & Hl1).
    destruct (IH st1 w1 ltac:(congruence) ltac:(lia)) as
      (st' & w' & Hloop & Hc' & Hm' & Hcalls' & Htc' & Hh' & Hl').
    { intros i Hi. rewrite Hcalls1.
      replace (S (calls w) + i)%nat with (calls w + S i)%nat by lia.
      apply Hreq. lia. }
    exists st', w'. split.
    + rewrite <- Hloop.
      destruct (Z.to_nat (max_recursions st)) as [|n] eqn:Hn; [lia|].
      cbn [while_loop]. unfold loop_cond. rewrite Hcont.
      destruct (0 <? max_recursions st) eqn:Hpos; [|apply Z.ltb_ge in Hpos; lia].
      cbn [andb]. unfold bind. rewrite Hb. f_equal. lia.
    + split; [exact Hc'|]. split; [lia|]. split; [lia|]. split; [lia|].
      split; [congruence|]. intros Hl. rewrite Hl' by lia. rewrite Hl1 by exact Hl. lia.
Qed.

End ToolRounds.

(** The single-response loop at its best: when the first [k] responses ask
    for a tool, the next one is text, the budget allows [k + 1] rounds and
    no dispatch raises, the function returns the assistant message with the
    text of the first block of that last response, after [k + 1] transport
    calls and [k] tool calls; the message list has grown by the two turns
    of each tool round. *)
Theorem single_loop_answer (net : Transport) (self : AnthropicAgent)
    (payload_input : Payload) (messages : nat) (budget : Z) (w : World)
    (k : nat) (r : Message) (t : string) :
  (forall r l w0, exists t w1, _process_tool_block self r l w0 = (Ok t, w1)) ->
  Z.of_nat k < budget ->
  (forall i, (i < k)%nat -> requests_tool (messages_create net (calls w + i)) = true) ->
  messages_create net (calls w + k) = Ok r ->
  any_tool_use (content r) = Ok false ->
  first_text (content r) = Ok t ->
  (p_messages payload_input < length (heap w))%nat ->
  let out := _handle_single_response_loop net self payload_input messages budget w in
  fst out = Ok (mkMessage ParticipantRole_ASSISTANT [DictItem (Some t)])
  /\ calls (snd out) = (calls w + k + 1)%nat
  /\ length (tool_calls (trace (snd out))) = (length (tool_calls (trace w)) + k)%nat
  /\ length (heap_get (snd out) (p_messages payload_input))
     = (length (heap_get w (p_messages payload_input)) + 2 * k)%nat.
Proof.
  intros Hd Hk Hreq Hr Hno Ht Hl out. subst out.
  destruct (single_loop_tool_rounds net self payload_input messages Hd k
              (loop_init budget) w eq_refl Hk Hreq)
    as (st' & w' & Hloop & Hc' & Hm' & Hcalls' & Htc' & Hh' & Hl').
  cbn [loop_init max_recursions] in Hloop, Hm'.
  unfold _handle_single_response_loop, bind. rewrite Hloop.
  destruct (Z.to_nat (max_recursions st')) as [|n] eqn:Hn; [lia|].
  cbn [while_loop]. unfold loop_cond. rewrite Hc'.
  destruct (0 <? max_recursions st') eqn:Hpos; [|apply Z.ltb_ge in Hpos; lia].
  cbn [andb]. unfold bind. rewrite single_round_eq, Hcalls', Hr, Hno.
  rewrite while_loop_stopped. unfold final_of. cbn [response]. munfold. rewrite Ht.
  cbn [fst snd]. split; [reflexivity|]. split; [cbn; lia|]. split.
  - cbn [after_create with_call trace]. rewrite tool_calls_app. cbn.
    rewrite app_nil_r. exact Htc'.
  - unfold heap_get in *. cbn [after_create with_call heap]. apply Hl'. exact Hl.
Qed.

Lemma single_loop_answer_witness :
  let out := _handle_single_response_loop Scenario.tool_then_text
               (Scenario.agent (Scenario.with_registry None) None)
               Scenario.payload 0 5 Scenario.world in
  fst out = Ok (mkMessage ParticipantRole_ASSISTANT [DictItem (Some "4")])
  /\ calls (snd out) = (calls Scenario.world + 1 + 1)%nat
  /\ length (tool_calls (trace (snd out)))
     = (length (tool_calls (trace Scenario.world)) + 1)%nat
  /\ length (heap_get (snd out) (p_messages Scenario.payload))
     = (length (heap_get Scenario.world (p_messages Scenario.payload)) + 2 * 1)%nat.
Proof.
  apply (single_loop_answer Scenario.tool_then_text
           (Scenario.agent (Scenario.with_registry None) None)
           Scenario.payload 0 5 Scenario.world 1 Scenario.text_only "4").
  - intros r l w0. eexists. eexists. reflexivity.
  - reflexivity.
  - intros [|i] Hi; [reflexivity|lia].
  - reflexivity.
  - reflexivity.
  - reflexivity.
  - cbn. lia.
Defined.

(** A transport call that raises ends the single-response loop with that
    exception, unchanged: after [k] tool rounds within the budget, a
    failing next call is the last one (there is no retry), the error is
    logged, and the exception is raised to the caller. *)
Theorem single_loop_transport_error (net : Transport) (self : AnthropicAgent)
    (payload_input : Payload) (messages : nat) (budget : Z) (w : World)
    (k : nat) (e : PyExn) :
  (forall r l w0, exists t w1, _process_tool_block self r l w0 = (Ok t, w1)) ->
  Z.of_nat k < budget ->
  (forall i, (i < k)%nat -> requests_tool (messages_create net (calls w + i)) = true) ->
  messages_create net (calls w + k) = Raise e ->
  let out := _handle_single_response_loop net self payload_input messages budget w in
  fst out = Raise e
  /\ calls (snd out) = (calls w + k + 1)%nat
  /\ last (trace (snd out)) = Some (EvLoggerError single_error_context e)
  /\ length (tool_calls (trace (snd out))) = (length (tool_calls (trace w)) + k)%nat.
Proof.
  intros Hd Hk Hreq Hr out. subst out.
  destruct (single_loop_tool_rounds net self payload_input messages Hd k
              (loop_init budget) w eq_refl Hk Hreq)
    as (st' & w' & Hloop & Hc' & Hm' & Hcalls' & Htc' & _).
  cbn [loop_init max_recursions] in Hloop, Hm'.
  unfold _handle_single_response_loop, bind. rewrite Hloop.
  destruct (Z.to_nat (max_recursions st')) as [|n] eqn:Hn; [lia|].
  cbn [while_loop]. unfold loop_cond. rewrite Hc'.
  destruct (0 <? max_recursions st') eqn:Hpos; [|apply Z.ltb_ge in Hpos; lia].
  cbn [andb]. unfold bind. rewrite single_round_eq, Hcalls', Hr.
  cbn [fst snd]. split; [reflexivity|]. split; [cbn; lia|]. split.
  - cbn [with_event trace]. now rewrite last_snoc.
  - cbn [with_event after_create with_call trace]. rewrite !tool_calls_app. cbn.
    rewrite !app_nil_r. exact Htc'.
Qed.

Lemma single_loop_transport_error_witness :
  let out := _handle_single_response_loop Scenario.tool_then_failure
               (Scenario.agent (Scenario.with_registry None) None)
               Scenario.payload 0 5 Scenario.world in
  fst out = Raise (ExternalError "rate limit")
  /\ calls (snd out) = (calls Scenario.world + 1 + 1)%nat
  /\ last (trace (snd out))
     = Some (EvLoggerError single_error_context (ExternalError "rate limit"))
  /\ length (tool_calls (trace (snd out)))
     = (length (tool_calls (trace Scenario.world)) + 1)%nat.
Proof.
  apply (single_loop_transport_error Scenario.tool_then_failure
           (Scenario.agent (Scenario.with_registry None) None)
           Scenario.payload 0 5 Scenario.world 1 (ExternalError "rate limit")).
  - intros r l w0. eexists. eexists. reflexivity.
  - reflexivity.
  - intros [|i] Hi; [reflexivity|lia].
  - reflexivity.
Defined.

(** The turns of a tool round are appended in order: after a round whose
    response asks for a tool and whose dispatch returns [t], the message
    list of the payload is the list before the round, followed by the
    assistant turn with the content of the response, followed by [t]. *)
Theorem tool_round_appends (net : Transport) (self : AnthropicAgent)
    (payload_input : Payload) (messages : nat) (st : LoopState) (w : World)
    (r : Message) (t : Turn) (w2 : World) :
  messages_create net (calls w) = Ok r ->
  any_tool_use (content r) = Ok true ->
  _process_tool_block self r messages (after_assistant payload_input w r) = (Ok t, w2) ->
  (p_messages payload_input < length (heap w))%nat ->
  let out := single_round net self payload_input messages st w in
  (exists st', fst out = Ok st')
  /\ heap_get (snd out) (p_messages payload_input)
     = heap_get w (p_messages payload_input) ++ [assistant_turn r; t].
Proof.
  intros Hr Htool Hd Hl out. subst out. rewrite single_round_eq, Hr, Htool, Hd.
  cbn [fst snd]. split; [eauto|].
  apply process_tool_block_ok in Hd as (ev & _ & ->).
  rewrite heap_get_with_append_eq.
  - unfold heap_get at 1. cbn [with_event heap].
    fold (heap_get (after_assistant payload_input w r) (p_messages payload_input)).
    unfold after_assistant. rewrite heap_get_with_append_eq by exact Hl.
    unfold heap_get. cbn [after_create with_call heap]. now rewrite <- app_assoc.
  - cbn [with_event heap]. unfold after_assistant. now rewrite with_append_length.
Qed.

Lemma tool_round_appends_witness :
  let out := single_round Scenario.tool_then_text
               (Scenario.agent (Scenario.with_registry None) None)
               Scenario.payload 0 (loop_init 5) Scenario.world in
  (exists st', fst out = Ok st')
  /\ heap_get (snd out) (p_messages Scenario.payload)
     = heap_get Scenario.world (p_messages Scenario.payload)
       ++ [assistant_turn Scenario.text_then_tool; Scenario.answer].
Proof.
  apply (tool_round_appends Scenario.tool_then_text
           (Scenario.agent (Scenario.with_registry None) None)
           Scenario.payload 0 (loop_init 5) Scenario.world Scenario.text_then_tool
           Scenario.answer
           (with_event (after_assistant Scenario.payload Scenario.world
                          Scenario.text_then_tool)
              (EvToolHandler AgentProviderType_ANTHROPIC Scenario.text_then_tool
                 [Scenario.question; assistant_turn Scenario.text_then_tool]))).
  - reflexivity.
  - reflexivity.
  - reflexivity.
  - cbn. lia.
Defined.

(** A tool dispatch that raises leaves its mark: the exception ends the
    loop, and the assistant turn appended before the dispatch stays in the
    message list, with no tool result after it. *)
Theorem tool_failure_keeps_assistant_turn (net : Transport) (self : AnthropicAgent)
    (payload_input : Payload) (messages : nat) (budget : Z) (w : World)
    (r : Message) (e : PyExn) (w2 : World) :
  0 < budget ->
  messages_create net (calls w) = Ok r ->
  any_tool_use (content r) = Ok true ->
  _process_tool_block self r messages (after_assistant payload_input w r) = (Raise e, w2) ->
  (p_messages payload_input < length (heap w))%nat ->
  let out := _handle_single_response_loop net self payload_input messages budget w in
  fst out = Raise e
  /\ calls (snd out) = S (calls w)
  /\ heap_get (snd out) (p_messages payload_input)
     = heap_get w (p_messages payload_input) ++ [assistant_turn r].
Proof.
  intros Hb Hr Htool Hd Hl out. subst out.
  unfold _handle_single_response_loop, bind.
  rewrite (while_loop_first_round _ _ w Hb), single_round_eq, Hr, Htool, Hd.
  cbn [fst snd].
  pose proof (process_tool_block_frame self r messages
                (after_assistant payload_input w r)) as [Hc Hh].
  rewrite Hd in Hc, Hh. cbn [snd] in Hc, Hh.
  split; [reflexivity|]. split; [rewrite Hc; reflexivity|].
  unfold heap_get at 1. rewrite Hh.
  fold (heap_get (after_assistant payload_input w r) (p_messages payload_input)).
  unfold after_assistant. rewrite heap_get_with_append_eq by exact Hl. reflexivity.
Qed.

Lemma tool_failure_keeps_assistant_turn_witness :
  let out := _handle_single_response_loop (Scenario.always Scenario.tool_only)
               (Scenario.agent Scenario.raw_list None) Scenario.payload 0 5
               Scenario.world in
  fst out = Raise (ValueError raw_list_error)
  /\ calls (snd out) = S (calls Scenario.world)
  /\ heap_get (snd out) (p_messages Scenario.payload)
     = heap_get Scenario.world (p_messages Scenario.payload)
       ++ [assistant_turn Scenario.tool_only].
Proof.
  apply (tool_failure_keeps_assistant_turn (Scenario.always Scenario.tool_only)
           (Scenario.agent Scenario.raw_list None) Scenario.payload 0 5
           Scenario.world Scenario.tool_only (ValueError raw_list_error)
           (after_assistant Scenario.payload Scenario.world Scenario.tool_only)).
  - reflexivity.
  - reflexivity.
  - reflexivity.
  - reflexivity.
  - cbn. lia.
Defined.

(** The conversation a custom tool handler is given is the list object
    [messages] as it is when the handler is called.  When that is the
    message list of the payload, as it always is in [process_request], the
    handler finds the assistant turn of the round already appended; when it
    is another list, it finds that list untouched. *)
Theorem handler_conversation (net : Transport) (self : AnthropicAgent)
    (payload_input : Payload) (messages : nat) (st : LoopState) (w : World)
    (cfg : ToolConfig) (h : Message -> list Turn -> Result Turn) (r : Message) :
  tool_config self = Some cfg ->
  useToolHandler cfg = Some h ->
  messages_create net (calls w) = Ok r ->
  any_tool_use (content r) = Ok true ->
  (p_messages payload_input < length (heap w))%nat ->
  let out := single_round net self payload_input messages st w in
  tool_calls (trace (snd out))
  = tool_calls (trace w)
    ++ [EvUseToolHandler r
          (if Nat.eqb messages (p_messages payload_input)
           then heap_get w messages ++ [assistant_turn r]
           else heap_get w messages)].
Proof.
  intros Hcfg Hh Hr Htool Hl out. subst out. rewrite single_round_eq, Hr, Htool.
  unfold _process_tool_block. rewrite Hcfg, Hh. munfold.
  assert (heap_get (after_assistant payload_input w r) messages
          = if Nat.eqb messages (p_messages payload_input)
            then heap_get w messages ++ [assistant_turn r]
            else heap_get w messages) as Hconv.
  { unfold after_assistant. destruct (Nat.eqb_spec messages (p_messages payload_input)) as [->|Hne].
    - now rewrite heap_get_with_append_eq by exact Hl.
    - rewrite heap_get_with_append_ne by congruence. reflexivity. }
  rewrite Hconv.
  match goal with |- context [h r ?conv] => destruct (h r conv) as [t|e] end;
    cbn [snd with_append with_event after_assistant after_create with_call trace];
    rewrite !tool_calls_app; cbn; now rewrite app_nil_r.
Qed.

Lemma handler_conversation_witness :
  let out := single_round Scenario.tool_then_text
               (Scenario.agent Scenario.raw_list_with_handler None)
               Scenario.payload 0 (loop_init 5) Scenario.world in
  tool_calls (trace (snd out))
  = tool_calls (trace Scenario.world)
    ++ [EvUseToolHandler Scenario.text_then_tool
          (if Nat.eqb 0 (p_messages Scenario.payload)
           then heap_get Scenario.world 0 ++ [assistant_turn Scenario.text_then_tool]
           else heap_get Scenario.world 0)].
Proof.
  apply (handler_conversation Scenario.tool_then_text
           (Scenario.agent Scenario.raw_list_with_handler None)
           Scenario.payload 0 (loop_init 5) Scenario.world
           (mkToolConfig (Some (ToolsList [RawTool (mkToolDecl "calculator")])) None
              (Some Scenario.handler))
           Scenario.handler Scenario.text_then_tool).
  - reflexivity.
  - reflexivity.
  - reflexivity.
  - reflexivity.
  - cbn. lia.
Defined.

(** ** Streaming, continued *)

(** Every stream is a run of events that are not [content_block_stop],
    followed by one of the three endings. *)
Lemma stream_events_split (events : list (Result StreamEvent)) :
  exists pre ending,
    events = List.map Ok pre ++ ending_events ending
    /\ Forall (fun ev => event_type ev <> "content_block_stop") pre.
Proof.
  induction events as [|[ev|e] rest (pre & ending & -> & Hpre)].
  - exists [], Exhausted. split; [reflexivity|constructor].
  - destruct (String.eqb_spec (event_type ev) "content_block_stop") as [Heq|Hne].
    + exists [], (Stopped (event_text ev) (List.map Ok pre ++ ending_events ending)).
      split; [|constructor]. destruct ev as [ty tx]. cbn in Heq. subst ty. reflexivity.
    + exists (ev :: pre), ending. split; [reflexivity|]. constructor; assumption.
  - exists [], (Failed e (List.map Ok pre ++ ending_events ending)).
    split; [reflexivity|constructor].
Qed.

(** What the iteration forwards and how it ends, for a stream given by its
    events before the ending and its ending. *)
Lemma forwarded_split (pre : list StreamEvent) (ending : StreamEnding) :
  Forall (fun ev => event_type ev <> "content_block_stop") pre ->
  forwarded (List.map Ok pre ++ ending_events ending) = texts_of pre
  /\ stream_failure (List.map Ok pre ++ ending_events ending)
     = match ending with Failed e _ => Some e | _ => None end.
Proof.
  induction 1 as [|ev pre Hev _ IH].
  - destruct ending; split; reflexivity.
  - destruct IH as [IHf IHs]. unfold texts_of in *.
    cbn [List.map app forwarded stream_failure List.filter].
    destruct (String.eqb (event_type ev) "text"); cbn [List.map].
    + split; [now f_equal|exact IHs].
    + destruct (String.eqb_spec (event_type ev) "content_block_stop"); [contradiction|].
      split; assumption.
Qed.

(** The whole of one run of [handle_streaming_response], as its caller
    sees it.  The stream is opened with one transport call, on the
    messages of the payload; the list objects are left as they are.  When
    the call raises, the error is logged and raised again.  Otherwise, for
    the text events before the first [content_block_stop] or the failure
    of the stream, and for no other event, the notification hook is called
    with the text and right after it the text chunk is yielded, event by
    event in order.  Then, when the stream or [get_final_message] raised,
    the error is logged and raised again, and no chunk follows; else one
    more chunk is yielded, which carries the content of the accumulated
    message with the assistant role, and the run ends. *)
Theorem streamed_round_trace (net : Transport) (input : Payload) (w : World) :
  let out := handle_streaming_response net to_caller input tt w in
  let call := EvStream input (heap_get w (p_messages input)) in
  calls (snd out) = S (calls w)
  /\ heap (snd out) = heap w
  /\ (forall e, messages_stream net (calls w) = Raise e ->
        out = (Raise e,
               mkWorld (heap w) (S (calls w))
                 (trace w ++ [call; EvLoggerError stream_error_context e])))
  /\ (forall pre ending final,
        messages_stream net (calls w)
        = Ok (mkStream (List.map Ok pre ++ ending_events ending) final) ->
        Forall (fun ev => event_type ev <> "content_block_stop") pre ->
        let forwarding :=
          flat_map (fun ev => [EvNewToken (event_text ev);
                               EvYield (text_chunk (event_text ev))])
            (List.filter (fun ev => String.eqb (event_type ev) "text") pre) in
        out = match stream_outcome ending final with
              | Raise e =>
                  (Raise e,
                   mkWorld (heap w) (S (calls w))
                     (trace w ++ call :: forwarding
                              ++ [EvLoggerError stream_error_context e]))
              | Ok accumulated =>
                  (Ok tt,
                   mkWorld (heap w) (S (calls w))
                     (trace w ++ call :: forwarding
                              ++ [EvYield (final_chunk
                                     (mkMessage ParticipantRole_ASSISTANT
                                        (content accumulated)))]))
              end).
Proof.
  intros out call. subst out. rewrite handle_streaming_response_caller.
  assert (forall l : list StreamEvent,
             flat_map (fun ev => [EvNewToken (event_text ev);
                                  EvYield (text_chunk (event_text ev))]) l
             = round_events (List.map event_text l)) as Hflat.
  { induction l as [|ev l IH]; [reflexivity|]. cbn. now rewrite IH. }
  split; [|split; [|split]].
  - destruct (messages_stream net (calls w)) as [script|e]; [|reflexivity].
    cbn zeta. destruct (stream_failure (stream_events script)); [reflexivity|].
    destruct (get_final_message script); reflexivity.
  - destruct (messages_stream net (calls w)) as [script|e]; [|reflexivity].
    cbn zeta. destruct (stream_failure (stream_events script)); [reflexivity|].
    destruct (get_final_message script); reflexivity.
  - intros e ->. unfold with_event, with_call. cbn. now rewrite <- app_assoc.
  - intros pre ending final -> Hpre forwarding. subst forwarding.
    destruct (forwarded_split pre ending Hpre) as [Hf Hs].
    cbn zeta. unfold after_stream. cbn [stream_events get_final_message].
    rewrite Hf, Hs, Hflat. fold (texts_of pre).
    unfold with_event, with_events, with_call. cbn [heap calls trace].
    destruct ending as [|t post|e post]; cbn [stream_outcome].
    + destruct final as [acc|e]; rewrite <- !app_assoc; reflexivity.
    + destruct final as [acc|e]; rewrite <- !app_assoc; reflexivity.
    + rewrite <- !app_assoc; reflexivity.
Qed.

(** One stream that goes on after the end of its first block, and one
    request whose stream cannot be opened. *)
Lemma streamed_round_trace_witness :
  handle_streaming_response Scenario.trailing to_caller Scenario.payload tt Scenario.world
  = (Ok tt,
     mkWorld [[Scenario.question]] 1
       [EvStream Scenario.payload [Scenario.question];
        EvNewToken "a"; EvYield (text_chunk "a");
        EvYield (final_chunk (mkMessage "assistant" [Block "text" (Some "4")]))])
  /\ handle_streaming_response Scenario.tool_then_failure to_caller Scenario.payload tt
       Scenario.world
     = (Raise (ExternalError "rate limit"),
        mkWorld [[Scenario.question]] 1
          [EvStream Scenario.payload [Scenario.question];
           EvLoggerError stream_error_context (ExternalError "rate limit")]).
Proof.
  destruct (streamed_round_trace Scenario.trailing Scenario.payload Scenario.world)
    as (_ & _ & _ & Hok).
  destruct (streamed_round_trace Scenario.tool_then_failure Scenario.payload Scenario.world)
    as (_ & _ & Hfail & _).
  split.
  - apply (Hok [text_event "a"] (Stopped EmptyString [Ok (text_event "b")])
             (Ok Scenario.text_only) eq_refl).
    repeat constructor. discriminate.
  - exact (Hfail (ExternalError "rate limit") eq_refl).
Defined.

Lemma stream_chunks_shape (net : Transport) (n : nat) :
  forall c, exists texts tail,
    stream_chunks net n c = List.map text_chunk texts ++ tail
    /\ (tail = [] \/
        exists t, tail = [final_chunk (mkMessage ParticipantRole_ASSISTANT [DictItem (Some t)])]).
Proof.
  induction n as [|n IH]; intros c; cbn [stream_chunks].
  - exists [], []. split; [reflexivity|now left].
  - unfold round_chunks, round_continues.
    destruct (messages_stream net c) as [script|e].
    + destruct (stream_result script) as [m|e].
      * destruct (any_tool_use (content m)) as [[|]|e].
        -- destruct (IH (S c)) as (texts & tail & -> & Htail).
           exists (forwarded (stream_events script) ++ texts), tail.
           split; [|exact Htail]. rewrite List.map_app, app_nil_r. now rewrite <- app_assoc.
        -- destruct (first_text (content m)) as [t|e].
           ++ eexists (forwarded (stream_events script)), _. split; [|right; eauto].
              now rewrite app_nil_r.
           ++ exists (forwarded (stream_events script)), []. split; [|now left].
              now rewrite !app_nil_r.
        -- exists (forwarded (stream_events script)), []. split; [|now left].
           now rewrite !app_nil_r.
      * exists (forwarded (stream_events script)), []. split; [|now left].
        now rewrite !app_nil_r.
    + exists [], []. split; [reflexivity|now left].
Qed.

(** The chunks of a streamed request, whatever the transport does and
    however the request ends: text chunks, and then at most one terminal
    chunk, built from a text of the model, with nothing after it. *)
Theorem stream_generator_chunks (net : Transport) (self : AnthropicAgent)
    (payload_input : Payload) (messages : nat) (budget : Z) (w : World) :
  (forall r l w0, exists t w1, _process_tool_block self r l w0 = (Ok t, w1)) ->
  let out := stream_generator net self payload_input messages budget w in
  exists texts tail,
    yielded (trace (snd out)) = yielded (trace w) ++ List.map text_chunk texts ++ tail
    /\ (tail = [] \/
        exists t, tail = [final_chunk (mkMessage ParticipantRole_ASSISTANT [DictItem (Some t)])]).
Proof.
  intros Hd out. subst out. rewrite stream_generator_world.
  rewrite (stream_loop_chunks net self payload_input messages Hd
             (Z.to_nat budget) (loop_init budget) w eq_refl eq_refl).
  destruct (stream_chunks_shape net (Z.to_nat budget) (calls w))
    as (texts & tail & -> & Htail).
  exists texts, tail. split; [reflexivity|exact Htail].
Qed.

Lemma stream_generator_chunks_witness :
  let out := stream_generator Scenario.tool_then_text
               (Scenario.agent (Scenario.with_registry None) (Some true))
               Scenario.payload 0 5 Scenario.world in
  exists texts tail,
    yielded (trace (snd out))
    = yielded (trace Scenario.world) ++ List.map text_chunk texts ++ tail
    /\ (tail = [] \/
        exists t, tail = [final_chunk (mkMessage ParticipantRole_ASSISTANT [DictItem (Some t)])]).
Proof.
  apply (stream_generator_chunks Scenario.tool_then_text
           (Scenario.agent (Scenario.with_registry None) (Some true))
           Scenario.payload 0 5 Scenario.world).
  intros r l w0. eexists. eexists. reflexivity.
Defined.

Lemma stream_chunks_answer (net : Transport) (k : nat) :
  forall (n c : nat) (script : StreamScript) (m : Message) (t : string),
    (k < n)%nat ->
    (forall i, (i < k)%nat -> round_continues net (c + i) = true) ->
    messages_stream net (c + k) = Ok script ->
    stream_result script = Ok m ->
    any_tool_use (content m) = Ok false ->
    first_text (content m) = Ok t ->
    exists texts,
      stream_chunks net n c
      = List.map text_chunk texts
        ++ [final_chunk (mkMessage ParticipantRole_ASSISTANT [DictItem (Some t)])].
Proof.
  induction k as [|k IH]; intros n c script m t Hk Hreq Hs Hm Hno Ht.
  - destruct n as [|n]; [lia|]. rewrite Nat.add_0_r in Hs. cbn [stream_chunks].
    unfold round_chunks, round_continues. rewrite Hs, Hm, Hno, Ht.
    exists (forwarded (stream_events script)). now rewrite app_nil_r.
  - destruct n as [|n]; [lia|]. cbn [stream_chunks].
    pose proof (Hreq 0%nat ltac:(lia)) as H0. rewrite Nat.add_0_r in H0. rewrite H0.
    destruct (IH n (S c) script m t ltac:(lia)) as [texts Htexts]; try assumption.
    + intros i Hi. replace (S c + i)%nat with (c + S i)%nat by lia. apply Hreq. lia.
    + now replace (S c + k)%nat with (c + S k)%nat by lia.
    + rewrite Htexts. unfold round_chunks. unfold round_continues in H0.
      destruct (messages_stream net c) as [script0|e]; [|discriminate].
      destruct (stream_result script0) as [m0|e]; [|discriminate].
      destruct (any_tool_use (content m0)) as [[|]|e]; try discriminate.
      exists (forwarded (stream_events script0) ++ texts).
      rewrite List.map_app, app_nil_r. now rewrite <- app_assoc.
Qed.

(** The streaming loop at its best: when the first [k] rounds ask for a
    tool, the next round ends in a message without a tool-use block whose
    first block has the text [t], the budget allows [k + 1] rounds and no
    dispatch raises, the chunks are text chunks followed by exactly one
    terminal chunk, the last one, which carries the assistant message with
    the text [t]. *)
Theorem stream_generator_answer (net : Transport) (self : AnthropicAgent)
    (payload_input : Payload) (messages : nat) (budget : Z) (w : World)
    (k : nat) (script : StreamScript) (m : Message) (t : string) :
  (forall r l w0, exists t w1, _process_tool_block self r l w0 = (Ok t, w1)) ->
  Z.of_nat k < budget ->
  (forall i, (i < k)%nat -> round_continues net (calls w + i) = true) ->
  messages_stream net (calls w + k) = Ok script ->
  stream_result script = Ok m ->
  any_tool_use (content m) = Ok false ->
  first_text (content m) = Ok t ->
  let out := stream_generator net self payload_input messages budget w in
  exists texts,
    yielded (trace (snd out))
    = yielded (trace w) ++ List.map text_chunk texts
      ++ [final_chunk (mkMessage ParticipantRole_ASSISTANT [DictItem (Some t)])].
Proof.
  intros Hd Hk Hreq Hs Hm Hno Ht out. subst out. rewrite stream_generator_world.
  rewrite (stream_loop_chunks net self payload_input messages Hd
             (Z.to_nat budget) (loop_init budget) w eq_refl eq_refl).
  destruct (stream_chunks_answer net k (Z.to_nat budget) (calls w) script m t
              ltac:(lia) Hreq Hs Hm Hno Ht) as [texts ->].
  exists texts. reflexivity.
Qed.

Lemma stream_generator_answer_witness :
  let out := stream_generator Scenario.tool_then_text
               (Scenario.agent (Scenario.with_registry None) (Some true))
               Scenario.payload 0 5 Scenario.world in
  exists texts,
    yielded (trace (snd out))
    = yielded (trace Scenario.world) ++ List.map text_chunk texts
      ++ [final_chunk (mkMessage ParticipantRole_ASSISTANT [DictItem (Some "4")])].
Proof.
  apply (stream_generator_answer Scenario.tool_then_text
           (Scenario.agent (Scenario.with_registry None) (Some true))
           Scenario.payload 0 5 Scenario.world 1
           (mkStream [Ok (text_event "4"); Ok block_stop] (Ok Scenario.text_only))
           (mkMessage ParticipantRole_ASSISTANT (content Scenario.text_only)) "4").
  - intros r l w0. eexists. eexists. reflexivity.
  - reflexivity.
  - intros [|i] Hi; [reflexivity|lia].
  - reflexivity.
  - reflexivity.
  - reflexivity.
  - reflexivity.
Defined.

(** ** Detecting a tool-use block *)

Lemma startswith_iff (p s : string) :
  PyStr.startswith p s = true <-> exists b, s = p +:+ b.
Proof.
  revert s. induction p as [|x p IH]; intros s.
  - cbn. split; [intros _; now exists s|reflexivity].
  - destruct s as [|y s]; cbn [PyStr.startswith].
    + split; [discriminate|]. intros [b Hb]. rewrite PyStrFacts.app_cons in Hb. discriminate.
    + destruct (Ascii.eqb_spec x y) as [->|Hne].
      * rewrite IH. split; intros [b Hb]; exists b.
        -- rewrite PyStrFacts.app_cons. now f_equal.
        -- rewrite PyStrFacts.app_cons in Hb. now inversion Hb.
      * split; [discriminate|]. intros [b Hb].
        rewrite PyStrFacts.app_cons in Hb. inversion Hb. congruence.
Qed.

Lemma contains_iff (sub s : string) :
  PyStr.contains sub s = true <-> exists a b, s = a +:+ sub +:+ b.
Proof.
  induction s as [|y s IH]; cbn [PyStr.contains].
  - rewrite orb_false_r, startswith_iff. split.
    + intros [b Hb]. exists EmptyString, b. exact Hb.
    + intros (a & b & H). destruct a as [|x a].
      * now exists b.
      * rewrite PyStrFacts.app_cons in H. discriminate.
  - rewrite orb_true_iff, startswith_iff, IH. split.
    + intros [[b Hb]|(a & b & Hab)].
      * exists EmptyString, b. exact Hb.
      * exists (String y a), b. rewrite PyStrFacts.app_cons. now f_equal.
    + intros (a & b & H). destruct a as [|x a].
      * left. now exists b.
      * right. rewrite PyStrFacts.app_cons in H. inversion H. now exists a, b.
Qed.

(** A response counts as a tool round when the type of one of its blocks
    holds the text [tool_use] anywhere in it, not only when the type is
    [tool_use] itself: for a content sequence of blocks, [any_tool_use] is
    true exactly when such a block is among them. *)
Theorem tool_use_by_substring (blocks : list (string * option string)) :
  any_tool_use (List.map (fun b => Block (fst b) (snd b)) blocks) = Ok true
  <-> exists ty x a b, (ty, x) ∈ blocks /\ ty = a +:+ "tool_use" +:+ b.
Proof.
  induction blocks as [|[ty x] blocks IH]; cbn [List.map any_tool_use item_type fst snd].
  - split; [discriminate|]. intros (ty & x & a & b & Hin & _). now apply elem_of_nil in Hin.
  - destruct (PyStr.contains "tool_use" ty) eqn:Hc.
    + split; [|reflexivity]. intros _. apply contains_iff in Hc as (a & b & Hab).
      exists ty, x, a, b. split; [apply list_elem_of_here|exact Hab].
    + rewrite IH. split.
      * intros (ty' & x' & a & b & Hin & Hab). exists ty', x', a, b.
        split; [now apply list_elem_of_further|exact Hab].
      * intros (ty' & x' & a & b & Hin & Hab). apply elem_of_cons in Hin as [Heq|Hin].
        -- inversion Heq; subst. 
           assert (PyStr.contains "tool_use" (a +:+ "tool_use" +:+ b) = true) as Ht
             by (apply contains_iff; eauto).
           congruence.
        -- exists ty', x', a, b. split; assumption.
Qed.
